(** * The sensor daemon of dagster: tick evaluation, throttling, run
      de-duplication and dynamic partitions

    A shallow embedding of [dagster/_daemon/sensor.py].  Python objects become
    records, [Optional[...]] becomes [option], dictionaries become [gmap],
    and the statements that touch the instance (the store), raise or yield
    become computations of a small state and exception monad.  Python's
    truth tests ([if x:], [x or 0], [not x]) are written out: an absent
    value, an empty string, an empty list and the number zero are all false.

    The embedding covers one tick of one sensor, [_process_tick_generator]
    and what it calls, run serially (no submit thread pool, so the run
    requests go through the builtin [map]).  The debug crash flags are taken
    absent, in which case [_check_for_debug_crash] returns at once, and the
    telemetry call [log_action] is left out.  Timestamps are numbers of
    seconds, taken in [Z].  Classes that are declared in other modules of
    dagster (the instance and its storage, ticks, runs, the external sensor
    and the code location) are modelled by what the daemon reads from them
    and calls on them; each such definition says so. *)

From stdpp Require Import gmap strings list pretty.
From Stdlib Require Import ZArith Lia.

#[local] Open Scope string_scope.
#[local] Open Scope Z_scope.

(** ** Exceptions and outcomes *)

(** The exceptions the daemon tells apart: the two [BaseException]s that
    [SensorLaunchContext.__exit__] tests for, and every [Exception]. *)
Inductive exn : Type :=
  | KeyboardInterrupt
  | GeneratorExit
  | Exception (msg : string).

#[global] Instance exn_eq_dec : EqDecision exn.
Proof. solve_decision. Defined.

(** [isinstance(e, Exception)], the filter of [except Exception:]. *)
Definition is_Exception (e : exn) : bool :=
  match e with Exception _ => true | _ => false end.

Inductive Result (A : Type) : Type :=
  | Ok (a : A)
  | Raise (e : exn).
Arguments Ok {A} a.
Arguments Raise {A} e.

(** A computation over a mutable state [S]: it ends with a value or with an
    exception, and the effects made before the exception stay. *)
Definition M (S A : Type) : Type := S -> Result A * S.

Definition ret {S A} (a : A) : M S A := fun s => (Ok a, s).

Definition raise {S A} (e : exn) : M S A := fun s => (Raise e, s).

Definition bind {S A B} (m : M S A) (k : A -> M S B) : M S B :=
  fun s => match m s with
           | (Ok a, s') => k a s'
           | (Raise e, s') => (Raise e, s')
           end.

Definition gets {S A} (f : S -> A) : M S A := fun s => (Ok (f s), s).

Definition modify {S} (f : S -> S) : M S unit := fun s => (Ok tt, f s).

(** A pure call that may raise, run inside a computation. *)
Definition liftR {S A} (r : Result A) : M S A := fun s => (r, s).

Notation "x <~ m ;; k" := (bind m (fun x => k))
  (at level 100, m at next level, right associativity).
Notation "m ;;; k" := (bind m (fun _ => k))
  (at level 100, right associativity).

(** [for x in xs: body x], stopped by the first exception. *)
Fixpoint for_each {S A} (xs : list A) (body : A -> M S unit) : M S unit :=
  match xs with
  | [] => ret tt
  | x :: rest => body x ;;; for_each rest body
  end.

(** [check.not_none(v)] *)
Definition check_not_none {S A} (v : option A) : M S A :=
  match v with
  | Some a => ret a
  | None => raise (Exception "CheckError: expected a value, got None")
  end.

(** ** Truth tests *)

Definition truthy_str (s : option string) : bool :=
  match s with
  | Some s => negb (bool_decide (s = ""))
  | None => false
  end.

Definition truthy_num (z : option Z) : bool :=
  match z with
  | Some z => negb (Z.eqb z 0)
  | None => false
  end.

Definition truthy_list {A} (l : list A) : bool :=
  match l with [] => false | _ => true end.

(** [z or 0] *)
Definition or_zero (z : option Z) : Z :=
  if truthy_num z then default 0 z else 0.

(** ** Constants *)

Definition RUN_KEY_TAG : string := "dagster/run_key".
Definition SENSOR_NAME_TAG : string := "dagster/sensor_name".

Inductive TickStatus : Type := STARTED | SKIPPED | SUCCESS | FAILURE.

#[global] Instance TickStatus_eq_dec : EqDecision TickStatus.
Proof. solve_decision. Defined.

Definition FINISHED_TICK_STATES : list TickStatus := [SKIPPED; SUCCESS; FAILURE].

(** Modelled from the spec: [DagsterRunStatus] is declared outside this
    module.  A run is created [NOT_STARTED]; the statuses it takes once it
    was handed to the launcher are the execution's. *)
Inductive DagsterRunStatus : Type :=
  | NOT_STARTED
  | QUEUED
  | RUN_STARTING
  | RUN_STARTED
  | RUN_SUCCESS
  | RUN_FAILURE
  | RUN_CANCELING
  | RUN_CANCELED.

#[global] Instance DagsterRunStatus_eq_dec : EqDecision DagsterRunStatus.
Proof. solve_decision. Defined.

(** ** Data model *)

(** [SerializableErrorInfo], as built by
    [serializable_error_info_from_exc_info]: the message and the class of
    the exception it was taken from. *)
Module SerializableErrorInfo.
Record t : Type := mk { message : string; cls_name : string }.
End SerializableErrorInfo.

#[global] Instance SerializableErrorInfo_eq_dec : EqDecision SerializableErrorInfo.t.
Proof. solve_decision. Defined.

Definition serializable_error_info_from_exc_info (e : exn) : SerializableErrorInfo.t :=
  match e with
  | KeyboardInterrupt => SerializableErrorInfo.mk "" "KeyboardInterrupt"
  | GeneratorExit => SerializableErrorInfo.mk "" "GeneratorExit"
  | Exception msg => SerializableErrorInfo.mk msg "Exception"
  end.

(** The repository a sensor, a job or a run belongs to.  Its selector id is
    a hash of the location and repository names; the pair stands for it. *)
Module ExternalRepositoryOrigin.
Record t : Type := mk { location_name : string; repository_name : string }.
Definition get_selector_id (o : t) : string * string :=
  (location_name o, repository_name o).
End ExternalRepositoryOrigin.

#[global] Instance ExternalRepositoryOrigin_eq_dec : EqDecision ExternalRepositoryOrigin.t.
Proof. solve_decision. Defined.

Module ExternalJobOrigin.
Record t : Type := mk {
  external_repository_origin : ExternalRepositoryOrigin.t;
  job_name : string }.
End ExternalJobOrigin.

#[global] Instance ExternalJobOrigin_eq_dec : EqDecision ExternalJobOrigin.t.
Proof. solve_decision. Defined.

Module ExternalTargetData.
Record t : Type := mk { job_name : string; op_selection : option (list string) }.
End ExternalTargetData.

(** [ExternalSensor]: the class is declared outside this module; these are
    the attributes and methods the daemon reads.  [get_target_data] is the
    sensor's table of targets, taken as it is. *)
Module ExternalSensor.
Record t : Type := mk {
  name : string;
  selector_id : string;
  get_external_origin_id : string;
  external_repository_origin : ExternalRepositoryOrigin.t;
  min_interval_seconds : option Z;
  get_target_data : option string -> option ExternalTargetData.t }.
End ExternalSensor.

Module SensorInstigatorData.
Record t : Type := mk {
  last_tick_timestamp : option Z;
  last_run_key : option string;
  min_interval : option Z;
  cursor : option string;
  last_tick_start_timestamp : option Z }.
End SensorInstigatorData.

#[global] Instance SensorInstigatorData_eq_dec : EqDecision SensorInstigatorData.t.
Proof. solve_decision. Defined.

(** The data a persisted state carries: a sensor's, or another
    instigator's (a schedule's), which the daemon refuses. *)
Inductive InstigatorData : Type :=
  | SensorData (d : SensorInstigatorData.t)
  | ScheduleData.

#[global] Instance InstigatorData_eq_dec : EqDecision InstigatorData.
Proof. solve_decision. Defined.

Inductive InstigatorStatus : Type := RUNNING | AUTOMATICALLY_RUNNING | STOPPED.

#[global] Instance InstigatorStatus_eq_dec : EqDecision InstigatorStatus.
Proof. solve_decision. Defined.

Module InstigatorState.
Record t : Type := mk {
  instigator_origin_id : string;
  instigator_name : string;
  selector_id : string;
  status : InstigatorStatus;
  instigator_data : option InstigatorData }.

Definition with_data (st : t) (d : SensorInstigatorData.t) : t :=
  mk (instigator_origin_id st) (instigator_name st) (selector_id st)
     (status st) (Some (SensorData d)).
End InstigatorState.

#[global] Instance InstigatorState_eq_dec : EqDecision InstigatorState.t.
Proof. solve_decision. Defined.

Module RunRequest.
Record t : Type := mk {
  run_key : option string;
  run_config : string;
  tags : gmap string string;
  job_name : option string;
  asset_selection : option (list string);
  stale_assets_only : bool }.

Definition with_replaced_attrs (r : t) (assets : list string) : t :=
  mk (run_key r) (run_config r) (tags r) (job_name r) (Some assets) false.
End RunRequest.

Inductive DynamicPartitionsRequest : Type :=
  | AddDynamicPartitionsRequest (partitions_def_name : string) (partition_keys : list string)
  | DeleteDynamicPartitionsRequest (partitions_def_name : string) (partition_keys : list string).

Definition partitions_def_name (r : DynamicPartitionsRequest) : string :=
  match r with
  | AddDynamicPartitionsRequest n _ | DeleteDynamicPartitionsRequest n _ => n
  end.

Definition partition_keys (r : DynamicPartitionsRequest) : list string :=
  match r with
  | AddDynamicPartitionsRequest _ ks | DeleteDynamicPartitionsRequest _ ks => ks
  end.

Module DynamicPartitionsRequestResult.
Record t : Type := mk {
  partitions_def_name : string;
  added_partitions : option (list string);
  deleted_partitions : option (list string);
  skipped_partitions : list string }.
End DynamicPartitionsRequestResult.

#[global] Instance DynamicPartitionsRequestResult_eq_dec :
  EqDecision DynamicPartitionsRequestResult.t.
Proof. solve_decision. Defined.

Module DagsterRun.
Record t : Type := mk {
  run_id : string;
  job_name : string;
  run_config : string;
  status : DagsterRunStatus;
  tags : gmap string string;
  external_job_origin : option ExternalJobOrigin.t;
  asset_selection : option (list string) }.

Definition with_status (r : t) (s : DagsterRunStatus) : t :=
  mk (run_id r) (job_name r) (run_config r) s (tags r)
     (external_job_origin r) (asset_selection r).
End DagsterRun.

#[global] Instance DagsterRun_eq_dec : EqDecision DagsterRun.t.
Proof. solve_decision. Defined.

(** Modelled from the spec: [DagsterRun.tags_for_sensor] is declared outside
    this module; the run of a sensor carries the sensor's name, which is
    what [_fetch_existing_runs] matches on. *)
Definition tags_for_sensor (s : ExternalSensor.t) : gmap string string :=
  {[ SENSOR_NAME_TAG := ExternalSensor.name s ]}.

Module DagsterRunReaction.
Record t : Type := mk {
  dagster_run : option DagsterRun.t;
  error : option SerializableErrorInfo.t;
  run_status : option DagsterRunStatus }.
End DagsterRunReaction.

(** What an evaluation returns.  Of the three sequences the code tests only
    the truth value before it iterates, so an absent one is the empty one. *)
Module SensorExecutionData.
Record t : Type := mk {
  run_requests : list RunRequest.t;
  skip_message : option string;
  cursor : option string;
  dagster_run_reactions : list DagsterRunReaction.t;
  captured_log_key : option (list string);
  dynamic_partitions_requests : list DynamicPartitionsRequest }.
End SensorExecutionData.

(** Placeholder for runs that are skipped during the run_key idempotence
    check. *)
Module SkippedSensorRun.
Record t : Type := mk { run_key : option string; existing_run : DagsterRun.t }.
End SkippedSensorRun.

(** [Union[SkippedSensorRun, DagsterRun]] *)
Inductive SensorRun : Type :=
  | IsRun (r : DagsterRun.t)
  | IsSkipped (s : SkippedSensorRun.t).

Module SubmitRunRequestResult.
Record t : Type := mk {
  run_key : option string;
  error_info : option SerializableErrorInfo.t;
  run : SensorRun }.
End SubmitRunRequestResult.

(** ** Ticks *)

(** Modelled from the spec: [TickData] and [InstigatorTick] with their
    [with_*] methods are declared outside this module.  A tick is one
    evaluation attempt: the attempt's start, a status, the cursor to commit,
    the ordered, append-only run ids and run keys, a skip reason, an
    optional structured error, a log key and the outcomes of the partition
    requests.  Every [with_*] returns a copy with the named part replaced
    (or extended); [with_status] also replaces the error by the one passed,
    none by default; [with_run_info] appends an id or a key that is given
    and not yet listed. *)
Module TickData.
Record t : Type := mk {
  instigator_origin_id : string;
  instigator_name : string;
  status : TickStatus;
  timestamp : Z;
  run_ids : list string;
  run_keys : list string;
  error : option SerializableErrorInfo.t;
  skip_reason : option string;
  cursor : option string;
  origin_run_ids : list string;
  selector_id : string;
  log_key : option (list string);
  dynamic_partitions_request_results : list DynamicPartitionsRequestResult.t }.

(** [TickData(instigator_origin_id=..., instigator_name=..., status=...,
    timestamp=..., selector_id=...)]: the other fields at their defaults. *)
Definition new (origin_id nm : string) (st : TickStatus) (ts : Z) (sel : string) : t :=
  mk origin_id nm st ts [] [] None None None [] sel None [].

Definition with_status (d : t) (st : TickStatus) (err : option SerializableErrorInfo.t) : t :=
  mk (instigator_origin_id d) (instigator_name d) st (timestamp d) (run_ids d)
     (run_keys d) err (skip_reason d) (cursor d) (origin_run_ids d)
     (selector_id d) (log_key d) (dynamic_partitions_request_results d).

Definition with_reason (d : t) (reason : option string) : t :=
  mk (instigator_origin_id d) (instigator_name d) (status d) (timestamp d) (run_ids d)
     (run_keys d) (error d) reason (cursor d) (origin_run_ids d)
     (selector_id d) (log_key d) (dynamic_partitions_request_results d).

Definition with_cursor (d : t) (c : option string) : t :=
  mk (instigator_origin_id d) (instigator_name d) (status d) (timestamp d) (run_ids d)
     (run_keys d) (error d) (skip_reason d) c (origin_run_ids d)
     (selector_id d) (log_key d) (dynamic_partitions_request_results d).

Definition with_origin_run (d : t) (origin_run_id : string) : t :=
  mk (instigator_origin_id d) (instigator_name d) (status d) (timestamp d) (run_ids d)
     (run_keys d) (error d) (skip_reason d) (cursor d) (origin_run_ids d ++ [origin_run_id])
     (selector_id d) (log_key d) (dynamic_partitions_request_results d).

(** [xs + [x]] when [x] is given, not empty and not yet in [xs]. *)
Definition append_new (xs : list string) (x : option string) : list string :=
  match x with
  | Some v => if truthy_str x && negb (bool_decide (v ∈ xs)) then xs ++ [v] else xs
  | None => xs
  end.

Definition with_run_info (d : t) (run_id run_key : option string) : t :=
  mk (instigator_origin_id d) (instigator_name d) (status d) (timestamp d)
     (append_new (run_ids d) run_id) (append_new (run_keys d) run_key)
     (error d) (skip_reason d) (cursor d) (origin_run_ids d)
     (selector_id d) (log_key d) (dynamic_partitions_request_results d).

Definition with_log_key (d : t) (k : list string) : t :=
  mk (instigator_origin_id d) (instigator_name d) (status d) (timestamp d) (run_ids d)
     (run_keys d) (error d) (skip_reason d) (cursor d) (origin_run_ids d)
     (selector_id d) (Some k) (dynamic_partitions_request_results d).

Definition with_dynamic_partitions_request_result
    (d : t) (r : DynamicPartitionsRequestResult.t) : t :=
  mk (instigator_origin_id d) (instigator_name d) (status d) (timestamp d) (run_ids d)
     (run_keys d) (error d) (skip_reason d) (cursor d) (origin_run_ids d)
     (selector_id d) (log_key d) (dynamic_partitions_request_results d ++ [r]).
End TickData.

#[global] Instance TickData_eq_dec : EqDecision TickData.t.
Proof. solve_decision. Defined.

(** A stored tick: the row's id and its data; the [with_*] methods are the
    data's. *)
Module InstigatorTick.
Record t : Type := mk { tick_id : nat; tick_data : TickData.t }.

Definition lift (f : TickData.t -> TickData.t) (k : t) : t :=
  mk (tick_id k) (f (tick_data k)).

Definition status (k : t) : TickStatus := TickData.status (tick_data k).
Definition cursor (k : t) : option string := TickData.cursor (tick_data k).
Definition timestamp (k : t) : Z := TickData.timestamp (tick_data k).
Definition run_ids (k : t) : list string := TickData.run_ids (tick_data k).
Definition run_keys (k : t) : list string := TickData.run_keys (tick_data k).
Definition error (k : t) : option SerializableErrorInfo.t := TickData.error (tick_data k).
End InstigatorTick.

#[global] Instance InstigatorTick_eq_dec : EqDecision InstigatorTick.t.
Proof. solve_decision. Defined.

(** ** The instance: the persistent store *)

(** The writes made to the store, in the order they are made. *)
Inductive StoreOp : Type :=
  | OpCreateTick (k : InstigatorTick.t)
  | OpUpdateTick (k : InstigatorTick.t)
  | OpPurgeTicks (origin_id selector_id : string) (before : Z) (statuses : list TickStatus)
  | OpUpdateInstigatorState (st : InstigatorState.t)
  | OpCreateRun (r : DagsterRun.t)
  | OpSubmitRun (run_id : string)
  | OpAddDynamicPartitions (partitions_def_name : string) (keys : list string)
  | OpDeleteDynamicPartition (partitions_def_name : string) (key : string)
  | OpReportEngineEvent (message : string) (run_id : string).

Definition is_update_tick (op : StoreOp) : bool :=
  match op with OpUpdateTick _ => true | _ => false end.

Definition is_purge (op : StoreOp) : bool :=
  match op with OpPurgeTicks _ _ _ _ => true | _ => false end.

(** Modelled from the spec: [DagsterInstance] and its storage are declared
    outside this module.  The store holds a state per instigator, found by
    the selector id it carries; the ticks, by row id; the runs, newest
    first; the registry of dynamic partitions, a set of keys per partitions
    definition.  [history] records the writes.  [make_new_run_id] stands
    for a fresh uuid: the n-th run created gets the n-th id, never empty. *)
Module DagsterInstance.
Record t : Type := mk {
  instigator_states : gmap string InstigatorState.t;
  ticks : gmap nat TickData.t;
  tick_count : nat;
  runs : list DagsterRun.t;
  run_count : nat;
  dynamic_partitions : gmap string (gset string);
  history : list StoreOp }.

Definition log (op : StoreOp) (i : t) : t :=
  mk (instigator_states i) (ticks i) (tick_count i) (runs i) (run_count i)
     (dynamic_partitions i) (history i ++ [op]).

Definition get_instigator_state (origin_id selector_id : string) (i : t)
    : option InstigatorState.t :=
  match instigator_states i !! selector_id with
  | Some st =>
      if bool_decide (InstigatorState.selector_id st = selector_id) then Some st else None
  | None => None
  end.

Definition update_instigator_state (st : InstigatorState.t) (i : t) : t :=
  log (OpUpdateInstigatorState st)
    (mk (<[InstigatorState.selector_id st := st]> (instigator_states i))
        (ticks i) (tick_count i) (runs i) (run_count i)
        (dynamic_partitions i) (history i)).

Definition create_tick (d : TickData.t) (i : t) : InstigatorTick.t * t :=
  let k := InstigatorTick.mk (tick_count i) d in
  (k, log (OpCreateTick k)
        (mk (instigator_states i) (<[tick_count i := d]> (ticks i)) (S (tick_count i))
            (runs i) (run_count i) (dynamic_partitions i) (history i))).

Definition update_tick (k : InstigatorTick.t) (i : t) : t :=
  log (OpUpdateTick k)
    (mk (instigator_states i)
        (<[InstigatorTick.tick_id k := InstigatorTick.tick_data k]> (ticks i))
        (tick_count i) (runs i) (run_count i) (dynamic_partitions i) (history i)).

(** Delete the ticks of the instigator older than [before] whose status is
    one of [statuses]. *)
Definition purged (selector_id : string) (before : Z) (statuses : list TickStatus)
    (d : TickData.t) : bool :=
  bool_decide (TickData.selector_id d = selector_id)
  && (TickData.timestamp d <? before)
  && bool_decide (TickData.status d ∈ statuses).

Definition purge_ticks (origin_id selector_id : string) (before : Z)
    (statuses : list TickStatus) (i : t) : t :=
  log (OpPurgeTicks origin_id selector_id before statuses)
    (mk (instigator_states i)
        (filter (fun p => purged selector_id before statuses p.2 = false) (ticks i))
        (tick_count i) (runs i) (run_count i) (dynamic_partitions i) (history i)).

(** [get_runs(filters=RunsFilter(tags={tag: values}))]: the runs whose
    tag [tag] has one of the values. *)
Definition has_tag_in (tag : string) (values : list string) (r : DagsterRun.t) : bool :=
  match DagsterRun.tags r !! tag with
  | Some v => bool_decide (v ∈ values)
  | None => false
  end.

Definition get_runs (tag : string) (values : list string) (i : t) : list DagsterRun.t :=
  List.filter (has_tag_in tag values) (runs i).

Definition make_new_run_id (n : nat) : string := "r" +:+ pretty n.

Definition create_run (job_name run_config : string) (tags : gmap string string)
    (origin : ExternalJobOrigin.t) (asset_selection : option (list string)) (i : t)
    : DagsterRun.t * t :=
  let r := DagsterRun.mk (make_new_run_id (run_count i)) job_name run_config
             NOT_STARTED tags (Some origin) asset_selection in
  (r, log (OpCreateRun r)
        (mk (instigator_states i) (ticks i) (tick_count i) (r :: runs i)
            (S (run_count i)) (dynamic_partitions i) (history i))).

(** A run handed to the launcher leaves [NOT_STARTED]. *)
Definition mark_submitted (run_id : string) (i : t) : t :=
  log (OpSubmitRun run_id)
    (mk (instigator_states i) (ticks i) (tick_count i)
        (List.map (fun r => if bool_decide (DagsterRun.run_id r = run_id)
                            then DagsterRun.with_status r QUEUED else r) (runs i))
        (run_count i) (dynamic_partitions i) (history i)).

Definition partitions_of (partitions_def_name : string) (i : t) : gset string :=
  default ∅ (dynamic_partitions i !! partitions_def_name).

Definition has_dynamic_partition (partitions_def_name key : string) (i : t) : bool :=
  bool_decide (key ∈ partitions_of partitions_def_name i).

Definition add_dynamic_partitions (partitions_def_name : string) (keys : list string)
    (i : t) : t :=
  log (OpAddDynamicPartitions partitions_def_name keys)
    (mk (instigator_states i) (ticks i) (tick_count i) (runs i) (run_count i)
        (<[partitions_def_name := partitions_of partitions_def_name i ∪ list_to_set keys]>
           (dynamic_partitions i))
        (history i)).

Definition delete_dynamic_partition (partitions_def_name key : string) (i : t) : t :=
  log (OpDeleteDynamicPartition partitions_def_name key)
    (mk (instigator_states i) (ticks i) (tick_count i) (runs i) (run_count i)
        (<[partitions_def_name := partitions_of partitions_def_name i ∖ {[key]}]>
           (dynamic_partitions i))
        (history i)).

Definition report_engine_event (message : string) (dagster_run : DagsterRun.t) (i : t) : t :=
  log (OpReportEngineEvent message (DagsterRun.run_id dagster_run)) i.
End DagsterInstance.

(** ** The code location and the workspace *)

Module JobSubsetSelector.
Record t : Type := mk {
  location_name : string;
  repository_name : string;
  job_name : string;
  op_selection : option (list string);
  asset_selection : option (list string) }.
End JobSubsetSelector.

Module ExternalJob.
Record t : Type := mk {
  name : string;
  tags : gmap string string;
  get_external_origin : ExternalJobOrigin.t }.
End ExternalJob.

(** The user code behind a location.  The evaluation of a sensor and the
    other calls into it are opaque: each is taken as a function that
    returns or raises. *)
Module CodeLocation.
Record t : Type := mk {
  name : string;
  get_external_sensor_execution_data :
    string -> option Z -> option string -> option string -> Result SensorExecutionData.t;
  get_external_job : JobSubsetSelector.t -> Result ExternalJob.t;
  get_external_execution_plan : ExternalJob.t -> string -> Result unit }.
End CodeLocation.

(** What the daemon reaches through [IWorkspaceProcessContext] and the
    library: the location by name, the run launcher behind
    [instance.submit_run], [resolve_stale_or_missing_assets], and
    [validate_tags(..., allow_reserved_tags=False)]. *)
Module Workspace.
Record t : Type := mk {
  get_code_location : string -> Result CodeLocation.t;
  launch_run : string -> Result unit;
  resolve_stale_or_missing_assets : RunRequest.t -> list string;
  validate_tags : gmap string string -> Result (gmap string string) }.
End Workspace.

(** [merge_dicts(a, b)]: the entries of [b] win. *)
Definition merge_dicts (a b : gmap string string) : gmap string string := b ∪ a.

(** ** The daemon's frame *)

Inductive LogLevel : Type := INFO | WARNING | ERROR.

(** What a tick generator runs in: the store, the clock ([clock n] is the
    n-th reading of [pendulum.now("UTC").timestamp()]), the logger's
    records, the values yielded so far, and the consumer: [pending_close]
    is the number of yields after which it closes the generator, [None]
    when it runs it to exhaustion as [_process_tick] does. *)
Module Daemon.
Record t : Type := mk {
  instance : DagsterInstance.t;
  clock : nat -> Z;
  clock_reads : nat;
  logged : list (LogLevel * string);
  yielded : list (option SerializableErrorInfo.t);
  pending_close : option nat }.

Definition set_instance (i : DagsterInstance.t) (d : t) : t :=
  mk i (clock d) (clock_reads d) (logged d) (yielded d) (pending_close d).
End Daemon.

(** [pendulum.now("UTC").timestamp()] *)
Definition now_timestamp : M Daemon.t Z :=
  fun d => (Ok (Daemon.clock d (Daemon.clock_reads d)),
            Daemon.mk (Daemon.instance d) (Daemon.clock d) (S (Daemon.clock_reads d))
              (Daemon.logged d) (Daemon.yielded d) (Daemon.pending_close d)).

Definition logger (lvl : LogLevel) (msg : string) : M Daemon.t unit :=
  modify (fun d => Daemon.mk (Daemon.instance d) (Daemon.clock d) (Daemon.clock_reads d)
                     (Daemon.logged d ++ [(lvl, msg)]) (Daemon.yielded d)
                     (Daemon.pending_close d)).

(** [yield v]: the value goes to the consumer; when the consumer has
    closed the generator, [GeneratorExit] is raised at the yield. *)
Definition yield_ (v : option SerializableErrorInfo.t) : M Daemon.t unit :=
  fun d =>
    let d' n := Daemon.mk (Daemon.instance d) (Daemon.clock d) (Daemon.clock_reads d)
                  (Daemon.logged d) (Daemon.yielded d ++ [v]) n in
    match Daemon.pending_close d with
    | None => (Ok tt, d' None)
    | Some (S n) => (Ok tt, d' (Some n))
    | Some O => (Raise GeneratorExit, d' (Some O))
    end.

(** A read of the store. *)
Definition instance_get {A} (f : DagsterInstance.t -> A) : M Daemon.t A :=
  gets (fun d => f (Daemon.instance d)).

(** A write to the store. *)
Definition instance_do (f : DagsterInstance.t -> DagsterInstance.t) : M Daemon.t unit :=
  modify (fun d => Daemon.set_instance (f (Daemon.instance d)) d).

(** A write to the store that returns a value. *)
Definition instance_call {A} (f : DagsterInstance.t -> A * DagsterInstance.t) : M Daemon.t A :=
  fun d => let p := f (Daemon.instance d) in (Ok p.1, Daemon.set_instance p.2 d).

(** [try: m except Exception: handler] *)
Definition try_except {S A} (m : M S A) (handler : exn -> M S A) : M S A :=
  fun s => match m s with
           | (Raise e, s') => if is_Exception e then handler e s' else (Raise e, s')
           | ok => ok
           end.

(** ** SensorLaunchContext *)

Module SensorLaunchContext.
Record t : Type := mk {
  _external_sensor : ExternalSensor.t;
  _tick : InstigatorTick.t;
  _should_update_cursor_on_failure : bool;
  _purge_settings : list (Z * list TickStatus) }.

(** [self._purge_settings[day_offset].add(status)] on a [defaultdict(set)]:
    the offsets in the order they first appear, each with its statuses. *)
Fixpoint purge_settings_add (day_offset : Z) (status : TickStatus)
    (ps : list (Z * list TickStatus)) : list (Z * list TickStatus) :=
  match ps with
  | [] => [(day_offset, [status])]
  | (o, sts) :: rest =>
      if bool_decide (o = day_offset)
      then (o, if bool_decide (status ∈ sts) then sts else (sts ++ [status])%list) :: rest
      else (o, sts) :: purge_settings_add day_offset status rest
  end.

(** [__init__]; [tick_retention_settings] is given by its items. *)
Definition new (external_sensor : ExternalSensor.t) (tick : InstigatorTick.t)
    (tick_retention_settings : list (TickStatus * Z)) : t :=
  mk external_sensor tick false
     (foldl (fun ps it => purge_settings_add it.2 it.1 ps) [] tick_retention_settings).

Definition status (c : t) : TickStatus := InstigatorTick.status (_tick c).

Definition run_count (c : t) : nat := length (InstigatorTick.run_ids (_tick c)).

Definition set_tick (k : InstigatorTick.t) (c : t) : t :=
  mk (_external_sensor c) k (_should_update_cursor_on_failure c) (_purge_settings c).

(** [update_state(status, skip_reason=..., cursor=..., origin_run_id=...,
    error=...)]: a keyword that is not passed is [None] here.  Every
    [TickStatus] is true, so the status is always set; the other three
    are set only when true. *)
Definition update_state (st : TickStatus) (skip_reason cursor origin_run_id : option string)
    (error : option SerializableErrorInfo.t) (c : t) : t :=
  let k := InstigatorTick.lift (fun d => TickData.with_status d st error) (_tick c) in
  let k := if truthy_str skip_reason
           then InstigatorTick.lift (fun d => TickData.with_reason d skip_reason) k else k in
  let k := if truthy_str cursor
           then InstigatorTick.lift (fun d => TickData.with_cursor d cursor) k else k in
  let k := match origin_run_id with
           | Some r => if truthy_str origin_run_id
                       then InstigatorTick.lift (fun d => TickData.with_origin_run d r) k else k
           | None => k
           end in
  set_tick k c.

Definition add_run_info (run_id run_key : option string) (c : t) : t :=
  set_tick (InstigatorTick.lift (fun d => TickData.with_run_info d run_id run_key) (_tick c)) c.

Definition add_log_info (log_key : list string) (c : t) : t :=
  set_tick (InstigatorTick.lift (fun d => TickData.with_log_key d log_key) (_tick c)) c.

Definition add_dynamic_partitions_request_result (r : DynamicPartitionsRequestResult.t)
    (c : t) : t :=
  set_tick (InstigatorTick.lift
              (fun d => TickData.with_dynamic_partitions_request_result d r) (_tick c)) c.

Definition set_should_update_cursor_on_failure (b : bool) (c : t) : t :=
  mk (_external_sensor c) (_tick c) b (_purge_settings c).

(** [_write]: the tick, then, for a finished tick and under the state lock,
    the instigator state, re-read from the store.  A state that is gone, or
    that has no sensor data, makes the attribute accesses raise. *)
Definition _write (c : t) : M Daemon.t unit :=
  instance_do (DagsterInstance.update_tick (_tick c)) ;;;
  if negb (bool_decide (status c ∈ FINISHED_TICK_STATES)) then ret tt
  else
    let should_update_cursor_and_last_run_key :=
      negb (bool_decide (status c = FAILURE)) || _should_update_cursor_on_failure c in
    state <~ instance_get (DagsterInstance.get_instigator_state
                             (ExternalSensor.get_external_origin_id (_external_sensor c))
                             (ExternalSensor.selector_id (_external_sensor c))) ;;
    match state with
    | None => raise (Exception "AttributeError: 'NoneType' object has no attribute 'instigator_data'")
    | Some state =>
        match InstigatorState.instigator_data state with
        | None => raise (Exception "AttributeError: 'NoneType' object has no attribute 'last_tick_start_timestamp'")
        | Some ScheduleData => raise (Exception "AttributeError: no attribute 'last_run_key'")
        | Some (SensorData data) =>
            let last_run_key := SensorInstigatorData.last_run_key data in
            let last_run_key :=
              if truthy_list (InstigatorTick.run_keys (_tick c))
                 && should_update_cursor_and_last_run_key
              then last (InstigatorTick.run_keys (_tick c)) else last_run_key in
            let cursor := SensorInstigatorData.cursor data in
            let cursor := if should_update_cursor_and_last_run_key
                          then InstigatorTick.cursor (_tick c) else cursor in
            let marked_timestamp :=
              Z.max (InstigatorTick.timestamp (_tick c))
                    (or_zero (SensorInstigatorData.last_tick_start_timestamp data)) in
            instance_do (DagsterInstance.update_instigator_state
              (InstigatorState.with_data state
                 (SensorInstigatorData.mk
                    (Some (InstigatorTick.timestamp (_tick c)))
                    last_run_key
                    (ExternalSensor.min_interval_seconds (_external_sensor c))
                    cursor
                    (Some marked_timestamp))))
        end
    end.

(** [pendulum.now("UTC").subtract(days=day_offset).timestamp()] *)
Definition days_before (now day_offset : Z) : Z := now - 86400 * day_offset.

Definition purge (c : t) (setting : Z * list TickStatus) : M Daemon.t unit :=
  if setting.1 <=? 0 then ret tt
  else
    now <~ now_timestamp ;;
    instance_do (DagsterInstance.purge_ticks
                   (ExternalSensor.get_external_origin_id (_external_sensor c))
                   (ExternalSensor.selector_id (_external_sensor c))
                   (days_before now setting.1) setting.2).

(** [__exit__(exception_type, exception_value, traceback)]: [exc] is the
    exception the body of the [with] ended with, if any.  The method returns
    [None] on every path, so that exception propagates afterwards. *)
Definition __exit__ (exc : option exn) (c : t) : M Daemon.t unit :=
  match exc with
  | Some KeyboardInterrupt => ret tt
  | _ =>
      let c := match exc with
               | Some e =>
                   if negb (bool_decide (e = GeneratorExit))
                   then update_state FAILURE None None None
                          (Some (serializable_error_info_from_exc_info e)) c
                   else c
               | None => c
               end in
      _write c ;;;
      for_each (_purge_settings c) (purge c)
  end.
End SensorLaunchContext.

(** The body of a [with SensorLaunchContext(...) as tick_context:] block
    runs on the daemon's frame and the context object. *)
Module Scope.
Record t : Type := mk { daemon : Daemon.t; context : SensorLaunchContext.t }.
End Scope.

Definition in_daemon {A} (m : M Daemon.t A) : M Scope.t A :=
  fun s => let p := m (Scope.daemon s) in (p.1, Scope.mk p.2 (Scope.context s)).

Definition context_get {A} (f : SensorLaunchContext.t -> A) : M Scope.t A :=
  gets (fun s => f (Scope.context s)).

Definition context_do (f : SensorLaunchContext.t -> SensorLaunchContext.t) : M Scope.t unit :=
  modify (fun s => Scope.mk (Scope.daemon s) (f (Scope.context s))).

(** [with c0 as tick_context: body]: [__exit__] runs however the body ends;
    an exception of [__exit__] itself replaces the body's outcome. *)
Definition with_context {A} (c0 : SensorLaunchContext.t) (body : M Scope.t A) : M Daemon.t A :=
  fun d =>
    let p := body (Scope.mk d c0) in
    let exc := match p.1 with Ok _ => None | Raise e => Some e end in
    match SensorLaunchContext.__exit__ exc (Scope.context p.2) (Scope.daemon p.2) with
    | (Ok _, d') => (p.1, d')
    | (Raise e, d') => (Raise e, d')
    end.

(** ** Throttling and the claim of a tick *)

Definition _sensor_instigator_data (state : InstigatorState.t)
    : Result (option SensorInstigatorData.t) :=
  match InstigatorState.instigator_data state with
  | None => Ok None
  | Some (SensorData d) => Ok (Some d)
  | Some ScheduleData => Raise (Exception "CheckError: Expected SensorInstigatorData")
  end.

(** [_is_under_min_interval], its answer as a function of [now], the
    reading of the clock the function takes when it computes the elapsed
    time; the early returns do not look at it. *)
Definition _is_under_min_interval (now : Z) (state : InstigatorState.t)
    (external_sensor : ExternalSensor.t) : Result bool :=
  match _sensor_instigator_data state with
  | Raise e => Raise e
  | Ok None => Ok false
  | Ok (Some instigator_data) =>
      if negb (truthy_num (SensorInstigatorData.last_tick_start_timestamp instigator_data))
         && negb (truthy_num (SensorInstigatorData.last_tick_timestamp instigator_data))
      then Ok false
      else if negb (truthy_num (ExternalSensor.min_interval_seconds external_sensor))
      then Ok false
      else
        let elapsed :=
          now - Z.max (or_zero (SensorInstigatorData.last_tick_timestamp instigator_data))
                      (or_zero (SensorInstigatorData.last_tick_start_timestamp instigator_data)) in
        Ok (elapsed <? default 0 (ExternalSensor.min_interval_seconds external_sensor))
  end.

(** The call [_is_under_min_interval(state, external_sensor)] on the
    daemon's frame, with the clock read where the function reads it: not
    before its three early returns, and once, for the elapsed time, when
    they are passed. *)
Definition _is_under_min_interval_call (state : InstigatorState.t)
    (external_sensor : ExternalSensor.t) : M Daemon.t bool :=
  instigator_data <~ liftR (_sensor_instigator_data state) ;;
  match instigator_data with
  | None => ret false
  | Some instigator_data =>
      if negb (truthy_num (SensorInstigatorData.last_tick_start_timestamp instigator_data))
         && negb (truthy_num (SensorInstigatorData.last_tick_timestamp instigator_data))
      then ret false
      else if negb (truthy_num (ExternalSensor.min_interval_seconds external_sensor))
      then ret false
      else
        now <~ now_timestamp ;;
        let elapsed :=
          now - Z.max (or_zero (SensorInstigatorData.last_tick_timestamp instigator_data))
                      (or_zero (SensorInstigatorData.last_tick_start_timestamp instigator_data)) in
        ret (elapsed <? default 0 (ExternalSensor.min_interval_seconds external_sensor))
  end.

(** [_mark_sensor_state_for_tick]: the state is saved again with the
    start of the tick; the other fields are kept. *)
Definition _mark_sensor_state_for_tick (external_sensor : ExternalSensor.t)
    (sensor_state : InstigatorState.t) (now : Z) : M Daemon.t unit :=
  instigator_data <~ liftR (_sensor_instigator_data sensor_state) ;;
  instance_do (DagsterInstance.update_instigator_state
    (InstigatorState.with_data sensor_state
       (SensorInstigatorData.mk
          (instigator_data ≫= SensorInstigatorData.last_tick_timestamp)
          (instigator_data ≫= SensorInstigatorData.last_run_key)
          (ExternalSensor.min_interval_seconds external_sensor)
          (instigator_data ≫= SensorInstigatorData.cursor)
          (Some now)))).

(** The first block of [_process_tick_generator], run with the sensor state
    lock held: the clock is read for the start of the attempt and the state
    is read again from the store; under the minimum interval the generator
    returns ([None] here), otherwise the state is stamped with the start of
    the attempt. *)
Definition claim_tick (external_sensor : ExternalSensor.t)
    : M Daemon.t (option (InstigatorState.t * Z)) :=
  now <~ now_timestamp ;;
  st <~ instance_get (DagsterInstance.get_instigator_state
                        (ExternalSensor.get_external_origin_id external_sensor)
                        (ExternalSensor.selector_id external_sensor)) ;;
  sensor_state <~ check_not_none st ;;
  under <~ _is_under_min_interval_call sensor_state external_sensor ;;
  if (under : bool) then ret None
  else
    _mark_sensor_state_for_tick external_sensor sensor_state now ;;;
    ret (Some (sensor_state, now)).

(** ** Run de-duplication *)

Definition request_run_keys (run_requests : list RunRequest.t) : list string :=
  omap (fun r => if truthy_str (RunRequest.run_key r) then RunRequest.run_key r else None)
       run_requests.

(** The test of the loop that filters [runs_with_run_keys] down to
    [valid_runs]. *)
Definition valid_run (external_sensor : ExternalSensor.t) (run : DagsterRun.t) : bool :=
  match DagsterRun.external_job_origin run with
  | None =>
      bool_decide (DagsterRun.tags run !! SENSOR_NAME_TAG
                   = Some (ExternalSensor.name external_sensor))
  | Some origin =>
      bool_decide (ExternalRepositoryOrigin.get_selector_id
                     (ExternalJobOrigin.external_repository_origin origin)
                   = ExternalRepositoryOrigin.get_selector_id
                       (ExternalSensor.external_repository_origin external_sensor))
      && bool_decide (DagsterRun.tags run !! SENSOR_NAME_TAG
                      = Some (ExternalSensor.name external_sensor))
  end.

(** [existing_runs[run_key] = run]; a run without the tag would go under
    the key [None], which no request is looked up with. *)
Definition record_existing (existing_runs : gmap string DagsterRun.t) (run : DagsterRun.t)
    : gmap string DagsterRun.t :=
  match DagsterRun.tags run !! RUN_KEY_TAG with
  | Some run_key => <[run_key := run]> existing_runs
  | None => existing_runs
  end.

Definition _fetch_existing_runs (external_sensor : ExternalSensor.t)
    (run_requests : list RunRequest.t) (i : DagsterInstance.t) : gmap string DagsterRun.t :=
  let run_keys := request_run_keys run_requests in
  if negb (truthy_list run_keys) then ∅
  else
    let runs_with_run_keys := DagsterInstance.get_runs RUN_KEY_TAG run_keys i in
    let valid_runs := List.filter (valid_run external_sensor) runs_with_run_keys in
    foldl record_existing ∅ valid_runs.

(** [frozenset(run_request.asset_selection) if run_request.asset_selection
    else None] *)
Definition frozen_asset_selection (sel : option (list string)) : option (list string) :=
  match sel with
  | Some (a :: l) => Some (a :: l)
  | _ => None
  end.

(** [_create_sensor_run]: the execution plan is asked for first, then the
    tags are put together; the run is created [NOT_STARTED]. *)
Definition _create_sensor_run (ws : Workspace.t) (code_location : CodeLocation.t)
    (external_sensor : ExternalSensor.t) (external_job : ExternalJob.t)
    (run_request : RunRequest.t) (target_data : ExternalTargetData.t)
    : M Daemon.t DagsterRun.t :=
  liftR (CodeLocation.get_external_execution_plan code_location external_job
           (RunRequest.run_config run_request)) ;;;
  job_tags <~ liftR (Workspace.validate_tags ws (ExternalJob.tags external_job)) ;;
  let tags := merge_dicts (merge_dicts job_tags (RunRequest.tags run_request))
                (tags_for_sensor external_sensor) in
  let tags := match RunRequest.run_key run_request with
              | Some k => if truthy_str (RunRequest.run_key run_request)
                          then <[RUN_KEY_TAG := k]> tags else tags
              | None => tags
              end in
  instance_call (DagsterInstance.create_run
                   (ExternalTargetData.job_name target_data)
                   (RunRequest.run_config run_request)
                   tags
                   (ExternalJob.get_external_origin external_job)
                   (frozen_asset_selection (RunRequest.asset_selection run_request))).

(** [_get_or_create_sensor_run]; a [DagsterRun] is always true, so
    [if run:] tests that the lookup found one. *)
Definition _get_or_create_sensor_run (ws : Workspace.t) (code_location : CodeLocation.t)
    (external_sensor : ExternalSensor.t) (external_job : ExternalJob.t)
    (run_request : RunRequest.t) (target_data : ExternalTargetData.t)
    (existing_runs_by_key : gmap string DagsterRun.t) : M Daemon.t SensorRun :=
  match RunRequest.run_key run_request with
  | Some k =>
      if negb (truthy_str (RunRequest.run_key run_request))
      then
        r <~ _create_sensor_run ws code_location external_sensor external_job
               run_request target_data ;;
        ret (IsRun r)
      else
        match existing_runs_by_key !! k with
        | Some run =>
            if negb (bool_decide (DagsterRun.status run = NOT_STARTED))
            then ret (IsSkipped (SkippedSensorRun.mk (RunRequest.run_key run_request) run))
            else
              logger INFO ("Run " +:+ DagsterRun.run_id run
                           +:+ " already created with the run key `" +:+ k +:+ "` for "
                           +:+ ExternalSensor.name external_sensor) ;;;
              ret (IsRun run)
        | None =>
            logger INFO ("Creating new run for " +:+ ExternalSensor.name external_sensor) ;;;
            r <~ _create_sensor_run ws code_location external_sensor external_job
                   run_request target_data ;;
            ret (IsRun r)
        end
  | None =>
      r <~ _create_sensor_run ws code_location external_sensor external_job
             run_request target_data ;;
      ret (IsRun r)
  end.

(** [instance.submit_run(run_id, workspace)]: the launcher takes the run
    or raises. *)
Definition submit_run (ws : Workspace.t) (run_id : string) : M Daemon.t unit :=
  liftR (Workspace.launch_run ws run_id) ;;;
  instance_do (DagsterInstance.mark_submitted run_id).

(** [_submit_run_request]: a skipped run is returned as it is; any other
    run is handed to the launcher, and an [Exception] of the launch becomes
    the error of the result. *)
Definition _submit_run_request (run_request : RunRequest.t) (ws : Workspace.t)
    (external_sensor : ExternalSensor.t) (code_location : CodeLocation.t)
    (existing_runs_by_key : gmap string DagsterRun.t)
    : M Daemon.t SubmitRunRequestResult.t :=
  target_data <~ check_not_none (ExternalSensor.get_target_data external_sensor
                                   (RunRequest.job_name run_request)) ;;
  let job_subset_selector :=
    JobSubsetSelector.mk (CodeLocation.name code_location)
      (ExternalRepositoryOrigin.repository_name
         (ExternalSensor.external_repository_origin external_sensor))
      (ExternalTargetData.job_name target_data)
      (ExternalTargetData.op_selection target_data)
      (RunRequest.asset_selection run_request) in
  external_job <~ liftR (CodeLocation.get_external_job code_location job_subset_selector) ;;
  run <~ _get_or_create_sensor_run ws code_location external_sensor external_job
           run_request target_data existing_runs_by_key ;;
  match run with
  | IsSkipped _ =>
      ret (SubmitRunRequestResult.mk (RunRequest.run_key run_request) None run)
  | IsRun r =>
      error_info <~
        try_except
          (logger INFO ("Launching run for " +:+ ExternalSensor.name external_sensor) ;;;
           submit_run ws (DagsterRun.run_id r) ;;;
           logger INFO ("Completed launch of run " +:+ DagsterRun.run_id r +:+ " for "
                        +:+ ExternalSensor.name external_sensor) ;;;
           ret None)
          (fun e =>
             let error_info := serializable_error_info_from_exc_info e in
             logger ERROR ("Run " +:+ DagsterRun.run_id r
                           +:+ " created successfully but failed to launch: "
                           +:+ SerializableErrorInfo.message error_info) ;;;
             ret (Some error_info)) ;;
      ret (SubmitRunRequestResult.mk (RunRequest.run_key run_request) error_info run)
  end.

(** ** The evaluation of a sensor *)

(** [for x in xs: ...], keeping what each round produces. *)
Fixpoint map_each {S A B} (xs : list A) (body : A -> M S B) : M S (list B) :=
  match xs with
  | [] => ret []
  | x :: rest =>
      b <~ body x ;;
      bs <~ map_each rest body ;;
      ret (b :: bs)
  end.

Definition quote_keys (keys : list string) : string :=
  "[" +:+ String.concat ", " keys +:+ "]".

(** One round of the loop over [dynamic_partitions_requests]: the keys are
    first sorted into those the registry has and those it has not, then the
    request is applied and its outcome recorded on the tick. *)
Definition apply_dynamic_partitions_request (request : DynamicPartitionsRequest)
    : M Scope.t unit :=
  let def_name := partitions_def_name request in
  existent_partitions <~
    in_daemon (instance_get (fun i =>
      List.filter (fun k => DagsterInstance.has_dynamic_partition def_name k i)
                  (partition_keys request))) ;;
  nonexistent_partitions <~
    in_daemon (instance_get (fun i =>
      List.filter (fun k => negb (DagsterInstance.has_dynamic_partition def_name k i))
                  (partition_keys request))) ;;
  match request with
  | AddDynamicPartitionsRequest _ _ =>
      (if truthy_list nonexistent_partitions
       then
         in_daemon (instance_do (DagsterInstance.add_dynamic_partitions def_name
                                   nonexistent_partitions)) ;;;
         in_daemon (logger INFO ("Added partition keys to dynamic partitions definition '"
                                 +:+ def_name +:+ "': " +:+ quote_keys nonexistent_partitions))
       else ret tt) ;;;
      (if truthy_list existent_partitions
       then in_daemon (logger INFO
              ("Skipping addition of partition keys for dynamic partitions definition '"
               +:+ def_name +:+ "' that already exist: " +:+ quote_keys existent_partitions))
       else ret tt) ;;;
      context_do (SensorLaunchContext.add_dynamic_partitions_request_result
                    (DynamicPartitionsRequestResult.mk def_name
                       (Some nonexistent_partitions) None existent_partitions))
  | DeleteDynamicPartitionsRequest _ _ =>
      (if truthy_list existent_partitions
       then
         for_each existent_partitions (fun partition =>
           in_daemon (instance_do (DagsterInstance.delete_dynamic_partition def_name
                                     partition))) ;;;
         in_daemon (logger INFO ("Deleted partition keys from dynamic partitions definition '"
                                 +:+ def_name +:+ "': " +:+ quote_keys existent_partitions))
       else ret tt) ;;;
      (if truthy_list nonexistent_partitions
       then in_daemon (logger INFO
              ("Skipping deletion of partition keys for dynamic partitions definition '"
               +:+ def_name +:+ "' that do not exist: " +:+ quote_keys nonexistent_partitions))
       else ret tt) ;;;
      context_do (SensorLaunchContext.add_dynamic_partitions_request_result
                    (DynamicPartitionsRequestResult.mk def_name
                       None (Some existent_partitions) nonexistent_partitions))
  end.

(** One round of the loop over [dagster_run_reactions]. *)
Definition apply_run_reaction (external_sensor : ExternalSensor.t)
    (cursor : option string) (run_reaction : DagsterRunReaction.t) : M Scope.t unit :=
  dagster_run <~ check_not_none (DagsterRunReaction.dagster_run run_reaction) ;;
  let origin_run_id := DagsterRun.run_id dagster_run in
  match DagsterRunReaction.error run_reaction with
  | Some error =>
      in_daemon (logger ERROR ("Got a reaction request for run " +:+ origin_run_id
                               +:+ " but execution errorred: "
                               +:+ SerializableErrorInfo.message error)) ;;;
      context_do (SensorLaunchContext.update_state FAILURE None cursor None (Some error)) ;;;
      context_do (SensorLaunchContext.set_should_update_cursor_on_failure true)
  | None =>
      let message := "Sensor " +:+ ExternalSensor.name external_sensor
                     +:+ " acted on run status of run " +:+ origin_run_id +:+ "." in
      in_daemon (instance_do (DagsterInstance.report_engine_event message dagster_run)) ;;;
      in_daemon (logger INFO ("Completed a reaction request for run " +:+ origin_run_id
                              +:+ ": " +:+ message)) ;;;
      context_do (SensorLaunchContext.update_state SUCCESS None cursor
                    (Some origin_run_id) None)
  end.

(** The loop that replaces the requests for stale assets only. *)
Definition resolve_run_requests (ws : Workspace.t) (raw : list RunRequest.t)
    : list RunRequest.t :=
  omap (fun raw_run_request =>
          if RunRequest.stale_assets_only raw_run_request
          then
            let stale_assets := Workspace.resolve_stale_or_missing_assets ws raw_run_request in
            if bool_decide (length stale_assets = 0%nat) then None
            else Some (RunRequest.with_replaced_attrs raw_run_request stale_assets)
          else Some raw_run_request)
       raw.

(** One round of the loop over the results of the submissions: the result
    is computed when the loop asks for it, its error is yielded, then the
    run is recorded on the tick. *)
Definition submit_and_record (ws : Workspace.t) (external_sensor : ExternalSensor.t)
    (code_location : CodeLocation.t) (existing_runs_by_key : gmap string DagsterRun.t)
    (run_request : RunRequest.t) : M Scope.t SubmitRunRequestResult.t :=
  run_request_result <~
    in_daemon (_submit_run_request run_request ws external_sensor code_location
                 existing_runs_by_key) ;;
  in_daemon (yield_ (SubmitRunRequestResult.error_info run_request_result)) ;;;
  match SubmitRunRequestResult.run run_request_result with
  | IsSkipped _ =>
      context_do (SensorLaunchContext.add_run_info None
                    (SubmitRunRequestResult.run_key run_request_result))
  | IsRun run =>
      context_do (SensorLaunchContext.add_run_info (Some (DagsterRun.run_id run))
                    (SubmitRunRequestResult.run_key run_request_result))
  end ;;;
  ret run_request_result.

Definition skipped_of (r : SubmitRunRequestResult.t) : option SkippedSensorRun.t :=
  match SubmitRunRequestResult.run r with
  | IsSkipped s => Some s
  | IsRun _ => None
  end.

(** The branch of [_evaluate_sensor] taken when the evaluation returned
    run requests: the existing runs are fetched once for the batch, then
    every request is submitted and recorded in turn. *)
Definition submit_run_requests (ws : Workspace.t) (external_sensor : ExternalSensor.t)
    (code_location : CodeLocation.t) (sensor_runtime_data : SensorExecutionData.t)
    : M Scope.t unit :=
  let cursor := SensorExecutionData.cursor sensor_runtime_data in
  existing_runs_by_key <~
    in_daemon (instance_get (_fetch_existing_runs external_sensor
                               (SensorExecutionData.run_requests sensor_runtime_data))) ;;
  let run_requests :=
    resolve_run_requests ws (SensorExecutionData.run_requests sensor_runtime_data) in
  results <~ map_each run_requests
               (submit_and_record ws external_sensor code_location existing_runs_by_key) ;;
  let skipped_runs := omap skipped_of results in
  (if truthy_list skipped_runs
   then in_daemon (logger INFO
          ("Skipping runs for sensor " +:+ ExternalSensor.name external_sensor
           +:+ " already completed with run keys: "
           +:+ quote_keys (List.map (fun s => default "" (SkippedSensorRun.run_key s))
                             skipped_runs)))
   else ret tt) ;;;
  run_count <~ context_get SensorLaunchContext.run_count ;;
  (if bool_decide (run_count ≠ 0%nat)
   then context_do (SensorLaunchContext.update_state SUCCESS None cursor None None)
   else context_do (SensorLaunchContext.update_state SKIPPED None cursor None None)) ;;;
  in_daemon (yield_ None).

(** The branch taken when the evaluation returned no run request. *)
Definition react_or_skip (external_sensor : ExternalSensor.t)
    (sensor_runtime_data : SensorExecutionData.t) : M Scope.t unit :=
  let cursor := SensorExecutionData.cursor sensor_runtime_data in
  (if truthy_list (SensorExecutionData.dagster_run_reactions sensor_runtime_data)
   then for_each (SensorExecutionData.dagster_run_reactions sensor_runtime_data)
                 (apply_run_reaction external_sensor cursor)
   else if truthy_str (SensorExecutionData.skip_message sensor_runtime_data)
   then
     in_daemon (logger INFO ("Sensor " +:+ ExternalSensor.name external_sensor
                             +:+ " skipped: "
                             +:+ default "" (SensorExecutionData.skip_message
                                               sensor_runtime_data))) ;;;
     context_do (SensorLaunchContext.update_state SKIPPED
                   (SensorExecutionData.skip_message sensor_runtime_data) cursor None None)
   else
     in_daemon (logger INFO ("No run requests returned for "
                             +:+ ExternalSensor.name external_sensor +:+ ", skipping")) ;;;
     context_do (SensorLaunchContext.update_state SKIPPED None cursor None None)) ;;;
  in_daemon (yield_ None).

(** [_evaluate_sensor] from its first [yield] on, the evaluation having
    returned [sensor_runtime_data]. *)
Definition after_evaluation (ws : Workspace.t) (external_sensor : ExternalSensor.t)
    (code_location : CodeLocation.t) (sensor_runtime_data : SensorExecutionData.t)
    : M Scope.t unit :=
  in_daemon (yield_ None) ;;;
  match SensorExecutionData.captured_log_key sensor_runtime_data with
  | Some (k :: ks) => context_do (SensorLaunchContext.add_log_info (k :: ks))
  | _ => ret tt
  end ;;;
  for_each (SensorExecutionData.dynamic_partitions_requests sensor_runtime_data)
           apply_dynamic_partitions_request ;;;
  if negb (truthy_list (SensorExecutionData.run_requests sensor_runtime_data))
  then react_or_skip external_sensor sensor_runtime_data
  else submit_run_requests ws external_sensor code_location sensor_runtime_data.

Definition _evaluate_sensor (ws : Workspace.t) (external_sensor : ExternalSensor.t)
    (state : InstigatorState.t) : M Scope.t unit :=
  in_daemon (logger INFO ("Checking for new runs for sensor: "
                          +:+ ExternalSensor.name external_sensor)) ;;;
  code_location <~
    in_daemon (liftR (Workspace.get_code_location ws
                        (ExternalRepositoryOrigin.location_name
                           (ExternalSensor.external_repository_origin external_sensor)))) ;;
  instigator_data <~ in_daemon (liftR (_sensor_instigator_data state)) ;;
  sensor_runtime_data <~
    in_daemon (liftR (CodeLocation.get_external_sensor_execution_data code_location
                        (ExternalSensor.name external_sensor)
                        (instigator_data ≫= SensorInstigatorData.last_tick_timestamp)
                        (instigator_data ≫= SensorInstigatorData.last_run_key)
                        (instigator_data ≫= SensorInstigatorData.cursor))) ;;
  after_evaluation ws external_sensor code_location sensor_runtime_data.

(** ** One tick *)

(** [_process_tick_generator]: the claim, then, inside [try ... except
    Exception], the creation of the tick and the evaluation within the
    launch context; the error caught, if any, is logged and yielded. *)
Definition _process_tick_generator (ws : Workspace.t) (external_sensor : ExternalSensor.t)
    (tick_retention_settings : list (TickStatus * Z)) : M Daemon.t unit :=
  claimed <~ claim_tick external_sensor ;;
  match claimed with
  | None => ret tt
  | Some (sensor_state, now) =>
      error_info <~
        try_except
          (tick <~ instance_call (DagsterInstance.create_tick
                     (TickData.new (InstigatorState.instigator_origin_id sensor_state)
                        (InstigatorState.instigator_name sensor_state)
                        STARTED now (ExternalSensor.selector_id external_sensor))) ;;
           with_context (SensorLaunchContext.new external_sensor tick tick_retention_settings)
             (_evaluate_sensor ws external_sensor sensor_state) ;;;
           ret None)
          (fun e =>
             let error_info := serializable_error_info_from_exc_info e in
             logger ERROR ("Sensor daemon caught an error for sensor "
                           +:+ ExternalSensor.name external_sensor) ;;;
             ret (Some error_info)) ;;
      yield_ error_info
  end.

(** ** What the statements below speak of *)

(** A timestamp the code takes as absent: not recorded, or zero. *)
Definition absent (z : option Z) : Prop := z = None \/ z = Some 0.

(** The sensor data of a persisted state, if it has some. *)
Definition sensor_data_of (st : option InstigatorState.t) : option SensorInstigatorData.t :=
  match st ≫= InstigatorState.instigator_data with
  | Some (SensorData d) => Some d
  | _ => None
  end.

(** The persisted state of a sensor and the parts of it the claims name. *)
Definition persisted_state (s : ExternalSensor.t) (i : DagsterInstance.t)
    : option InstigatorState.t :=
  DagsterInstance.get_instigator_state (ExternalSensor.get_external_origin_id s)
    (ExternalSensor.selector_id s) i.

Definition persisted_cursor (s : ExternalSensor.t) (i : DagsterInstance.t) : option string :=
  sensor_data_of (persisted_state s i) ≫= SensorInstigatorData.cursor.

Definition persisted_last_run_key (s : ExternalSensor.t) (i : DagsterInstance.t)
    : option string :=
  sensor_data_of (persisted_state s i) ≫= SensorInstigatorData.last_run_key.

Definition persisted_tick_start (s : ExternalSensor.t) (i : DagsterInstance.t) : option Z :=
  sensor_data_of (persisted_state s i) ≫= SensorInstigatorData.last_tick_start_timestamp.




(** The store a scope works on, and the outcomes of the partition requests
    recorded on its tick. *)
Definition scope_instance (sc : Scope.t) : DagsterInstance.t :=
  Daemon.instance (Scope.daemon sc).

Definition scope_tick (sc : Scope.t) : TickData.t :=
  InstigatorTick.tick_data (SensorLaunchContext._tick (Scope.context sc)).

Definition recorded_partition_results (sc : Scope.t) : list DynamicPartitionsRequestResult.t :=
  TickData.dynamic_partitions_request_results (scope_tick sc).

(** The keys of a request the registry has, and those it has not. *)
Definition present_keys (registry : gset string) (keys : list string) : list string :=
  List.filter (fun k => bool_decide (k ∈ registry)) keys.

Definition missing_keys (registry : gset string) (keys : list string) : list string :=
  List.filter (fun k => negb (bool_decide (k ∈ registry))) keys.

(** The context [__exit__] writes: marked as failed when the body of the
    [with] ended with an exception other than the generator's closing. *)
Definition exit_context (exc : option exn) (c : SensorLaunchContext.t)
    : SensorLaunchContext.t :=
  match exc with
  | Some e =>
      if negb (bool_decide (e = GeneratorExit))
      then SensorLaunchContext.update_state FAILURE None None None
             (Some (serializable_error_info_from_exc_info e)) c
      else c
  | None => c
  end.

(** The outcome of the external evaluation call for a sensor whose state is
    [st]. *)
Definition evaluation_of (cl : CodeLocation.t) (s : ExternalSensor.t) (st : InstigatorState.t)
    : Result SensorExecutionData.t :=
  CodeLocation.get_external_sensor_execution_data cl (ExternalSensor.name s)
    (sensor_data_of (Some st) ≫= SensorInstigatorData.last_tick_timestamp)
    (sensor_data_of (Some st) ≫= SensorInstigatorData.last_run_key)
    (sensor_data_of (Some st) ≫= SensorInstigatorData.cursor).

(** The name of the location of a sensor. *)
Definition sensor_location (s : ExternalSensor.t) : string :=
  ExternalRepositoryOrigin.location_name (ExternalSensor.external_repository_origin s).

(** A relation that every step of a computation keeps: however the
    computation ends, its final state is related to its initial one. *)
Definition steps {S A} (R : S -> S -> Prop) (m : M S A) : Prop :=
  forall s r s', m s = (r, s') -> R s s'.

(** Two ticks that differ at most in the log key and the outcomes of
    partition requests they record. *)
Definition tick_steady (k k' : InstigatorTick.t) : Prop :=
  InstigatorTick.tick_id k' = InstigatorTick.tick_id k /\
  InstigatorTick.status k' = InstigatorTick.status k /\
  InstigatorTick.cursor k' = InstigatorTick.cursor k /\
  InstigatorTick.timestamp k' = InstigatorTick.timestamp k /\
  InstigatorTick.run_ids k' = InstigatorTick.run_ids k /\
  InstigatorTick.run_keys k' = InstigatorTick.run_keys k /\
  InstigatorTick.error k' = InstigatorTick.error k.

Definition context_steady (c c' : SensorLaunchContext.t) : Prop :=
  SensorLaunchContext._external_sensor c' = SensorLaunchContext._external_sensor c /\
  SensorLaunchContext._should_update_cursor_on_failure c'
  = SensorLaunchContext._should_update_cursor_on_failure c /\
  SensorLaunchContext._purge_settings c' = SensorLaunchContext._purge_settings c /\
  tick_steady (SensorLaunchContext._tick c) (SensorLaunchContext._tick c').

Definition is_partition_op (op : StoreOp) : bool :=
  match op with
  | OpAddDynamicPartitions _ _ | OpDeleteDynamicPartition _ _ => true
  | _ => false
  end.

(** Two frames that differ at most in the registry of partitions and in
    what was logged. *)
Definition daemon_steady (d d' : Daemon.t) : Prop :=
  DagsterInstance.instigator_states (Daemon.instance d')
  = DagsterInstance.instigator_states (Daemon.instance d) /\
  DagsterInstance.ticks (Daemon.instance d') = DagsterInstance.ticks (Daemon.instance d) /\
  DagsterInstance.runs (Daemon.instance d') = DagsterInstance.runs (Daemon.instance d) /\
  DagsterInstance.run_count (Daemon.instance d')
  = DagsterInstance.run_count (Daemon.instance d) /\
  Daemon.clock d' = Daemon.clock d /\
  Daemon.clock_reads d' = Daemon.clock_reads d /\
  Daemon.yielded d' = Daemon.yielded d /\
  Daemon.pending_close d' = Daemon.pending_close d /\
  exists ops,
    DagsterInstance.history (Daemon.instance d')
    = (DagsterInstance.history (Daemon.instance d) ++ ops)%list /\
    Forall (fun op => is_partition_op op = true) ops.

Definition scope_steady (sc sc' : Scope.t) : Prop :=
  daemon_steady (Scope.daemon sc) (Scope.daemon sc') /\
  context_steady (Scope.context sc) (Scope.context sc').

(** The cursor a tick commits for the cursor an evaluation returned: that
    cursor when it is a non-empty string, none otherwise. *)
Definition committed_cursor (returned : option string) : option string :=
  if truthy_str returned then returned else None.

(** Two frames with the same instigator states. *)
Definition keeps_states (d d' : Daemon.t) : Prop :=
  DagsterInstance.instigator_states (Daemon.instance d')
  = DagsterInstance.instigator_states (Daemon.instance d).

(** The cursor of the tick of a context is settled for an evaluation that
    returned [returned]: either the tick is as it was created ([STARTED],
    no cursor, no request to update the cursor on failure), or its cursor
    is the one to commit. *)
Definition cursor_settled (returned : option string) (c : SensorLaunchContext.t) : Prop :=
  (SensorLaunchContext.status c = STARTED /\
   SensorLaunchContext._should_update_cursor_on_failure c = false /\
   InstigatorTick.cursor (SensorLaunchContext._tick c) = None) \/
  InstigatorTick.cursor (SensorLaunchContext._tick c) = committed_cursor returned.

(** What every step after the evaluation keeps: the instigator states, the
    sensor and the tick id of the context, and a settled cursor. *)
Definition evaluation_step (returned : option string) (sc sc' : Scope.t) : Prop :=
  keeps_states (Scope.daemon sc) (Scope.daemon sc') /\
  SensorLaunchContext._external_sensor (Scope.context sc')
  = SensorLaunchContext._external_sensor (Scope.context sc) /\
  InstigatorTick.tick_id (SensorLaunchContext._tick (Scope.context sc'))
  = InstigatorTick.tick_id (SensorLaunchContext._tick (Scope.context sc)) /\
  (cursor_settled returned (Scope.context sc) -> cursor_settled returned (Scope.context sc')).

(** A request for which the user code answers: the sensor has the target,
    the location has the job, the execution plan is built and the tags of
    the job are accepted. *)
Definition can_create (ws : Workspace.t) (s : ExternalSensor.t) (cl : CodeLocation.t)
    (rr : RunRequest.t) : Prop :=
  exists target job job_tags,
    ExternalSensor.get_target_data s (RunRequest.job_name rr) = Some target /\
    CodeLocation.get_external_job cl
      (JobSubsetSelector.mk (CodeLocation.name cl)
         (ExternalRepositoryOrigin.repository_name (ExternalSensor.external_repository_origin s))
         (ExternalTargetData.job_name target) (ExternalTargetData.op_selection target)
         (RunRequest.asset_selection rr)) = Ok job /\
    CodeLocation.get_external_execution_plan cl job (RunRequest.run_config rr) = Ok tt /\
    Workspace.validate_tags ws (ExternalJob.tags job) = Ok job_tags.








(** The frame after [n] more readings of the clock. *)
Definition after_clock_reads (n : nat) (d : Daemon.t) : Daemon.t :=
  Daemon.mk (Daemon.instance d) (Daemon.clock d) (n + Daemon.clock_reads d)
    (Daemon.logged d) (Daemon.yielded d) (Daemon.pending_close d).

(** Whether the throttle check on the state [st] gets to its reading of the
    clock: the state has sensor data with a timestamp, and the sensor has
    a minimum interval. *)
Definition check_reads_clock (s : ExternalSensor.t) (st : InstigatorState.t) : bool :=
  match sensor_data_of (Some st) with
  | Some data =>
      (truthy_num (SensorInstigatorData.last_tick_start_timestamp data)
       || truthy_num (SensorInstigatorData.last_tick_timestamp data))
      && truthy_num (ExternalSensor.min_interval_seconds s)
  | None => false
  end.

(** The readings of the clock a claim makes on the state [st]: the start of
    the attempt, and the reading of the throttle check when the check gets
    to it. *)
Definition claim_reads (s : ExternalSensor.t) (st : InstigatorState.t) : nat :=
  if check_reads_clock s st then 2%nat else 1%nat.

(** What a successful claim leaves behind, the state read being [st]: the
    state stamped with the start of the attempt, the tick created for it,
    and the frame in which the evaluation starts. *)
Definition stamped_state (s : ExternalSensor.t) (st : InstigatorState.t) (d : Daemon.t)
    : InstigatorState.t :=
  InstigatorState.with_data st
    (SensorInstigatorData.mk
       (sensor_data_of (Some st) ≫= SensorInstigatorData.last_tick_timestamp)
       (sensor_data_of (Some st) ≫= SensorInstigatorData.last_run_key)
       (ExternalSensor.min_interval_seconds s)
       (sensor_data_of (Some st) ≫= SensorInstigatorData.cursor)
       (Some (Daemon.clock d (Daemon.clock_reads d)))).

Definition started_tick (s : ExternalSensor.t) (st : InstigatorState.t) (d : Daemon.t)
    : InstigatorTick.t :=
  InstigatorTick.mk (DagsterInstance.tick_count (Daemon.instance d))
    (TickData.new (InstigatorState.instigator_origin_id st)
       (InstigatorState.instigator_name st) STARTED
       (Daemon.clock d (Daemon.clock_reads d)) (ExternalSensor.selector_id s)).

Definition started_frame (s : ExternalSensor.t) (st : InstigatorState.t) (d : Daemon.t)
    : Daemon.t :=
  Daemon.set_instance
    (DagsterInstance.create_tick (InstigatorTick.tick_data (started_tick s st d))
       (DagsterInstance.update_instigator_state (stamped_state s st d)
          (Daemon.instance d))).2
    (after_clock_reads (claim_reads s st) d).

(** What [_process_tick_generator] does with the outcome of the [with]
    block: an [Exception] is logged and yielded as the error of the tick. *)
Definition report_outcome (s : ExternalSensor.t) (block : M Daemon.t unit) : M Daemon.t unit :=
  error_info <~
    try_except (block ;;; ret None)
      (fun e =>
         let error_info := serializable_error_info_from_exc_info e in
         logger ERROR ("Sensor daemon caught an error for sensor "
                       +:+ ExternalSensor.name s) ;;;
         ret (Some error_info)) ;;
  yield_ error_info.

(** ** Example inputs *)

Module Examples.

Definition repo : ExternalRepositoryOrigin.t := ExternalRepositoryOrigin.mk "loc" "repo".

Definition target : ExternalTargetData.t := ExternalTargetData.mk "job" None.

(** A sensor with a minimum interval of 60 seconds. *)
Definition sensor : ExternalSensor.t :=
  ExternalSensor.mk "my_sensor" "sel" "origin" repo (Some 60) (fun _ => Some target).

Definition state_with (d : option InstigatorData) : InstigatorState.t :=
  InstigatorState.mk "origin" "my_sensor" "sel" RUNNING d.

(** A state whose last tick ended at 100, saved before ticks recorded
    their start. *)
Definition data_ended_100 : SensorInstigatorData.t :=
  SensorInstigatorData.mk (Some 100) None (Some 60) None None.

(** A state stamped at the start of a tick at 100, with a cursor. *)
Definition data_started_100 : SensorInstigatorData.t :=
  SensorInstigatorData.mk None (Some "k0") (Some 60) (Some "c0") (Some 100).

(** A state that was never ticked. *)
Definition data_fresh : SensorInstigatorData.t :=
  SensorInstigatorData.mk None None (Some 60) None None.

Definition empty_instance : DagsterInstance.t :=
  DagsterInstance.mk ∅ ∅ 0 [] 0 ∅ [].

Definition instance_with (d : SensorInstigatorData.t) : DagsterInstance.t :=
  DagsterInstance.mk {[ "sel" := state_with (Some (SensorData d)) ]} ∅ 0 [] 0 ∅ [].

(** A daemon whose clock reads [t0], [t0 + step], [t0 + 2 step], ... and
    whose generators are run to exhaustion. *)
Definition daemon_at (i : DagsterInstance.t) (t0 step : Z) : Daemon.t :=
  Daemon.mk i (fun n => t0 + step * Z.of_nat n) 0 [] [] None.

(** A daemon whose clock gives the listed readings, then zero. *)
Definition daemon_reading (i : DagsterInstance.t) (readings : list Z) : Daemon.t :=
  Daemon.mk i (fun n => nth n readings 0) 0 [] [] None.


Definition job : ExternalJob.t :=
  ExternalJob.mk "job" ∅ (ExternalJobOrigin.mk repo "job").

Definition request (run_key : option string) : RunRequest.t :=
  RunRequest.mk run_key "config" ∅ None None false.

(** A location whose sensor evaluates to [eval]; every job is [job] and
    every execution plan is accepted. *)
Definition location (eval : Result SensorExecutionData.t) : CodeLocation.t :=
  CodeLocation.mk "loc" (fun _ _ _ _ => eval) (fun _ => Ok job) (fun _ _ => Ok tt).

(** A workspace with that location, the launcher [launch], no stale assets
    and every tag accepted. *)
Definition workspace (eval : Result SensorExecutionData.t) (launch : string -> Result unit)
    : Workspace.t :=
  Workspace.mk (fun _ => Ok (location eval)) launch (fun _ => []) (fun tags => Ok tags).



(** What an evaluation returns: run requests and a cursor, nothing else. *)
Definition execution_data (run_requests : list RunRequest.t) (cursor : option string)
    : SensorExecutionData.t :=
  SensorExecutionData.mk run_requests None cursor [] None [].

End Examples.

(** The writes an evaluation makes to the store: runs created and handed
    to the launcher, partitions added and deleted, engine events. *)
Definition is_evaluation_op (op : StoreOp) : bool :=
  match op with
  | OpCreateRun _ | OpSubmitRun _ | OpAddDynamicPartitions _ _
  | OpDeleteDynamicPartition _ _ | OpReportEngineEvent _ _ => true
  | _ => false
  end.

(** Two frames of which the later differs from the earlier by writes of an
    evaluation, log records and yields: the instigator states, the ticks
    and the clock are the same. *)
Definition evaluation_writes (d d' : Daemon.t) : Prop :=
  DagsterInstance.instigator_states (Daemon.instance d')
  = DagsterInstance.instigator_states (Daemon.instance d) /\
  DagsterInstance.ticks (Daemon.instance d') = DagsterInstance.ticks (Daemon.instance d) /\
  DagsterInstance.tick_count (Daemon.instance d')
  = DagsterInstance.tick_count (Daemon.instance d) /\
  Daemon.clock d' = Daemon.clock d /\
  Daemon.clock_reads d' = Daemon.clock_reads d /\
  exists ops,
    DagsterInstance.history (Daemon.instance d')
    = (DagsterInstance.history (Daemon.instance d) ++ ops)%list /\
    Forall (fun op => is_evaluation_op op = true) ops.

(** Two versions of the tick of one attempt: the row, the start and the
    instigator are the same, and a status once set is not taken back to
    [STARTED]. *)
Definition same_attempt (k k' : InstigatorTick.t) : Prop :=
  InstigatorTick.tick_id k' = InstigatorTick.tick_id k /\
  InstigatorTick.timestamp k' = InstigatorTick.timestamp k /\
  TickData.selector_id (InstigatorTick.tick_data k')
  = TickData.selector_id (InstigatorTick.tick_data k) /\
  (InstigatorTick.status k <> STARTED -> InstigatorTick.status k' <> STARTED).

(** What every step of an evaluation keeps. *)
Definition evaluation_frame (sc sc' : Scope.t) : Prop :=
  evaluation_writes (Scope.daemon sc) (Scope.daemon sc') /\
  SensorLaunchContext._external_sensor (Scope.context sc')
  = SensorLaunchContext._external_sensor (Scope.context sc) /\
  SensorLaunchContext._purge_settings (Scope.context sc')
  = SensorLaunchContext._purge_settings (Scope.context sc) /\
  same_attempt (SensorLaunchContext._tick (Scope.context sc))
    (SensorLaunchContext._tick (Scope.context sc')).

(** A computation that, when it returns, leaves a state with [Q]. *)
Definition returns_with {S A} (Q : S -> Prop) (m : M S A) : Prop :=
  forall s a s', m s = (Ok a, s') -> Q s'.

(** The tick of a scope has left [STARTED]. *)
Definition tick_settled (sc : Scope.t) : Prop :=
  SensorLaunchContext.status (Scope.context sc) <> STARTED.

(** * Properties *)

(** ** Truth tests *)

Lemma or_zero_default (z : option Z) : or_zero z = default 0 z.
Proof.
  unfold or_zero, truthy_num. destruct z as [z|]; simpl; [|reflexivity].
  destruct (Z.eqb_spec z 0); simpl; congruence.
Qed.

Lemma truthy_num_absent (z : option Z) : truthy_num z = false <-> absent z.
Proof.
  unfold truthy_num, absent. destruct z as [z|]; simpl.
  - destruct (Z.eqb_spec z 0); simpl; split; intros H; try congruence.
    + right. congruence.
    + destruct H as [H|H]; congruence.
  - split; auto.
Qed.

Lemma truthy_num_Some (z : option Z) :
  truthy_num z = true <-> exists v, z = Some v /\ v <> 0.
Proof.
  unfold truthy_num. destruct z as [z|]; simpl.
  - destruct (Z.eqb_spec z 0); simpl; split; intros H; try congruence.
    + destruct H as [v [Hv Hne]]. congruence.
    + exists z. auto.
  - split; [discriminate | intros [v [Hv _]]; discriminate].
Qed.


(** ** The throttle gate *)

Lemma sensor_instigator_data_ok (st : InstigatorState.t) :
  InstigatorState.instigator_data st <> Some ScheduleData ->
  _sensor_instigator_data st = Ok (sensor_data_of (Some st)).
Proof.
  unfold _sensor_instigator_data, sensor_data_of. simpl.
  destruct (InstigatorState.instigator_data st) as [[d|]|]; congruence.
Qed.

(** On the state of a sensor the gate answers. *)
Lemma is_under_min_interval_total (now : Z) (st : InstigatorState.t) (s : ExternalSensor.t) :
  InstigatorState.instigator_data st <> Some ScheduleData ->
  exists b, _is_under_min_interval now st s = Ok b.
Proof.
  intros Hdata. unfold _is_under_min_interval.
  rewrite (sensor_instigator_data_ok st Hdata).
  destruct (sensor_data_of (Some st)) as [d|]; [|eauto].
  destruct (_ && _); [eauto|]. destruct (negb _); eauto.
Qed.

(** A state stamped less than the interval ago is under the interval. *)
Lemma is_under_min_interval_stamped (now : Z) (st : InstigatorState.t) (s : ExternalSensor.t)
    (d : SensorInstigatorData.t) (start I : Z) :
  InstigatorState.instigator_data st = Some (SensorData d) ->
  SensorInstigatorData.last_tick_start_timestamp d = Some start ->
  start <> 0 ->
  ExternalSensor.min_interval_seconds s = Some I ->
  I <> 0 ->
  now - Z.max (default 0 (SensorInstigatorData.last_tick_timestamp d)) start < I ->
  _is_under_min_interval now st s = Ok true.
Proof.
  intros Hdata Hstart Hs HI HI0 Hlt. unfold _is_under_min_interval, _sensor_instigator_data.
  rewrite Hdata, Hstart, HI, !or_zero_default. simpl.
  destruct (Z.eqb_spec start 0); [contradiction|]. simpl.
  destruct (Z.eqb_spec I 0); [contradiction|]. simpl.
  f_equal. apply Z.ltb_lt. exact Hlt.
Qed.

Lemma Ok_inj {A} (a b : A) : Ok a = Ok b <-> a = b.
Proof. split; [intros [=]; assumption | congruence]. Qed.

(** C3 (as amended).  [_is_under_min_interval] is a function of the clock
    reading, the state and the sensor.  On a sensor's state it returns a
    boolean, and it returns true exactly when a timestamp is recorded, the
    sensor's minimum interval is set and the time elapsed since the later of
    the two timestamps (an absent one counting as 0) is below that
    interval.  It returns false when both timestamps are absent, and when no
    interval is configured. *)
Theorem is_under_min_interval_spec (now : Z) (st : InstigatorState.t) (s : ExternalSensor.t) :
  InstigatorState.instigator_data st <> Some ScheduleData ->
  let ts := sensor_data_of (Some st) ≫= SensorInstigatorData.last_tick_timestamp in
  let start := sensor_data_of (Some st) ≫= SensorInstigatorData.last_tick_start_timestamp in
  (exists b, _is_under_min_interval now st s = Ok b) /\
  (_is_under_min_interval now st s = Ok true <->
     ~ (absent ts /\ absent start) /\
     exists I, ExternalSensor.min_interval_seconds s = Some I /\ I <> 0 /\
               now - Z.max (default 0 ts) (default 0 start) < I) /\
  (absent ts -> absent start -> _is_under_min_interval now st s = Ok false) /\
  (absent (ExternalSensor.min_interval_seconds s) ->
   _is_under_min_interval now st s = Ok false).
Proof.
  intros Hdata ts start.
  unfold _is_under_min_interval. rewrite (sensor_instigator_data_ok st Hdata).
  subst ts start.
  destruct (sensor_data_of (Some st)) as [d|]; simpl.
  2:{ unfold absent. repeat split; eauto; try discriminate. naive_solver. }
  rewrite !or_zero_default. unfold absent, truthy_num.
  destruct (SensorInstigatorData.last_tick_timestamp d) as [vt|],
           (SensorInstigatorData.last_tick_start_timestamp d) as [vs|],
           (ExternalSensor.min_interval_seconds s) as [vi|]; simpl.
  all: repeat match goal with
       | |- context [Z.eqb ?v 0] => destruct (Z.eqb_spec v 0); simpl
       end.
  all: rewrite ?Ok_inj, ?Z.ltb_lt.
  all: (split; [eauto|]).
  all: split; [|split]; solve [naive_solver lia].
Qed.

(** The spec's scenario: the last tick ended at T = 100 and the interval is
    60; at T + 30 the sensor is under its minimum interval. *)
Lemma is_under_min_interval_spec_witness :
  InstigatorState.instigator_data
    (Examples.state_with (Some (SensorData Examples.data_ended_100))) <> Some ScheduleData
  /\ _is_under_min_interval 130
       (Examples.state_with (Some (SensorData Examples.data_ended_100))) Examples.sensor
     = Ok true.
Proof.
  assert (H : InstigatorState.instigator_data
                (Examples.state_with (Some (SensorData Examples.data_ended_100)))
              <> Some ScheduleData) by (simpl; discriminate).
  split; [exact H|].
  apply (is_under_min_interval_spec 130 _ Examples.sensor H). split.
  - intros [[Hn|Hz] _]; simpl in *; discriminate.
  - exists 60. simpl. repeat split; lia.
Defined.

(** C3 as stated fails: of the two timestamps only [last_tick_timestamp] is
    recorded, and the sensor is under its minimum interval all the same. *)
Lemma under_min_interval_with_one_timestamp :
  absent (SensorInstigatorData.last_tick_start_timestamp Examples.data_ended_100)
  /\ ExternalSensor.min_interval_seconds Examples.sensor = Some 60
  /\ _is_under_min_interval 130
       (Examples.state_with (Some (SensorData Examples.data_ended_100))) Examples.sensor
     = Ok true.
Proof. split; [left; reflexivity | split; reflexivity]. Qed.

(** ** The claim of a tick *)

Lemma persisted_state_selector s i st :
  persisted_state s i = Some st -> InstigatorState.selector_id st = ExternalSensor.selector_id s.
Proof.
  unfold persisted_state, DagsterInstance.get_instigator_state.
  destruct (_ !! _) as [st'|]; [|discriminate].
  case_bool_decide; [|discriminate]. congruence.
Qed.

Lemma persisted_state_update s i st' :
  InstigatorState.selector_id st' = ExternalSensor.selector_id s ->
  persisted_state s (DagsterInstance.update_instigator_state st' i) = Some st'.
Proof.
  intros Hsel. unfold persisted_state, DagsterInstance.get_instigator_state,
    DagsterInstance.update_instigator_state. simpl.
  rewrite Hsel, lookup_insert_eq. rewrite bool_decide_true by assumption. reflexivity.
Qed.

(** The call of the gate: its answer is the one of [_is_under_min_interval]
    at the next reading of the clock, and that reading is taken only when
    the check gets to it. *)
Lemma is_under_min_interval_call_run st s d :
  InstigatorState.instigator_data st <> Some ScheduleData ->
  _is_under_min_interval_call st s d
  = (_is_under_min_interval (Daemon.clock d (Daemon.clock_reads d)) st s,
     if check_reads_clock s st then after_clock_reads 1 d else d).
Proof.
  intros Hdata. unfold _is_under_min_interval_call, _is_under_min_interval, check_reads_clock.
  unfold bind at 1. unfold liftR. rewrite (sensor_instigator_data_ok st Hdata).
  destruct (sensor_data_of (Some st)) as [data|]; [|reflexivity].
  destruct (truthy_num (SensorInstigatorData.last_tick_start_timestamp data)),
    (truthy_num (SensorInstigatorData.last_tick_timestamp data)),
    (truthy_num (ExternalSensor.min_interval_seconds s)); reflexivity.
Qed.

(** Where the check does not read the clock, its answer is no. *)
Lemma is_under_min_interval_unread now st s :
  InstigatorState.instigator_data st <> Some ScheduleData ->
  check_reads_clock s st = false ->
  _is_under_min_interval now st s = Ok false.
Proof.
  intros Hdata. unfold _is_under_min_interval, check_reads_clock.
  rewrite (sensor_instigator_data_ok st Hdata).
  destruct (sensor_data_of (Some st)) as [data|]; [|reflexivity].
  destruct (truthy_num (SensorInstigatorData.last_tick_start_timestamp data)),
    (truthy_num (SensorInstigatorData.last_tick_timestamp data)),
    (truthy_num (ExternalSensor.min_interval_seconds s)); simpl; congruence.
Qed.

Lemma claim_tick_run s d st :
  persisted_state s (Daemon.instance d) = Some st ->
  InstigatorState.instigator_data st <> Some ScheduleData ->
  claim_tick s d =
    match _is_under_min_interval (Daemon.clock d (S (Daemon.clock_reads d))) st s with
    | Ok true => (Ok None, after_clock_reads (claim_reads s st) d)
    | Ok false =>
        (Ok (Some (st, Daemon.clock d (Daemon.clock_reads d))),
         Daemon.set_instance
           (DagsterInstance.update_instigator_state
              (InstigatorState.with_data st
                 (SensorInstigatorData.mk
                    (sensor_data_of (Some st) ≫= SensorInstigatorData.last_tick_timestamp)
                    (sensor_data_of (Some st) ≫= SensorInstigatorData.last_run_key)
                    (ExternalSensor.min_interval_seconds s)
                    (sensor_data_of (Some st) ≫= SensorInstigatorData.cursor)
                    (Some (Daemon.clock d (Daemon.clock_reads d)))))
              (Daemon.instance d))
           (after_clock_reads (claim_reads s st) d))
    | Raise e => (Raise e, after_clock_reads (claim_reads s st) d)
    end.
Proof.
  intros Hst Hdata. unfold claim_tick.
  unfold bind at 1. unfold now_timestamp at 1. cbv beta iota.
  unfold bind at 1. unfold instance_get, gets. cbv beta iota.
  unfold persisted_state in Hst. cbn [Daemon.instance]. rewrite Hst.
  unfold bind at 1. unfold check_not_none, ret at 1. cbv beta iota.
  unfold bind at 1. rewrite (is_under_min_interval_call_run st s _ Hdata).
  cbn [Daemon.clock Daemon.clock_reads]. unfold claim_reads.
  destruct (check_reads_clock s st) eqn:Hreads.
  - destruct (_is_under_min_interval _ st s) as [[|]|e]; try reflexivity.
    unfold _mark_sensor_state_for_tick, bind, liftR.
    rewrite (sensor_instigator_data_ok st Hdata). reflexivity.
  - rewrite !(is_under_min_interval_unread _ st s Hdata Hreads).
    unfold _mark_sensor_state_for_tick, bind, liftR.
    rewrite (sensor_instigator_data_ok st Hdata). reflexivity.
Qed.

Lemma sensor_data_of_with_data st d :
  sensor_data_of (Some (InstigatorState.with_data st d)) = Some d.
Proof. reflexivity. Qed.

(** On a state that is stamped and a sensor with an interval, the check
    reads the clock. *)
Lemma check_reads_clock_stamped s st d start I :
  InstigatorState.instigator_data st = Some (SensorData d) ->
  SensorInstigatorData.last_tick_start_timestamp d = Some start ->
  start <> 0 ->
  ExternalSensor.min_interval_seconds s = Some I ->
  I <> 0 ->
  check_reads_clock s st = true.
Proof.
  intros Hdata Hstart Hs HI HI0. unfold check_reads_clock, sensor_data_of. simpl.
  rewrite Hdata, Hstart, HI. simpl.
  destruct (Z.eqb_spec start 0); [contradiction|].
  destruct (Z.eqb_spec I 0); [contradiction|]. reflexivity.
Qed.

(** C4 (as amended).  The claim of a tick, made with the sensor state lock
    held, reads the persisted state again; when that state is under the
    minimum interval it returns without a write, and no tick is created;
    otherwise it stamps [last_tick_start_timestamp] with the start of the
    attempt and leaves cursor and last run key as they were.  The clock is
    read as the code reads it: once for the start of an attempt, and once
    more for its throttle check when the check gets to its reading.  Of
    two attempts, the later checking its throttle less than the minimum
    interval after the start of the earlier, at most one succeeds: when the
    earlier is not throttled it succeeds and the later does not. *)
Theorem claim_tick_mutual_exclusion (s : ExternalSensor.t) (d : Daemon.t)
    (st : InstigatorState.t) (I : Z) :
  persisted_state s (Daemon.instance d) = Some st ->
  InstigatorState.instigator_data st <> Some ScheduleData ->
  ExternalSensor.min_interval_seconds s = Some I ->
  let n := Daemon.clock_reads d in
  let now1 := Daemon.clock d n in
  let check1 := Daemon.clock d (S n) in
  let check2 := Daemon.clock d (S (claim_reads s st + n)) in
  0 < now1 -> now1 <= check2 -> check2 - now1 < I ->
  exists r1 d1 r2 d2,
    claim_tick s d = (Ok r1, d1) /\ claim_tick s d1 = (Ok r2, d2) /\
    (* the readings of the clock the two attempts make *)
    Daemon.clock d1 = Daemon.clock d /\
    Daemon.clock_reads d1 = (claim_reads s st + n)%nat /\
    (check_reads_clock s st = false -> _is_under_min_interval check1 st s = Ok false) /\
    (is_Some r1 -> Daemon.clock_reads d2 = (2 + Daemon.clock_reads d1)%nat) /\
    (_is_under_min_interval check1 st s = Ok true ->
       r1 = None /\ Daemon.instance d1 = Daemon.instance d /\
       forall ws settings,
         (_process_tick_generator ws s settings d).1 = Ok tt /\
         Daemon.instance (_process_tick_generator ws s settings d).2 = Daemon.instance d) /\
    (_is_under_min_interval check1 st s = Ok false ->
       r1 = Some (st, now1) /\ r2 = None /\
       persisted_tick_start s (Daemon.instance d1) = Some now1 /\
       persisted_cursor s (Daemon.instance d1) = persisted_cursor s (Daemon.instance d) /\
       persisted_last_run_key s (Daemon.instance d1)
       = persisted_last_run_key s (Daemon.instance d)) /\
    ~ (is_Some r1 /\ is_Some r2).
Proof.
  intros Hst Hdata HI n now1 check1 check2 Hpos Hmono Hlt.
  pose proof (claim_tick_run s d st Hst Hdata) as Hrun1. fold n check1 now1 in Hrun1.
  destruct (is_under_min_interval_total check1 st s Hdata) as [b Hb].
  rewrite Hb in Hrun1. destruct b.
  - (* the first attempt is throttled *)
    assert (Hst1 : persisted_state s (Daemon.instance (after_clock_reads (claim_reads s st) d))
                   = Some st) by exact Hst.
    pose proof (claim_tick_run s _ st Hst1 Hdata) as Hrun2.
    destruct (is_under_min_interval_total
                (Daemon.clock (after_clock_reads (claim_reads s st) d)
                   (S (Daemon.clock_reads (after_clock_reads (claim_reads s st) d)))) st s
                Hdata) as [b2 Hb2].
    rewrite Hb2 in Hrun2.
    exists None, (after_clock_reads (claim_reads s st) d).
    destruct b2; do 2 eexists; (split; [exact Hrun1|]); (split; [exact Hrun2|]).
    all: split; [reflexivity|]; split; [reflexivity|].
    all: split; [intros Hno; rewrite (is_under_min_interval_unread _ st s Hdata Hno) in Hb;
                 discriminate|].
    all: split; [intros [x Hx]; discriminate|].
    all: split; [intros _; split; [reflexivity|]; split; [reflexivity|] |].
    all: try (intros ws settings; unfold _process_tick_generator, bind;
              rewrite Hrun1; simpl; split; reflexivity).
    all: split; [rewrite Hb; discriminate | intros [[x Hx] _]; discriminate].
  - (* the first attempt claims the tick *)
    set (st1 := InstigatorState.with_data st _) in Hrun1.
    set (d1 := Daemon.set_instance _ _) in Hrun1.
    assert (Hst1 : persisted_state s (Daemon.instance d1) = Some st1).
    { subst d1. simpl. apply persisted_state_update. subst st1. simpl.
      eapply persisted_state_selector; eassumption. }
    assert (Hdata1 : InstigatorState.instigator_data st1 <> Some ScheduleData)
      by (subst st1; simpl; discriminate).
    pose proof (claim_tick_run s d1 st1 Hst1 Hdata1) as Hrun2.
    assert (Hreads1 : claim_reads s st1 = 2%nat).
    { assert (Hr : check_reads_clock s st1 = true).
      { eapply (check_reads_clock_stamped s st1 _ now1 I);
          [subst st1; reflexivity | reflexivity | lia | exact HI | lia]. }
      unfold claim_reads. rewrite Hr. reflexivity. }
    assert (Hunder : _is_under_min_interval
                       (Daemon.clock d1 (S (Daemon.clock_reads d1))) st1 s = Ok true).
    { eapply (is_under_min_interval_stamped _ st1 s _ now1 I).
      - subst st1. reflexivity.
      - reflexivity.
      - lia.
      - exact HI.
      - lia.
      - simpl. fold n check2. lia. }
    rewrite Hunder, Hreads1 in Hrun2.
    exists (Some (st, now1)), d1, None, (after_clock_reads 2 d1).
    split; [exact Hrun1|]. split; [exact Hrun2|].
    split; [reflexivity|]. split; [reflexivity|].
    split; [intros _; exact Hb|]. split; [intros _; reflexivity|].
    split; [rewrite Hb; discriminate|].
    split.
    + intros _. split; [reflexivity|]. split; [reflexivity|].
      unfold persisted_tick_start, persisted_cursor, persisted_last_run_key.
      rewrite Hst1, Hst. subst st1. rewrite sensor_data_of_with_data. simpl.
      split; [reflexivity|].
      destruct (sensor_data_of (Some st)); split; reflexivity.
    + intros [_ [x Hx]]. discriminate.
Qed.

Lemma claim_tick_mutual_exclusion_witness :
  let s := Examples.sensor in
  let d := Examples.daemon_at (Examples.instance_with Examples.data_fresh) 110 5 in
  persisted_state s (Daemon.instance d)
  = Some (Examples.state_with (Some (SensorData Examples.data_fresh)))
  /\ 0 < Daemon.clock d 0
  /\ Daemon.clock d 2 - Daemon.clock d 0 < 60
  /\ exists r1 d1 r2 d2,
       claim_tick s d = (Ok r1, d1) /\ claim_tick s d1 = (Ok r2, d2)
       /\ Daemon.clock_reads d1 = 1%nat
       /\ r1 = Some (Examples.state_with (Some (SensorData Examples.data_fresh)), 110)
       /\ r2 = None.
Proof.
  intros s d.
  assert (Hst : persisted_state s (Daemon.instance d)
                = Some (Examples.state_with (Some (SensorData Examples.data_fresh))))
    by (vm_compute; reflexivity).
  split; [exact Hst|]. split; [vm_compute; reflexivity|]. split; [vm_compute; reflexivity|].
  destruct (claim_tick_mutual_exclusion s d _ 60 Hst)
    as (r1 & d1 & r2 & d2 & H1 & H2 & _ & Hreads & _ & _ & _ & Hfree & _).
  - simpl; discriminate.
  - reflexivity.
  - vm_compute; reflexivity.
  - vm_compute; discriminate.
  - vm_compute; reflexivity.
  - exists r1, d1, r2, d2. split; [exact H1|]. split; [exact H2|].
    split; [exact Hreads|]. destruct Hfree as (Hr1 & Hr2 & _); [reflexivity|]. auto.
Defined.

(** C4 as stated fails: the state was stamped at 100 and the interval is
    60; two attempts start at 110 and at 120, less than the interval apart,
    and neither succeeds. *)
Lemma two_attempts_both_throttled :
  let s := Examples.sensor in
  let d := Examples.daemon_reading (Examples.instance_with Examples.data_started_100)
             [110; 110; 120; 120] in
  ExternalSensor.min_interval_seconds s = Some 60
  /\ Daemon.clock d 2 - Daemon.clock d 0 < 60
  /\ (claim_tick s d).1 = Ok None
  /\ (claim_tick s (claim_tick s d).2).1 = Ok None.
Proof. vm_compute. repeat split. Qed.

(** ** Run de-duplication *)

















(** ** Dynamic partitions *)

Lemma partitions_of_add name keys i other :
  DagsterInstance.partitions_of other (DagsterInstance.add_dynamic_partitions name keys i)
  = if decide (name = other)
    then DagsterInstance.partitions_of name i ∪ list_to_set keys
    else DagsterInstance.partitions_of other i.
Proof.
  unfold DagsterInstance.partitions_of at 1. simpl.
  destruct (decide (name = other)) as [->|Hne].
  - rewrite lookup_insert_eq. reflexivity.
  - rewrite lookup_insert_ne by assumption. reflexivity.
Qed.

Lemma partitions_of_delete name key i other :
  DagsterInstance.partitions_of other (DagsterInstance.delete_dynamic_partition name key i)
  = if decide (name = other)
    then DagsterInstance.partitions_of name i ∖ {[ key ]}
    else DagsterInstance.partitions_of other i.
Proof.
  unfold DagsterInstance.partitions_of at 1. simpl.
  destruct (decide (name = other)) as [->|Hne].
  - rewrite lookup_insert_eq. reflexivity.
  - rewrite lookup_insert_ne by assumption. reflexivity.
Qed.

(** The loop that deletes the keys one by one. *)
Lemma delete_each name keys : forall d c,
  exists d',
    for_each keys (fun partition =>
      in_daemon (instance_do (DagsterInstance.delete_dynamic_partition name partition)))
      (Scope.mk d c) = (Ok tt, Scope.mk d' c) /\
    Daemon.logged d' = Daemon.logged d /\
    Daemon.yielded d' = Daemon.yielded d /\
    Daemon.pending_close d' = Daemon.pending_close d /\
    (forall other, DagsterInstance.partitions_of other (Daemon.instance d')
                   = if decide (name = other)
                     then DagsterInstance.partitions_of name (Daemon.instance d)
                            ∖ list_to_set keys
                     else DagsterInstance.partitions_of other (Daemon.instance d)).
Proof.
  induction keys as [|k keys IH]; intros d c; simpl.
  - exists d. repeat split; try reflexivity.
    intros other. destruct (decide (name = other)) as [->|]; [|reflexivity].
    set_solver.
  - unfold bind at 1. simpl.
    destruct (IH (Daemon.set_instance
                    (DagsterInstance.delete_dynamic_partition name k (Daemon.instance d)) d) c)
      as (d' & Hrun & Hl & Hy & Hp & Hparts).
    exists d'. split; [exact Hrun|]. repeat split; try assumption.
    intros other. rewrite Hparts. simpl. rewrite !partitions_of_delete.
    destruct (decide (name = other)) as [->|]; [|reflexivity].
    rewrite decide_True by reflexivity. set_solver.
Qed.

Lemma elem_of_present_keys r keys k : k ∈ present_keys r keys <-> k ∈ keys /\ k ∈ r.
Proof.
  unfold present_keys. rewrite !list_elem_of_In, filter_In, bool_decide_eq_true. tauto.
Qed.

Lemma elem_of_missing_keys r keys k : k ∈ missing_keys r keys <-> k ∈ keys /\ k ∉ r.
Proof.
  unfold missing_keys. rewrite !list_elem_of_In, filter_In, negb_true_iff,
    bool_decide_eq_false. tauto.
Qed.

Lemma keys_all_present (r : gset string) keys :
  (forall k, k ∈ keys -> k ∈ r) -> present_keys r keys = keys /\ missing_keys r keys = [].
Proof.
  unfold present_keys, missing_keys. induction keys as [|k keys IH]; intros H; simpl; [auto|].
  rewrite bool_decide_true by (apply H; left). simpl.
  destruct IH as [-> ->]; [intros; apply H; right; assumption|]. auto.
Qed.

Lemma keys_all_missing (r : gset string) keys :
  (forall k, k ∈ keys -> k ∉ r) -> present_keys r keys = [] /\ missing_keys r keys = keys.
Proof.
  unfold present_keys, missing_keys. induction keys as [|k keys IH]; intros H; simpl; [auto|].
  rewrite bool_decide_false by (apply H; left). simpl.
  destruct IH as [-> ->]; [intros; apply H; right; assumption|]. auto.
Qed.

(** One request, run once. *)
Lemma apply_dynamic_partitions_request_run request sc :
  let name := partitions_def_name request in
  let keys := partition_keys request in
  let before := DagsterInstance.partitions_of name (scope_instance sc) in
  let present := present_keys before keys in
  let missing := missing_keys before keys in
  exists sc1,
    apply_dynamic_partitions_request request sc = (Ok tt, sc1) /\
    (forall other,
       DagsterInstance.partitions_of other (scope_instance sc1)
       = if decide (name = other)
         then match request with
              | AddDynamicPartitionsRequest _ _ => before ∪ list_to_set missing
              | DeleteDynamicPartitionsRequest _ _ => before ∖ list_to_set present
              end
         else DagsterInstance.partitions_of other (scope_instance sc)) /\
    recorded_partition_results sc1
    = (recorded_partition_results sc
       ++ [match request with
           | AddDynamicPartitionsRequest _ _ =>
               DynamicPartitionsRequestResult.mk name (Some missing) None present
           | DeleteDynamicPartitionsRequest _ _ =>
               DynamicPartitionsRequestResult.mk name None (Some present) missing
           end])%list /\
    (match request with
     | AddDynamicPartitionsRequest _ _ => missing = []
     | DeleteDynamicPartitionsRequest _ _ => present = []
     end -> scope_instance sc1 = scope_instance sc).
Proof.
  intros name keys before present missing.
  destruct sc as [d c]. unfold apply_dynamic_partitions_request.
  fold name keys. unfold bind at 1. simpl.
  unfold bind at 1. simpl.
  change (List.filter (fun k => negb (DagsterInstance.has_dynamic_partition name k
                                        (Daemon.instance d))) keys) with missing.
  change (List.filter (fun k => DagsterInstance.has_dynamic_partition name k
                                  (Daemon.instance d)) keys) with present.
  destruct request as [n ks|n ks].
  - (* Add *)
    destruct missing as [|m ms] eqn:Hm; destruct present as [|p ps] eqn:Hp;
      unfold bind; simpl; eexists; (split; [reflexivity|]).
    all: split; [|split; [reflexivity|]].
    all: try (intros other; unfold scope_instance; simpl;
              destruct (decide (name = other)) as [<-|]; [|reflexivity];
              fold before; set_solver).
    all: try reflexivity.
    all: try discriminate.
    all: intros other; unfold scope_instance; simpl; rewrite partitions_of_add;
      destruct (decide (name = other)) as [<-|]; reflexivity.
  - (* Delete *)
    destruct present as [|p ps] eqn:Hp.
    + destruct missing as [|m ms] eqn:Hm;
        unfold bind; simpl; eexists; (split; [reflexivity|]).
      all: split; [|split; reflexivity].
      all: intros other; unfold scope_instance; simpl;
        destruct (decide (name = other)) as [<-|]; [|reflexivity];
        fold before; set_solver.
    + destruct (delete_each name (p :: ps) d c) as (d' & Hrun & Hl & Hy & Hc & Hparts).
      unfold bind at 1. unfold bind at 1.
      change (truthy_list (p :: ps)) with true. cbv iota. unfold bind at 1.
      rewrite Hrun.
      destruct missing as [|m ms] eqn:Hm; unfold bind; simpl;
        eexists; (split; [reflexivity|]).
      all: split; [|split; [reflexivity|discriminate]].
      all: intros other; unfold scope_instance; simpl; rewrite Hparts; reflexivity.
Qed.

(** C8.  A dynamic-partition request never fails.  An Add request inserts
    exactly the requested keys the registry does not have yet and reports
    the ones it has as skipped; a Delete request removes exactly the
    requested keys the registry has and reports the others as skipped; the
    registry of every other partitions definition is untouched.  Applied a
    second time, the same request reports every key as skipped, adds or
    deletes nothing and leaves the store as it is. *)
Theorem dynamic_partitions_request_idempotent (request : DynamicPartitionsRequest)
    (sc : Scope.t) :
  let name := partitions_def_name request in
  let keys := partition_keys request in
  let before := DagsterInstance.partitions_of name (scope_instance sc) in
  let present := present_keys before keys in
  let missing := missing_keys before keys in
  exists sc1 sc2,
    apply_dynamic_partitions_request request sc = (Ok tt, sc1) /\
    apply_dynamic_partitions_request request sc1 = (Ok tt, sc2) /\
    DagsterInstance.partitions_of name (scope_instance sc1)
    = match request with
      | AddDynamicPartitionsRequest _ _ => before ∪ list_to_set missing
      | DeleteDynamicPartitionsRequest _ _ => before ∖ list_to_set present
      end /\
    (forall k, k ∈ DagsterInstance.partitions_of name (scope_instance sc1) <->
               match request with
               | AddDynamicPartitionsRequest _ _ => k ∈ before \/ k ∈ keys
               | DeleteDynamicPartitionsRequest _ _ => k ∈ before /\ k ∉ keys
               end) /\
    (forall other, other <> name ->
       DagsterInstance.partitions_of other (scope_instance sc1)
       = DagsterInstance.partitions_of other (scope_instance sc)) /\
    recorded_partition_results sc1
    = (recorded_partition_results sc
       ++ [match request with
           | AddDynamicPartitionsRequest _ _ =>
               DynamicPartitionsRequestResult.mk name (Some missing) None present
           | DeleteDynamicPartitionsRequest _ _ =>
               DynamicPartitionsRequestResult.mk name None (Some present) missing
           end])%list /\
    scope_instance sc2 = scope_instance sc1 /\
    recorded_partition_results sc2
    = (recorded_partition_results sc1
       ++ [match request with
           | AddDynamicPartitionsRequest _ _ =>
               DynamicPartitionsRequestResult.mk name (Some []) None keys
           | DeleteDynamicPartitionsRequest _ _ =>
               DynamicPartitionsRequestResult.mk name None (Some []) keys
           end])%list.
Proof.
  intros name keys before present missing.
  destruct (apply_dynamic_partitions_request_run request sc)
    as (sc1 & Hrun1 & Hparts1 & Hrec1 & _).
  destruct (apply_dynamic_partitions_request_run request sc1)
    as (sc2 & Hrun2 & _ & Hrec2 & Hsame).
  fold name keys in Hparts1, Hrec1, Hrec2, Hsame. fold before in Hparts1, Hrec1.
  fold present missing in Hparts1, Hrec1.
  pose proof (Hparts1 name) as Hname. rewrite decide_True in Hname by reflexivity.
  assert (Hmem : forall k, k ∈ DagsterInstance.partitions_of name (scope_instance sc1) <->
               match request with
               | AddDynamicPartitionsRequest _ _ => k ∈ before \/ k ∈ keys
               | DeleteDynamicPartitionsRequest _ _ => k ∈ before /\ k ∉ keys
               end).
  { intros k. rewrite Hname. destruct request.
    - rewrite elem_of_union, elem_of_list_to_set. subst missing.
      rewrite elem_of_missing_keys. destruct (decide (k ∈ before)); tauto.
    - rewrite elem_of_difference, elem_of_list_to_set. subst present.
      rewrite elem_of_present_keys. tauto. }
  assert (Hagain :
    match request with
    | AddDynamicPartitionsRequest _ _ =>
        present_keys (DagsterInstance.partitions_of name (scope_instance sc1)) keys = keys /\
        missing_keys (DagsterInstance.partitions_of name (scope_instance sc1)) keys = []
    | DeleteDynamicPartitionsRequest _ _ =>
        present_keys (DagsterInstance.partitions_of name (scope_instance sc1)) keys = [] /\
        missing_keys (DagsterInstance.partitions_of name (scope_instance sc1)) keys = keys
    end).
  { destruct request.
    - apply keys_all_present. intros k Hk. apply Hmem. auto.
    - apply keys_all_missing. intros k Hk Hin. apply Hmem in Hin. tauto. }
  exists sc1, sc2. split; [exact Hrun1|]. split; [exact Hrun2|].
  split; [exact Hname|]. split; [exact Hmem|]. split.
  { intros other Hne. rewrite Hparts1. rewrite decide_False by congruence. reflexivity. }
  split; [exact Hrec1|].
  destruct request; destruct Hagain as [Hp Hm]; rewrite Hp, Hm in *; auto.
Qed.

(** ** Running computations *)

Lemma bind_Ok {S A B} (m : M S A) (k : A -> M S B) s a s' :
  m s = (Ok a, s') -> bind m k s = k a s'.
Proof. intros H. unfold bind. rewrite H. reflexivity. Qed.

Lemma bind_Raise {S A B} (m : M S A) (k : A -> M S B) s e s' :
  m s = (Raise e, s') -> bind m k s = (Raise e, s').
Proof. intros H. unfold bind. rewrite H. reflexivity. Qed.

Lemma bind_inv {S A B} (m : M S A) (k : A -> M S B) s r s2 :
  bind m k s = (r, s2) ->
  (exists a s1, m s = (Ok a, s1) /\ k a s1 = (r, s2)) \/
  (exists e, m s = (Raise e, s2) /\ r = Raise e).
Proof.
  unfold bind. destruct (m s) as [[a|e] s1].
  - intros H. left. eauto.
  - intros [= <- <-]. right. eauto.
Qed.

(** The retention purge at the end of a tick: it ends normally, and all it
    writes are purges. *)
Lemma purge_loop c ps : forall d,
  exists d' ops,
    for_each ps (SensorLaunchContext.purge c) d = (Ok tt, d') /\
    DagsterInstance.history (Daemon.instance d')
    = (DagsterInstance.history (Daemon.instance d) ++ ops)%list /\
    Forall (fun op => is_purge op = true) ops /\
    DagsterInstance.instigator_states (Daemon.instance d')
    = DagsterInstance.instigator_states (Daemon.instance d) /\
    Daemon.logged d' = Daemon.logged d /\
    Daemon.yielded d' = Daemon.yielded d /\
    Daemon.pending_close d' = Daemon.pending_close d.
Proof.
  induction ps as [|[off sts] ps IH]; intros d; simpl.
  - exists d, []. rewrite app_nil_r. repeat split; constructor.
  - unfold SensorLaunchContext.purge at 1. simpl.
    destruct (off <=? 0).
    + unfold bind at 1. simpl. apply IH.
    + unfold bind at 1. unfold bind at 1. simpl.
      match goal with |- context [for_each ps _ ?d1] =>
        destruct (IH d1) as (d' & ops & Hrun & Hh & Hops & Hst & Hl & Hy & Hp) end.
      exists d'. eexists (_ :: ops). split; [exact Hrun|].
      simpl in Hh, Hst, Hl, Hy, Hp.
      split; [rewrite Hh, <- app_assoc; reflexivity|].
      split; [constructor; [reflexivity|assumption]|]. auto.
Qed.

Lemma persisted_state_ext s i i' :
  DagsterInstance.instigator_states i' = DagsterInstance.instigator_states i ->
  persisted_state s i' = persisted_state s i.
Proof.
  intros H. unfold persisted_state, DagsterInstance.get_instigator_state. rewrite H.
  reflexivity.
Qed.

Lemma persisted_state_update_tick s k i :
  persisted_state s (DagsterInstance.update_tick k i) = persisted_state s i.
Proof. reflexivity. Qed.

(** [_write] on a finished tick, the state of the sensor being in the
    store. *)
Lemma write_finished c d st data :
  SensorLaunchContext.status c ∈ FINISHED_TICK_STATES ->
  persisted_state (SensorLaunchContext._external_sensor c) (Daemon.instance d) = Some st ->
  InstigatorState.instigator_data st = Some (SensorData data) ->
  let update := negb (bool_decide (SensorLaunchContext.status c = FAILURE))
                || SensorLaunchContext._should_update_cursor_on_failure c in
  let k := SensorLaunchContext._tick c in
  exists d' st',
    SensorLaunchContext._write c d = (Ok tt, d') /\
    DagsterInstance.history (Daemon.instance d')
    = (DagsterInstance.history (Daemon.instance d)
       ++ [OpUpdateTick k; OpUpdateInstigatorState st'])%list /\
    DagsterInstance.ticks (Daemon.instance d')
    = <[InstigatorTick.tick_id k := InstigatorTick.tick_data k]>
        (DagsterInstance.ticks (Daemon.instance d)) /\
    persisted_state (SensorLaunchContext._external_sensor c) (Daemon.instance d') = Some st' /\
    persisted_cursor (SensorLaunchContext._external_sensor c) (Daemon.instance d')
    = (if update then InstigatorTick.cursor k else SensorInstigatorData.cursor data) /\
    persisted_last_run_key (SensorLaunchContext._external_sensor c) (Daemon.instance d')
    = (if truthy_list (InstigatorTick.run_keys k) && update
       then last (InstigatorTick.run_keys k)
       else SensorInstigatorData.last_run_key data) /\
    Daemon.logged d' = Daemon.logged d /\
    Daemon.yielded d' = Daemon.yielded d /\
    Daemon.pending_close d' = Daemon.pending_close d /\
    Daemon.clock d' = Daemon.clock d /\
    Daemon.clock_reads d' = Daemon.clock_reads d.
Proof.
  intros Hfin Hst Hdata update k.
  unfold SensorLaunchContext._write. unfold bind at 1. simpl.
  rewrite bool_decide_true by assumption. simpl.
  unfold bind at 1. simpl.
  unfold persisted_state in Hst.
  change (DagsterInstance.get_instigator_state _ _
            (DagsterInstance.update_tick _ (Daemon.instance d)))
    with (DagsterInstance.get_instigator_state
            (ExternalSensor.get_external_origin_id (SensorLaunchContext._external_sensor c))
            (ExternalSensor.selector_id (SensorLaunchContext._external_sensor c))
            (Daemon.instance d)).
  rewrite Hst, Hdata. simpl.
  eexists. eexists. split; [reflexivity|]. simpl.
  split; [rewrite <- app_assoc; reflexivity|]. split; [reflexivity|].
  assert (Hsel : InstigatorState.selector_id st
                 = ExternalSensor.selector_id (SensorLaunchContext._external_sensor c)).
  { eapply persisted_state_selector. exact Hst. }
  unfold persisted_cursor, persisted_last_run_key.
  rewrite !persisted_state_update by exact Hsel.
  rewrite sensor_data_of_with_data. simpl. fold update k.
  repeat split.
Qed.

Lemma exit_context_sensor exc c :
  SensorLaunchContext._external_sensor (exit_context exc c)
  = SensorLaunchContext._external_sensor c.
Proof. destruct exc as [[| |msg]|]; reflexivity. Qed.

Lemma exit_context_flag exc c :
  SensorLaunchContext._should_update_cursor_on_failure (exit_context exc c)
  = SensorLaunchContext._should_update_cursor_on_failure c.
Proof. destruct exc as [[| |msg]|]; reflexivity. Qed.

Lemma exit_context_purge_settings exc c :
  SensorLaunchContext._purge_settings (exit_context exc c)
  = SensorLaunchContext._purge_settings c.
Proof. destruct exc as [[| |msg]|]; reflexivity. Qed.

Lemma exit_context_Exception msg c :
  SensorLaunchContext.status (exit_context (Some (Exception msg)) c) = FAILURE /\
  InstigatorTick.error (SensorLaunchContext._tick (exit_context (Some (Exception msg)) c))
  = Some (serializable_error_info_from_exc_info (Exception msg)) /\
  InstigatorTick.cursor (SensorLaunchContext._tick (exit_context (Some (Exception msg)) c))
  = InstigatorTick.cursor (SensorLaunchContext._tick c) /\
  InstigatorTick.run_keys (SensorLaunchContext._tick (exit_context (Some (Exception msg)) c))
  = InstigatorTick.run_keys (SensorLaunchContext._tick c) /\
  InstigatorTick.tick_id (SensorLaunchContext._tick (exit_context (Some (Exception msg)) c))
  = InstigatorTick.tick_id (SensorLaunchContext._tick c).
Proof. repeat split. Qed.

Lemma exit_unfold exc c d :
  exc <> Some KeyboardInterrupt ->
  SensorLaunchContext.__exit__ exc c d
  = (SensorLaunchContext._write (exit_context exc c) ;;;
     for_each (SensorLaunchContext._purge_settings c)
       (SensorLaunchContext.purge (exit_context exc c))) d.
Proof.
  intros Hne. unfold SensorLaunchContext.__exit__, exit_context.
  destruct exc as [[| |msg]|]; try reflexivity. congruence.
Qed.

(** [__exit__] on a tick that is finished once marked: the tick is written,
    then the state, then the purges run. *)
Lemma exit_finished exc c d st data :
  exc <> Some KeyboardInterrupt ->
  SensorLaunchContext.status (exit_context exc c) ∈ FINISHED_TICK_STATES ->
  persisted_state (SensorLaunchContext._external_sensor c) (Daemon.instance d) = Some st ->
  InstigatorState.instigator_data st = Some (SensorData data) ->
  let c' := exit_context exc c in
  let update := negb (bool_decide (SensorLaunchContext.status c' = FAILURE))
                || SensorLaunchContext._should_update_cursor_on_failure c in
  let k := SensorLaunchContext._tick c' in
  exists d' st' ops,
    SensorLaunchContext.__exit__ exc c d = (Ok tt, d') /\
    DagsterInstance.history (Daemon.instance d')
    = (DagsterInstance.history (Daemon.instance d)
       ++ OpUpdateTick k :: OpUpdateInstigatorState st' :: ops)%list /\
    Forall (fun op => is_purge op = true) ops /\
    persisted_cursor (SensorLaunchContext._external_sensor c) (Daemon.instance d')
    = (if update then InstigatorTick.cursor k else SensorInstigatorData.cursor data) /\
    persisted_last_run_key (SensorLaunchContext._external_sensor c) (Daemon.instance d')
    = (if truthy_list (InstigatorTick.run_keys k) && update
       then last (InstigatorTick.run_keys k)
       else SensorInstigatorData.last_run_key data) /\
    Daemon.logged d' = Daemon.logged d /\
    Daemon.yielded d' = Daemon.yielded d /\
    Daemon.pending_close d' = Daemon.pending_close d.
Proof.
  intros Hne Hfin Hst Hdata c' update k.
  rewrite exit_unfold by assumption. fold c'.
  destruct (write_finished c' d st data Hfin) as
    (d1 & st' & Hw & Hh & Hticks & Hst' & Hcur & Hlrk & Hl & Hy & Hp & _).
  { subst c'. rewrite exit_context_sensor. exact Hst. }
  { exact Hdata. }
  rewrite (bind_Ok _ _ _ _ _ Hw).
  destruct (purge_loop c' (SensorLaunchContext._purge_settings c) d1)
    as (d' & ops & Hrun & Hh' & Hops & Hstates & Hl' & Hy' & Hp').
  exists d', st', ops. split; [exact Hrun|].
  split; [rewrite Hh', Hh, <- app_assoc; reflexivity|]. split; [exact Hops|].
  subst c'. rewrite exit_context_sensor, exit_context_flag in *.
  unfold persisted_cursor, persisted_last_run_key in *.
  rewrite (persisted_state_ext _ _ _ Hstates). subst update k.
  repeat split; try assumption; congruence.
Qed.

(** [_write], however it ends: the tick is written, first and once; the
    state follows when the tick is finished and the state is there. *)
Lemma write_inv c d r d' :
  SensorLaunchContext._write c d = (r, d') ->
  exists tail,
    DagsterInstance.history (Daemon.instance d')
    = (DagsterInstance.history (Daemon.instance d)
       ++ OpUpdateTick (SensorLaunchContext._tick c) :: tail)%list /\
    (tail = [] \/ (r = Ok tt /\ exists st', tail = [OpUpdateInstigatorState st'])) /\
    Daemon.logged d' = Daemon.logged d /\
    Daemon.yielded d' = Daemon.yielded d /\
    Daemon.pending_close d' = Daemon.pending_close d.
Proof.
  unfold SensorLaunchContext._write. unfold bind at 1. simpl.
  destruct (negb (bool_decide (SensorLaunchContext.status c ∈ FINISHED_TICK_STATES))).
  { intros [= <- <-]. exists []. simpl. auto. }
  unfold bind at 1. simpl.
  destruct (DagsterInstance.get_instigator_state _ _ _) as [st|].
  2:{ intros [= <- <-]. exists []. simpl. auto. }
  destruct (InstigatorState.instigator_data st) as [[data|]|].
  2,3: intros [= <- <-]; exists []; simpl; auto.
  intros [= <- <-]. eexists [_]. simpl. rewrite <- app_assoc. simpl.
  split; [reflexivity|]. split; [right; eauto|]. auto.
Qed.

(** [__exit__], however it ends, unless the body was interrupted: the tick
    is written once, before anything else; what may follow is the state
    and then the purges. *)
Lemma exit_inv exc c d r d' :
  exc <> Some KeyboardInterrupt ->
  SensorLaunchContext.__exit__ exc c d = (r, d') ->
  exists rest purges,
    DagsterInstance.history (Daemon.instance d')
    = (DagsterInstance.history (Daemon.instance d)
       ++ OpUpdateTick (SensorLaunchContext._tick (exit_context exc c)) :: rest)%list /\
    (rest = purges \/ exists st', rest = OpUpdateInstigatorState st' :: purges) /\
    Forall (fun op => is_purge op = true) purges /\
    Daemon.logged d' = Daemon.logged d /\
    Daemon.yielded d' = Daemon.yielded d /\
    Daemon.pending_close d' = Daemon.pending_close d.
Proof.
  intros Hne. rewrite exit_unfold by assumption. intros H.
  apply bind_inv in H. destruct H as [([] & d1 & Hw & Hp)|(e & Hw & ->)].
  - apply write_inv in Hw. destruct Hw as (tail & Hh & Htail & Hl & Hy & Hpc).
    destruct (purge_loop (exit_context exc c) (SensorLaunchContext._purge_settings c) d1)
      as (d2 & ops & Hrun & Hh' & Hops & _ & Hl' & Hy' & Hpc').
    rewrite Hrun in Hp. injection Hp as <- <-.
    destruct Htail as [->|[_ [st' ->]]].
    + exists ops, ops. rewrite Hh', Hh, <- app_assoc. simpl.
      split; [reflexivity|]. split; [left; reflexivity|]. repeat split; congruence.
    + exists (OpUpdateInstigatorState st' :: ops), ops. rewrite Hh', Hh, <- app_assoc. simpl.
      split; [reflexivity|]. split; [right; eauto|]. repeat split; congruence.
  - apply write_inv in Hw. destruct Hw as (tail & Hh & Htail & Hl & Hy & Hpc).
    destruct Htail as [->|[Hr _]]; [|discriminate].
    exists [], []. repeat split; auto.
Qed.

(** ** The evaluation *)

Lemma evaluate_sensor_run ws s st cl d c :
  Workspace.get_code_location ws (sensor_location s) = Ok cl ->
  InstigatorState.instigator_data st <> Some ScheduleData ->
  _evaluate_sensor ws s st (Scope.mk d c)
  = match evaluation_of cl s st with
    | Ok data =>
        after_evaluation ws s cl data
          (Scope.mk (logger INFO ("Checking for new runs for sensor: "
                                  +:+ ExternalSensor.name s) d).2 c)
    | Raise e =>
        (Raise e, Scope.mk (logger INFO ("Checking for new runs for sensor: "
                                         +:+ ExternalSensor.name s) d).2 c)
    end.
Proof.
  intros Hcl Hdata. unfold _evaluate_sensor, evaluation_of, sensor_location in *.
  unfold bind at 1. simpl. unfold bind at 1. unfold in_daemon at 1, liftR at 1. simpl.
  rewrite Hcl. simpl. unfold bind at 1. unfold in_daemon at 1, liftR at 1. simpl.
  rewrite (sensor_instigator_data_ok st Hdata). simpl.
  unfold bind at 1. unfold in_daemon at 1, liftR at 1. simpl.
  destruct (CodeLocation.get_external_sensor_execution_data _ _ _ _ _); reflexivity.
Qed.

Lemma with_context_unfold {A} c0 (body : M Scope.t A) d r sc :
  body (Scope.mk d c0) = (r, sc) ->
  with_context c0 body d
  = match SensorLaunchContext.__exit__
            (match r with Ok _ => None | Raise e => Some e end)
            (Scope.context sc) (Scope.daemon sc) with
    | (Ok _, d') => (r, d')
    | (Raise e, d') => (Raise e, d')
    end.
Proof. intros H. unfold with_context. rewrite H. reflexivity. Qed.

(** C2.  When the external evaluation call raises an exception, no run
    request having been produced, the scope still ends with the tick
    written: the first write of the exit is the one update of the tick,
    which is in [FAILURE] state and carries the error of the exception;
    what follows it is at most the update of the instigator state and then
    the retention purges. *)
Theorem tick_written_on_evaluation_error (ws : Workspace.t) (s : ExternalSensor.t)
    (st : InstigatorState.t) (cl : CodeLocation.t) (e : exn)
    (c0 : SensorLaunchContext.t) (d : Daemon.t) :
  Workspace.get_code_location ws (sensor_location s) = Ok cl ->
  InstigatorState.instigator_data st <> Some ScheduleData ->
  evaluation_of cl s st = Raise e ->
  is_Exception e = true ->
  exists r d' k rest purges,
    with_context c0 (_evaluate_sensor ws s st) d = (r, d') /\
    (exists e', r = Raise e') /\
    DagsterInstance.history (Daemon.instance d')
    = (DagsterInstance.history (Daemon.instance d) ++ OpUpdateTick k :: rest)%list /\
    (rest = purges \/ exists st', rest = OpUpdateInstigatorState st' :: purges) /\
    Forall (fun op => is_purge op = true) purges /\
    InstigatorTick.tick_id k = InstigatorTick.tick_id (SensorLaunchContext._tick c0) /\
    InstigatorTick.status k = FAILURE /\
    InstigatorTick.error k = Some (serializable_error_info_from_exc_info e) /\
    InstigatorTick.run_ids k = InstigatorTick.run_ids (SensorLaunchContext._tick c0).
Proof.
  intros Hcl Hdata Heval Hexc.
  destruct e as [| |msg]; try discriminate.
  pose proof (evaluate_sensor_run ws s st cl d c0 Hcl Hdata) as Hbody.
  rewrite Heval in Hbody.
  rewrite (with_context_unfold _ _ _ _ _ Hbody). simpl Scope.context. simpl Scope.daemon.
  destruct (SensorLaunchContext.__exit__ (Some (Exception msg)) c0 _) as [r1 d'] eqn:Hexit.
  apply exit_inv in Hexit; [|discriminate].
  destruct Hexit as (rest & purges & Hh & Hrest & Hpurges & _).
  exists (match r1 with Ok _ => Raise (Exception msg) | Raise e' => Raise e' end), d'.
  exists (SensorLaunchContext._tick (exit_context (Some (Exception msg)) c0)), rest, purges.
  split; [destruct r1; reflexivity|].
  split; [destruct r1; eauto|].
  split; [exact Hh|]. split; [exact Hrest|]. split; [exact Hpurges|].
  repeat split.
Qed.

Lemma tick_written_on_evaluation_error_witness :
  let eval := Raise (Exception "boom") in
  let ws := Examples.workspace eval (fun _ => Ok tt) in
  let st := Examples.state_with (Some (SensorData Examples.data_started_100)) in
  let c0 := SensorLaunchContext.new Examples.sensor
              (InstigatorTick.mk 0 (TickData.new "origin" "my_sensor" STARTED 200 "sel"))
              [(FAILURE, 7)] in
  let d := Examples.daemon_at (Examples.instance_with Examples.data_started_100) 200 1 in
  Workspace.get_code_location ws (sensor_location Examples.sensor)
  = Ok (Examples.location eval)
  /\ evaluation_of (Examples.location eval) Examples.sensor st = eval
  /\ exists r d' k rest,
       with_context c0 (_evaluate_sensor ws Examples.sensor st) d = (r, d')
       /\ DagsterInstance.history (Daemon.instance d')
          = (DagsterInstance.history (Daemon.instance d) ++ OpUpdateTick k :: rest)%list
       /\ InstigatorTick.status k = FAILURE.
Proof.
  intros eval ws st c0 d. split; [reflexivity|]. split; [reflexivity|].
  destruct (tick_written_on_evaluation_error ws Examples.sensor st (Examples.location eval)
              (Exception "boom") c0 d eq_refl)
    as (r & d' & k & rest & purges & Hrun & _ & Hh & _ & _ & _ & Hstatus & _).
  - simpl; discriminate.
  - reflexivity.
  - reflexivity.
  - exists r, d', k, rest. auto.
Defined.

(** ** One tick *)

(** A tick that is claimed: the state is stamped, the tick is created, and
    the evaluation runs inside the launch context. *)
Lemma process_tick_claimed ws s settings d st :
  persisted_state s (Daemon.instance d) = Some st ->
  InstigatorState.instigator_data st <> Some ScheduleData ->
  _is_under_min_interval (Daemon.clock d (S (Daemon.clock_reads d))) st s = Ok false ->
  _process_tick_generator ws s settings d
  = report_outcome s
      (with_context (SensorLaunchContext.new s (started_tick s st d) settings)
         (_evaluate_sensor ws s st))
      (started_frame s st d).
Proof.
  intros Hst Hdata Hfree. unfold _process_tick_generator.
  pose proof (claim_tick_run s d st Hst Hdata) as Hclaim. rewrite Hfree in Hclaim.
  rewrite (bind_Ok _ _ _ _ _ Hclaim).
  unfold report_outcome, bind, try_except, instance_call. simpl.
  reflexivity.
Qed.

Lemma persisted_state_started_frame s st d :
  persisted_state s (Daemon.instance d) = Some st ->
  persisted_state s (Daemon.instance (started_frame s st d)) = Some (stamped_state s st d).
Proof.
  intros Hst. unfold started_frame. simpl.
  change (persisted_state s (DagsterInstance.update_instigator_state (stamped_state s st d)
                               (Daemon.instance d)) = Some (stamped_state s st d)).
  apply persisted_state_update. simpl. eapply persisted_state_selector. eassumption.
Qed.

Lemma exit_interrupted c d :
  SensorLaunchContext.__exit__ (Some KeyboardInterrupt) c d = (Ok tt, d).
Proof. reflexivity. Qed.

(** C7 (as amended).  A [KeyboardInterrupt] raised during the evaluation
    propagates out of the tick: nothing is logged as an error and nothing
    is yielded.  The tick is not written on exit: after its creation the
    store sees no further write, so the tick stays as it was created, in
    [STARTED] state and without error, and the persisted cursor and last
    run key are those from before the attempt. *)
Theorem interrupt_leaves_tick_started (ws : Workspace.t) (s : ExternalSensor.t)
    (settings : list (TickStatus * Z)) (d : Daemon.t) (st : InstigatorState.t)
    (cl : CodeLocation.t) :
  persisted_state s (Daemon.instance d) = Some st ->
  InstigatorState.instigator_data st <> Some ScheduleData ->
  _is_under_min_interval (Daemon.clock d (S (Daemon.clock_reads d))) st s = Ok false ->
  Workspace.get_code_location ws (sensor_location s) = Ok cl ->
  evaluation_of cl s st = Raise KeyboardInterrupt ->
  let k := started_tick s st d in
  exists d',
    _process_tick_generator ws s settings d = (Raise KeyboardInterrupt, d') /\
    (* nothing is logged as an error, nothing is yielded *)
    (exists records, Daemon.logged d' = (Daemon.logged d ++ records)%list /\
                     Forall (fun r => r.1 = INFO) records) /\
    Daemon.yielded d' = Daemon.yielded d /\
    (* the tick is created and never written again *)
    DagsterInstance.history (Daemon.instance d')
    = (DagsterInstance.history (Daemon.instance d)
       ++ [OpUpdateInstigatorState (stamped_state s st d); OpCreateTick k])%list /\
    DagsterInstance.ticks (Daemon.instance d') !! InstigatorTick.tick_id k
    = Some (InstigatorTick.tick_data k) /\
    InstigatorTick.status k = STARTED /\
    InstigatorTick.error k = None /\
    (* and the state keeps the cursor and the last run key *)
    persisted_cursor s (Daemon.instance d') = persisted_cursor s (Daemon.instance d) /\
    persisted_last_run_key s (Daemon.instance d')
    = persisted_last_run_key s (Daemon.instance d).
Proof.
  intros Hst Hdata Hfree Hcl Heval k.
  rewrite (process_tick_claimed ws s settings d st Hst Hdata Hfree).
  pose proof (evaluate_sensor_run ws s st cl (started_frame s st d)
                (SensorLaunchContext.new s (started_tick s st d) settings) Hcl Hdata) as Hbody.
  rewrite Heval in Hbody.
  unfold report_outcome.
  assert (Hblock :
    with_context (SensorLaunchContext.new s (started_tick s st d) settings)
      (_evaluate_sensor ws s st) (started_frame s st d)
    = (Raise KeyboardInterrupt,
       (logger INFO ("Checking for new runs for sensor: " +:+ ExternalSensor.name s)
          (started_frame s st d)).2)).
  { rewrite (with_context_unfold _ _ _ _ _ Hbody). reflexivity. }
  eexists. split.
  { unfold bind at 1. unfold try_except. unfold bind at 1. rewrite Hblock. reflexivity. }
  simpl. split.
  { eexists [_]. split; [reflexivity|]. repeat constructor. }
  split; [reflexivity|]. split; [rewrite <- app_assoc; reflexivity|].
  split; [apply lookup_insert_eq|]. split; [reflexivity|]. split; [reflexivity|].
  unfold persisted_cursor, persisted_last_run_key.
  change (persisted_state s _) with
    (persisted_state s (DagsterInstance.update_instigator_state (stamped_state s st d)
                          (Daemon.instance d))) at 1 3.
  rewrite Hst, persisted_state_update
    by (simpl; eapply persisted_state_selector; eassumption).
  unfold stamped_state. rewrite sensor_data_of_with_data. simpl.
  destruct (sensor_data_of (Some st)); split; reflexivity.
Qed.

Lemma interrupt_leaves_tick_started_witness :
  let eval := Raise KeyboardInterrupt in
  let ws := Examples.workspace eval (fun _ => Ok tt) in
  let st := Examples.state_with (Some (SensorData Examples.data_fresh)) in
  let d := Examples.daemon_at (Examples.instance_with Examples.data_fresh) 200 1 in
  persisted_state Examples.sensor (Daemon.instance d) = Some st
  /\ _is_under_min_interval (Daemon.clock d 1) st Examples.sensor = Ok false
  /\ evaluation_of (Examples.location eval) Examples.sensor st = eval
  /\ exists d',
       _process_tick_generator ws Examples.sensor [(FAILURE, 7)] d
       = (Raise KeyboardInterrupt, d')
       /\ Daemon.yielded d' = Daemon.yielded d.
Proof.
  intros eval ws st d.
  assert (Hst : persisted_state Examples.sensor (Daemon.instance d) = Some st)
    by (vm_compute; reflexivity).
  split; [exact Hst|]. split; [reflexivity|]. split; [reflexivity|].
  destruct (interrupt_leaves_tick_started ws Examples.sensor [(FAILURE, 7)] d st
              (Examples.location eval) Hst)
    as (d' & Hrun & _ & Hy & _).
  - simpl; discriminate.
  - reflexivity.
  - reflexivity.
  - reflexivity.
  - exists d'. auto.
Defined.

(** C7 as stated fails: the evaluation is interrupted, and when the
    interrupt has propagated no write of the tick has been made; the stored
    tick is the one created, still [STARTED]. *)
Lemma interrupted_tick_is_not_written :
  let ws := Examples.workspace (Raise KeyboardInterrupt) (fun _ => Ok tt) in
  let d := Examples.daemon_at (Examples.instance_with Examples.data_fresh) 200 1 in
  let run := _process_tick_generator ws Examples.sensor [(FAILURE, 7)] d in
  run.1 = Raise KeyboardInterrupt
  /\ Forall (fun op => is_update_tick op = false)
            (DagsterInstance.history (Daemon.instance run.2))
  /\ TickData.status <$> (DagsterInstance.ticks (Daemon.instance run.2) !! 0%nat)
     = Some STARTED.
Proof. vm_compute. repeat constructor. Qed.

(** ** Relations kept by every step of a computation *)

Section Steps.
Context {S : Type} (R : S -> S -> Prop) {HR : PreOrder R}.

Lemma steps_ret {A} (a : A) : steps R (ret a).
Proof. intros s r s' [= <- <-]. reflexivity. Qed.

Lemma steps_raise {A} e : steps R (raise (A:=A) e).
Proof. intros s r s' [= <- <-]. reflexivity. Qed.

Lemma steps_liftR {A} (x : Result A) : steps R (liftR x).
Proof. intros s r s' [= <- <-]. reflexivity. Qed.

Lemma steps_gets {A} (f : S -> A) : steps R (gets f).
Proof. intros s r s' [= <- <-]. reflexivity. Qed.

Lemma steps_check_not_none {A} (v : option A) : steps R (check_not_none v).
Proof. destruct v; [apply steps_ret | apply steps_raise]. Qed.

Lemma steps_modify (f : S -> S) : (forall s, R s (f s)) -> steps R (modify f).
Proof. intros H s r s' [= <- <-]. apply H. Qed.

Lemma steps_bind {A B} (m : M S A) (k : A -> M S B) :
  steps R m -> (forall a, steps R (k a)) -> steps R (bind m k).
Proof.
  intros Hm Hk s r s2 H. apply bind_inv in H.
  destruct H as [(a & s1 & H1 & H2)|(e & H1 & _)].
  - transitivity s1; [eapply Hm | eapply Hk]; eassumption.
  - eapply Hm; eassumption.
Qed.

Lemma steps_for_each {A} (xs : list A) (body : A -> M S unit) :
  (forall x, steps R (body x)) -> steps R (for_each xs body).
Proof.
  intros Hb. induction xs as [|x xs IH]; simpl.
  - apply steps_ret.
  - apply steps_bind; [apply Hb | intros _; exact IH].
Qed.

Lemma steps_map_each {A B} (xs : list A) (body : A -> M S B) :
  (forall x, steps R (body x)) -> steps R (map_each xs body).
Proof.
  intros Hb. induction xs as [|x xs IH]; simpl.
  - apply steps_ret.
  - apply steps_bind; [apply Hb | intros b].
    apply steps_bind; [exact IH | intros bs; apply steps_ret].
Qed.

Lemma steps_try_except {A} (m : M S A) (handler : exn -> M S A) :
  steps R m -> (forall e, steps R (handler e)) -> steps R (try_except m handler).
Proof.
  intros Hm Hh s r s2. unfold try_except.
  destruct (m s) as [[a|e] s1] eqn:H1.
  - intros [= <- <-]. eapply Hm; eassumption.
  - destruct (is_Exception e).
    + intros H2. transitivity s1; [eapply Hm | eapply Hh]; eassumption.
    + intros [= <- <-]. eapply Hm; eassumption.
Qed.

End Steps.

Lemma steps_in_daemon {A} (Rd : Daemon.t -> Daemon.t -> Prop) (R : Scope.t -> Scope.t -> Prop)
    (m : M Daemon.t A) :
  (forall sc d', Rd (Scope.daemon sc) d' -> R sc (Scope.mk d' (Scope.context sc))) ->
  steps Rd m -> steps R (in_daemon m).
Proof.
  intros Hlift Hm sc r sc'. unfold in_daemon.
  destruct (m (Scope.daemon sc)) as [r1 d'] eqn:H1. simpl.
  intros [= <- <-]. apply Hlift. eapply Hm. eassumption.
Qed.

Lemma steps_context_do (R : Scope.t -> Scope.t -> Prop)
    (f : SensorLaunchContext.t -> SensorLaunchContext.t) :
  (forall sc, R sc (Scope.mk (Scope.daemon sc) (f (Scope.context sc)))) ->
  steps R (context_do f).
Proof. intros H. apply steps_modify. exact H. Qed.

Lemma steps_instance_get {A} (R : Daemon.t -> Daemon.t -> Prop) {HR : Reflexive R}
    (f : DagsterInstance.t -> A) : steps R (instance_get f).
Proof. intros s r s' [= <- <-]. reflexivity. Qed.

Lemma steps_instance_do (R : Daemon.t -> Daemon.t -> Prop)
    (f : DagsterInstance.t -> DagsterInstance.t) :
  (forall d, R d (Daemon.set_instance (f (Daemon.instance d)) d)) ->
  steps R (instance_do f).
Proof. intros H. apply steps_modify. exact H. Qed.

(** ** What the partition requests leave alone *)

#[local] Instance tick_steady_preorder : PreOrder tick_steady.
Proof.
  split.
  - intros k. repeat split.
  - intros k1 k2 k3 H12 H23. unfold tick_steady in *.
    destruct H12 as (?&?&?&?&?&?&?), H23 as (?&?&?&?&?&?&?). repeat split; congruence.
Qed.

#[local] Instance context_steady_preorder : PreOrder context_steady.
Proof.
  split.
  - intros c. repeat split.
  - intros c1 c2 c3 (?&?&?&H12) (?&?&?&H23). unfold context_steady.
    repeat split; try congruence.
    all: destruct H12 as (?&?&?&?&?&?&?), H23 as (?&?&?&?&?&?&?); congruence.
Qed.

#[local] Instance daemon_steady_preorder : PreOrder daemon_steady.
Proof.
  split.
  - intros d. unfold daemon_steady. repeat split. exists []. rewrite app_nil_r. auto.
  - intros d1 d2 d3 (?&?&?&?&?&?&?&?&ops1&Hh1&Ho1) (?&?&?&?&?&?&?&?&ops2&Hh2&Ho2).
    unfold daemon_steady. repeat split; try congruence.
    exists (ops1 ++ ops2)%list. rewrite Hh2, Hh1, <- app_assoc.
    split; [reflexivity|]. apply Forall_app. auto.
Qed.

#[local] Instance scope_steady_preorder : PreOrder scope_steady.
Proof.
  split.
  - intros sc. split; reflexivity.
  - intros s1 s2 s3 [Hd1 Hc1] [Hd2 Hc2]. split; etransitivity; eassumption.
Qed.

Lemma steps_logger R {HR : forall d lvl msg, R d (logger lvl msg d).2} lvl msg :
  steps R (logger lvl msg).
Proof. intros s r s' [= <- <-]. apply HR. Qed.

Lemma daemon_steady_logger d lvl msg : daemon_steady d (logger lvl msg d).2.
Proof. unfold daemon_steady. simpl. repeat split. exists []. rewrite app_nil_r. auto. Qed.

Lemma scope_steady_daemon sc d' :
  daemon_steady (Scope.daemon sc) d' -> scope_steady sc (Scope.mk d' (Scope.context sc)).
Proof. intros H. split; [exact H | reflexivity]. Qed.

Lemma scope_steady_context sc c' :
  context_steady (Scope.context sc) c' -> scope_steady sc (Scope.mk (Scope.daemon sc) c').
Proof. intros H. split; [reflexivity | exact H]. Qed.

Lemma apply_dynamic_partitions_request_steady request :
  steps scope_steady (apply_dynamic_partitions_request request).
Proof.
  unfold apply_dynamic_partitions_request.
  apply steps_bind; [typeclasses eauto | |intros existent].
  { eapply steps_in_daemon; [apply scope_steady_daemon|].
    apply steps_instance_get. typeclasses eauto. }
  apply steps_bind; [typeclasses eauto | |intros nonexistent].
  { eapply steps_in_daemon; [apply scope_steady_daemon|].
    apply steps_instance_get. typeclasses eauto. }
  assert (Hlog : forall lvl msg, steps scope_steady (in_daemon (logger lvl msg))).
  { intros lvl msg. eapply steps_in_daemon; [apply scope_steady_daemon|].
    intros s r s' [= <- <-]. apply daemon_steady_logger. }
  assert (Hrec : forall r, steps scope_steady
                   (context_do (SensorLaunchContext.add_dynamic_partitions_request_result r))).
  { intros r. apply steps_context_do. intros sc. apply scope_steady_context.
    repeat split. }
  assert (Hret : steps scope_steady (ret tt)) by (apply steps_ret; typeclasses eauto).
  destruct request as [n ks|n ks].
  - apply steps_bind; [typeclasses eauto | |intros _].
    { destruct (truthy_list nonexistent); [|exact Hret].
      apply steps_bind; [typeclasses eauto | |intros _; apply Hlog].
      eapply steps_in_daemon; [apply scope_steady_daemon|].
      apply steps_instance_do. intros d. unfold daemon_steady. simpl. repeat split.
      eexists [_]. split; [reflexivity|]. repeat constructor. }
    apply steps_bind; [typeclasses eauto | |intros _; apply Hrec].
    destruct (truthy_list existent); [apply Hlog|exact Hret].
  - apply steps_bind; [typeclasses eauto | |intros _].
    { destruct (truthy_list existent); [|exact Hret].
      apply steps_bind; [typeclasses eauto | |intros _; apply Hlog].
      apply steps_for_each; [typeclasses eauto|]. intros key.
      eapply steps_in_daemon; [apply scope_steady_daemon|].
      apply steps_instance_do. intros d. unfold daemon_steady. simpl. repeat split.
      eexists [_]. split; [reflexivity|]. repeat constructor. }
    apply steps_bind; [typeclasses eauto | |intros _; apply Hrec].
    destruct (truthy_list nonexistent); [apply Hlog|exact Hret].
Qed.

(** The loop over the partition requests of a tick ends normally. *)
Lemma apply_dynamic_partitions_requests_run requests : forall sc,
  exists sc',
    for_each requests apply_dynamic_partitions_request sc = (Ok tt, sc') /\
    scope_steady sc sc'.
Proof.
  induction requests as [|request requests IH]; intros sc; simpl.
  - exists sc. split; reflexivity.
  - destruct (apply_dynamic_partitions_request_run request sc) as (sc1 & Hrun & _).
    rewrite (bind_Ok _ _ _ _ _ Hrun).
    destruct (IH sc1) as (sc' & Hrest & Hsteady).
    exists sc'. split; [exact Hrest|].
    transitivity sc1; [|exact Hsteady].
    eapply apply_dynamic_partitions_request_steady. exact Hrun.
Qed.

(** ** The tick of an evaluation without run requests *)

Lemma update_state_facts st sr cur o e c :
  let c' := SensorLaunchContext.update_state st sr cur o e c in
  SensorLaunchContext._external_sensor c' = SensorLaunchContext._external_sensor c /\
  SensorLaunchContext._should_update_cursor_on_failure c'
  = SensorLaunchContext._should_update_cursor_on_failure c /\
  SensorLaunchContext._purge_settings c' = SensorLaunchContext._purge_settings c /\
  InstigatorTick.tick_id (SensorLaunchContext._tick c')
  = InstigatorTick.tick_id (SensorLaunchContext._tick c) /\
  SensorLaunchContext.status c' = st /\
  InstigatorTick.cursor (SensorLaunchContext._tick c')
  = (if truthy_str cur then cur else InstigatorTick.cursor (SensorLaunchContext._tick c)) /\
  InstigatorTick.run_ids (SensorLaunchContext._tick c')
  = InstigatorTick.run_ids (SensorLaunchContext._tick c) /\
  InstigatorTick.run_keys (SensorLaunchContext._tick c')
  = InstigatorTick.run_keys (SensorLaunchContext._tick c) /\
  InstigatorTick.error (SensorLaunchContext._tick c') = e.
Proof.
  unfold SensorLaunchContext.update_state.
  destruct (truthy_str sr), (truthy_str cur), o as [r|]; simpl;
    try destruct (negb (bool_decide (r = ""))); repeat split.
Qed.

Lemma yield_run v d :
  exists r d',
    yield_ v d = (r, d') /\
    (r = Ok tt \/ r = Raise GeneratorExit) /\
    (Daemon.pending_close d <> Some 0%nat -> r = Ok tt) /\
    Daemon.instance d' = Daemon.instance d /\
    Daemon.logged d' = Daemon.logged d /\
    Daemon.clock d' = Daemon.clock d /\
    Daemon.clock_reads d' = Daemon.clock_reads d.
Proof.
  unfold yield_. destruct (Daemon.pending_close d) as [[|n]|]; simpl;
    do 2 eexists; (split; [reflexivity|]); repeat split; auto; congruence.
Qed.

Lemma after_evaluation_skips ws s cl data d c :
  SensorExecutionData.run_requests data = [] ->
  SensorExecutionData.dagster_run_reactions data = [] ->
  Daemon.pending_close d <> Some 0%nat ->
  exists r sc',
    after_evaluation ws s cl data (Scope.mk d c) = (r, sc') /\
    (r = Ok tt \/ r = Raise GeneratorExit) /\
    SensorLaunchContext.status (Scope.context sc') = SKIPPED /\
    InstigatorTick.cursor (SensorLaunchContext._tick (Scope.context sc'))
    = (if truthy_str (SensorExecutionData.cursor data)
       then SensorExecutionData.cursor data
       else InstigatorTick.cursor (SensorLaunchContext._tick c)) /\
    InstigatorTick.tick_id (SensorLaunchContext._tick (Scope.context sc'))
    = InstigatorTick.tick_id (SensorLaunchContext._tick c) /\
    SensorLaunchContext._external_sensor (Scope.context sc')
    = SensorLaunchContext._external_sensor c /\
    SensorLaunchContext._purge_settings (Scope.context sc')
    = SensorLaunchContext._purge_settings c /\
    DagsterInstance.instigator_states (scope_instance sc')
    = DagsterInstance.instigator_states (Daemon.instance d) /\
    exists ops,
      DagsterInstance.history (scope_instance sc')
      = (DagsterInstance.history (Daemon.instance d) ++ ops)%list /\
      Forall (fun op => is_partition_op op = true) ops.
Proof.
  intros Hreq Hreact Hopen. unfold after_evaluation.
  (* the first yield *)
  destruct (yield_run None d) as (r1 & d1 & Hy1 & _ & Hok1 & Hi1 & _).
  rewrite (Hok1 Hopen) in Hy1.
  assert (Hstep1 : in_daemon (yield_ None) (Scope.mk d c) = (Ok tt, Scope.mk d1 c)).
  { unfold in_daemon. simpl. rewrite Hy1. reflexivity. }
  rewrite (bind_Ok _ _ _ _ _ Hstep1).
  (* the log key *)
  set (c1 := match SensorExecutionData.captured_log_key data with
             | Some (k :: ks) => SensorLaunchContext.add_log_info (k :: ks) c
             | _ => c
             end).
  assert (Hstep2 :
    match SensorExecutionData.captured_log_key data with
    | Some (k :: ks) => context_do (SensorLaunchContext.add_log_info (k :: ks))
    | _ => ret tt
    end (Scope.mk d1 c) = (Ok tt, Scope.mk d1 c1)).
  { subst c1. destruct (SensorExecutionData.captured_log_key data) as [[|k ks]|]; reflexivity. }
  rewrite (bind_Ok _ _ _ _ _ Hstep2).
  assert (Hc1 : context_steady c c1).
  { subst c1. destruct (SensorExecutionData.captured_log_key data) as [[|k ks]|];
      repeat split. }
  (* the partition requests *)
  destruct (apply_dynamic_partitions_requests_run
              (SensorExecutionData.dynamic_partitions_requests data) (Scope.mk d1 c1))
    as ([d2 c2] & Hstep3 & Hd2 & Hc2).
  rewrite (bind_Ok _ _ _ _ _ Hstep3). simpl in Hd2, Hc2.
  rewrite Hreq. simpl. unfold react_or_skip. rewrite Hreact. simpl.
  (* the skip *)
  set (cursor := SensorExecutionData.cursor data).
  assert (Hskip : exists d3 sr,
    (if truthy_str (SensorExecutionData.skip_message data)
     then
       in_daemon (logger INFO ("Sensor " +:+ ExternalSensor.name s +:+ " skipped: "
                               +:+ default "" (SensorExecutionData.skip_message data))) ;;;
       context_do (SensorLaunchContext.update_state SKIPPED
                     (SensorExecutionData.skip_message data) cursor None None)
     else
       in_daemon (logger INFO ("No run requests returned for "
                               +:+ ExternalSensor.name s +:+ ", skipping")) ;;;
       context_do (SensorLaunchContext.update_state SKIPPED None cursor None None))
      (Scope.mk d2 c2)
    = (Ok tt, Scope.mk d3 (SensorLaunchContext.update_state SKIPPED sr cursor None None c2)) /\
    Daemon.instance d3 = Daemon.instance d2 /\
    Daemon.pending_close d3 = Daemon.pending_close d2).
  { destruct (truthy_str (SensorExecutionData.skip_message data));
      do 2 eexists; (split; [reflexivity|]); split; reflexivity. }
  destruct Hskip as (d3 & sr & Hstep4 & Hi3 & Hp3).
  rewrite (bind_Ok _ _ _ _ _ Hstep4).
  (* the last yield *)
  destruct (yield_run None d3) as (r5 & d5 & Hy5 & Hr5 & _ & Hi5 & _).
  exists r5, (Scope.mk d5 (SensorLaunchContext.update_state SKIPPED sr cursor None None c2)).
  split; [unfold in_daemon; simpl; rewrite Hy5; reflexivity|].
  split; [exact Hr5|]. unfold scope_instance. cbn [Scope.context Scope.daemon].
  pose proof (update_state_facts SKIPPED sr cursor None None c2)
    as (Hs & _ & Hps & Hid & Hstat & Hcur & _).
  destruct Hc1 as (Hs1 & _ & Hps1 & Hid1 & _ & Hcur1 & _).
  destruct Hc2 as (Hs2 & _ & Hps2 & Hid2 & _ & Hcur2 & _).
  destruct Hd2 as (Hst2 & _ & _ & _ & _ & _ & _ & _ & ops & Hh2 & Hops).
  split; [exact Hstat|].
  split; [rewrite Hcur, Hcur2, Hcur1; reflexivity|].
  split; [congruence|]. split; [congruence|]. split; [congruence|].
  rewrite Hi5, Hi3.
  split; [rewrite Hst2, Hi1; reflexivity|].
  exists ops. rewrite Hh2, Hi1. auto.
Qed.

(** C9 (as amended).  When the evaluation returns no run request and no
    reaction, the tick created in [STARTED] state is written once, in
    [SKIPPED] state, and the state written after it holds the cursor the
    evaluation returned when that cursor is a non-empty string, and no
    cursor when the evaluation returned none or the empty string. *)
Theorem skipped_tick_commits_cursor (ws : Workspace.t) (s : ExternalSensor.t)
    (settings : list (TickStatus * Z)) (d : Daemon.t) (st : InstigatorState.t)
    (cl : CodeLocation.t) (data : SensorExecutionData.t) :
  persisted_state s (Daemon.instance d) = Some st ->
  InstigatorState.instigator_data st <> Some ScheduleData ->
  _is_under_min_interval (Daemon.clock d (S (Daemon.clock_reads d))) st s = Ok false ->
  Workspace.get_code_location ws (sensor_location s) = Ok cl ->
  evaluation_of cl s st = Ok data ->
  SensorExecutionData.run_requests data = [] ->
  SensorExecutionData.dagster_run_reactions data = [] ->
  Daemon.pending_close d <> Some 0%nat ->
  let k0 := started_tick s st d in
  exists r d' k st' ops purges,
    _process_tick_generator ws s settings d = (r, d') /\
    (r = Ok tt \/ r = Raise GeneratorExit) /\
    DagsterInstance.history (Daemon.instance d')
    = (DagsterInstance.history (Daemon.instance d)
       ++ [OpUpdateInstigatorState (stamped_state s st d); OpCreateTick k0]
       ++ ops ++ OpUpdateTick k :: OpUpdateInstigatorState st' :: purges)%list /\
    Forall (fun op => is_partition_op op = true) ops /\
    Forall (fun op => is_purge op = true) purges /\
    InstigatorTick.status k0 = STARTED /\
    InstigatorTick.tick_id k = InstigatorTick.tick_id k0 /\
    InstigatorTick.status k = SKIPPED /\
    persisted_cursor s (Daemon.instance d')
    = (if truthy_str (SensorExecutionData.cursor data)
       then SensorExecutionData.cursor data else None).
Proof.
  intros Hst Hdata Hfree Hcl Heval Hreq Hreact Hopen k0.
  rewrite (process_tick_claimed ws s settings d st Hst Hdata Hfree).
  set (c0 := SensorLaunchContext.new s (started_tick s st d) settings).
  set (d0 := started_frame s st d).
  pose proof (evaluate_sensor_run ws s st cl d0 c0 Hcl Hdata) as Hbody.
  rewrite Heval in Hbody.
  set (d1 := (logger INFO ("Checking for new runs for sensor: " +:+ ExternalSensor.name s)
                d0).2) in Hbody.
  destruct (after_evaluation_skips ws s cl data d1 c0 Hreq Hreact Hopen)
    as (r & [d2 c2] & Hafter & Hr & Hstat & Hcur & Hid & Hsensor & Hps & Hstates
        & ops & Hh & Hops).
  rewrite Hafter in Hbody. unfold scope_instance in *. cbn [Scope.context Scope.daemon] in *.
  assert (Hexc : match r with Ok _ => None | Raise e => Some e end <> Some KeyboardInterrupt)
    by (destruct Hr as [-> | ->]; discriminate).
  assert (Hctx : exit_context (match r with Ok _ => None | Raise e => Some e end) c2 = c2)
    by (destruct Hr as [-> | ->]; reflexivity).
  assert (Hst2 : persisted_state (SensorLaunchContext._external_sensor c2)
                   (Daemon.instance d2) = Some (stamped_state s st d)).
  { rewrite Hsensor. rewrite (persisted_state_ext _ _ _ Hstates).
    apply persisted_state_started_frame. exact Hst. }
  assert (Hfin : SensorLaunchContext.status
                   (exit_context (match r with Ok _ => None | Raise e => Some e end) c2)
                 ∈ FINISHED_TICK_STATES).
  { rewrite Hctx, Hstat. unfold FINISHED_TICK_STATES. set_solver. }
  assert (Hsd : InstigatorState.instigator_data (stamped_state s st d)
                = Some (SensorData
                    (SensorInstigatorData.mk
                       (sensor_data_of (Some st) ≫= SensorInstigatorData.last_tick_timestamp)
                       (sensor_data_of (Some st) ≫= SensorInstigatorData.last_run_key)
                       (ExternalSensor.min_interval_seconds s)
                       (sensor_data_of (Some st) ≫= SensorInstigatorData.cursor)
                       (Some (Daemon.clock d (Daemon.clock_reads d))))))
    by reflexivity.
  destruct (exit_finished _ c2 d2 (stamped_state s st d) _ Hexc Hfin Hst2 Hsd)
    as (d' & st' & purges & Hexit & Hh' & Hpurges & Hpc & _).
  rewrite Hctx in Hh'. rewrite Hctx, Hstat in Hpc. simpl in Hpc. rewrite Hsensor in Hpc.
  assert (Hblock : with_context c0 (_evaluate_sensor ws s st) d0 = (r, d')).
  { rewrite (with_context_unfold _ _ _ _ _ Hbody). cbn [Scope.context Scope.daemon].
    rewrite Hexit. reflexivity. }
  assert (Hhist : DagsterInstance.history (Daemon.instance d')
    = (DagsterInstance.history (Daemon.instance d)
       ++ [OpUpdateInstigatorState (stamped_state s st d); OpCreateTick k0]
       ++ ops ++ OpUpdateTick (SensorLaunchContext._tick c2)
                 :: OpUpdateInstigatorState st' :: purges)%list).
  { rewrite Hh', Hh. subst d1 d0. simpl. rewrite <- !app_assoc. reflexivity. }
  assert (Hcursor : persisted_cursor s (Daemon.instance d')
    = (if truthy_str (SensorExecutionData.cursor data)
       then SensorExecutionData.cursor data else None)).
  { change (SensorLaunchContext._external_sensor c0) with s in Hpc.
    change (InstigatorTick.cursor (SensorLaunchContext._tick c0)) with (@None string) in Hcur.
    rewrite Hpc, Hcur. reflexivity. }
  unfold report_outcome.
  destruct Hr as [-> | ->].
  - destruct (yield_run None d') as (r3 & d3 & Hy & Hr3 & _ & Hi3 & _).
    exists r3, d3, (SensorLaunchContext._tick c2), st', ops, purges.
    split.
    { unfold bind at 1. unfold try_except. unfold bind at 1. rewrite Hblock. simpl.
      exact Hy. }
    rewrite Hi3. repeat split; assumption.
  - exists (Raise GeneratorExit), d', (SensorLaunchContext._tick c2), st', ops, purges.
    split.
    { unfold bind at 1. unfold try_except. unfold bind at 1. rewrite Hblock. reflexivity. }
    repeat split; auto.
Qed.

Lemma skipped_tick_commits_cursor_witness :
  let data := Examples.execution_data [] (Some "c1") in
  let ws := Examples.workspace (Ok data) (fun _ => Ok tt) in
  let st := Examples.state_with (Some (SensorData Examples.data_started_100)) in
  let d := Examples.daemon_at (Examples.instance_with Examples.data_started_100) 200 1 in
  persisted_state Examples.sensor (Daemon.instance d) = Some st
  /\ _is_under_min_interval (Daemon.clock d 1) st Examples.sensor = Ok false
  /\ evaluation_of (Examples.location (Ok data)) Examples.sensor st = Ok data
  /\ Daemon.pending_close d <> Some 0%nat
  /\ exists r d',
       _process_tick_generator ws Examples.sensor [(SKIPPED, 7)] d = (r, d')
       /\ persisted_cursor Examples.sensor (Daemon.instance d') = Some "c1".
Proof.
  intros data ws st d.
  assert (Hst : persisted_state Examples.sensor (Daemon.instance d) = Some st)
    by (vm_compute; reflexivity).
  assert (Hopen : Daemon.pending_close d <> Some 0%nat) by (simpl; discriminate).
  split; [exact Hst|]. split; [reflexivity|]. split; [reflexivity|]. split; [exact Hopen|].
  destruct (skipped_tick_commits_cursor ws Examples.sensor [(SKIPPED, 7)] d st
              (Examples.location (Ok data)) data Hst)
    as (r & d' & k & st' & ops & purges & Hrun & _ & _ & _ & _ & _ & _ & _ & Hcur);
    try reflexivity; try exact Hopen.
  - simpl; discriminate.
  - exists r, d'. split; [exact Hrun | exact Hcur].
Defined.

(** C9 as stated fails: the persisted cursor is "c0", the evaluation returns
    no run request, no reaction and the empty string as its cursor; the
    tick is skipped and the cursor persisted afterwards is none, not the
    one returned. *)
Lemma skipped_tick_drops_empty_cursor :
  let data := Examples.execution_data [] (Some "") in
  let ws := Examples.workspace (Ok data) (fun _ => Ok tt) in
  let d := Examples.daemon_at (Examples.instance_with Examples.data_started_100) 200 1 in
  let run := _process_tick_generator ws Examples.sensor [(SKIPPED, 7)] d in
  persisted_cursor Examples.sensor (Daemon.instance d) = Some "c0"
  /\ SensorExecutionData.cursor data = Some ""
  /\ run.1 = Ok tt
  /\ TickData.status <$> (DagsterInstance.ticks (Daemon.instance run.2) !! 0%nat)
     = Some SKIPPED
  /\ persisted_cursor Examples.sensor (Daemon.instance run.2) = None.
Proof. vm_compute. repeat split. Qed.

(** ** What the evaluation of a sensor keeps *)

#[local] Instance keeps_states_preorder : PreOrder keeps_states.
Proof.
  split.
  - intros d. reflexivity.
  - intros d1 d2 d3 H12 H23. unfold keeps_states in *. congruence.
Qed.

#[local] Instance evaluation_step_preorder returned : PreOrder (evaluation_step returned).
Proof.
  split.
  - intros sc. repeat split. auto.
  - intros s1 s2 s3 (Hd1 & Hs1 & Hi1 & Hj1) (Hd2 & Hs2 & Hi2 & Hj2).
    split; [etransitivity; eassumption|]. repeat split; try congruence. auto.
Qed.

Lemma steps_instance_call {A} (R : Daemon.t -> Daemon.t -> Prop)
    (f : DagsterInstance.t -> A * DagsterInstance.t) :
  (forall d, R d (Daemon.set_instance (f (Daemon.instance d)).2 d)) ->
  steps R (instance_call f).
Proof. intros H s r s' [= <- <-]. apply H. Qed.

Lemma keeps_states_yield v : steps keeps_states (yield_ v).
Proof.
  intros d r d'. unfold yield_.
  destruct (Daemon.pending_close d) as [[|n]|]; intros [= <- <-]; reflexivity.
Qed.

Lemma keeps_states_logger lvl msg : steps keeps_states (logger lvl msg).
Proof. intros d r d' [= <- <-]. reflexivity. Qed.

Lemma keeps_states_create_sensor_run ws cl s job rr target :
  steps keeps_states (_create_sensor_run ws cl s job rr target).
Proof.
  unfold _create_sensor_run.
  apply steps_bind; [typeclasses eauto | apply steps_liftR; typeclasses eauto | intros _].
  apply steps_bind; [typeclasses eauto | apply steps_liftR; typeclasses eauto | intros tags].
  apply steps_instance_call. intros d. reflexivity.
Qed.

Lemma keeps_states_get_or_create ws cl s job rr target existing :
  steps keeps_states (_get_or_create_sensor_run ws cl s job rr target existing).
Proof.
  assert (Hcreate : steps keeps_states
            (r <~ _create_sensor_run ws cl s job rr target ;; ret (IsRun r))).
  { apply steps_bind; [typeclasses eauto | apply keeps_states_create_sensor_run|].
    intros r. apply steps_ret. typeclasses eauto. }
  unfold _get_or_create_sensor_run.
  destruct (RunRequest.run_key rr) as [k|]; [|exact Hcreate].
  destruct (negb (truthy_str (Some k))); [exact Hcreate|].
  destruct (existing !! k) as [run|].
  - destruct (negb (bool_decide (DagsterRun.status run = NOT_STARTED))).
    + apply steps_ret. typeclasses eauto.
    + apply steps_bind; [typeclasses eauto | apply keeps_states_logger|].
      intros _. apply steps_ret. typeclasses eauto.
  - apply steps_bind; [typeclasses eauto | apply keeps_states_logger|].
    intros _. exact Hcreate.
Qed.

Lemma keeps_states_submit_run_request rr ws s cl existing :
  steps keeps_states (_submit_run_request rr ws s cl existing).
Proof.
  unfold _submit_run_request.
  apply steps_bind; [typeclasses eauto | apply steps_check_not_none; typeclasses eauto|].
  intros target.
  apply steps_bind; [typeclasses eauto | apply steps_liftR; typeclasses eauto|].
  intros job.
  apply steps_bind; [typeclasses eauto | apply keeps_states_get_or_create|].
  intros [r|sk]; [|apply steps_ret; typeclasses eauto].
  apply steps_bind; [typeclasses eauto | | intros ei; apply steps_ret; typeclasses eauto].
  apply steps_try_except; [typeclasses eauto | |].
  - apply steps_bind; [typeclasses eauto | apply keeps_states_logger | intros _].
    apply steps_bind; [typeclasses eauto | | intros _].
    { unfold submit_run.
      apply steps_bind; [typeclasses eauto | apply steps_liftR; typeclasses eauto|].
      intros _. apply steps_instance_do. intros d. reflexivity. }
    apply steps_bind; [typeclasses eauto | apply keeps_states_logger | intros _].
    apply steps_ret. typeclasses eauto.
  - intros e.
    apply steps_bind; [typeclasses eauto | apply keeps_states_logger | intros _].
    apply steps_ret. typeclasses eauto.
Qed.

Lemma evaluation_step_daemon returned sc d' :
  keeps_states (Scope.daemon sc) d' ->
  evaluation_step returned sc (Scope.mk d' (Scope.context sc)).
Proof. intros H. repeat split; auto. Qed.

Lemma evaluation_step_in_daemon {A} returned (m : M Daemon.t A) :
  steps keeps_states m -> steps (evaluation_step returned) (in_daemon m).
Proof. apply steps_in_daemon. apply evaluation_step_daemon. Qed.

Lemma evaluation_step_context returned f :
  (forall c, SensorLaunchContext._external_sensor (f c)
             = SensorLaunchContext._external_sensor c) ->
  (forall c, InstigatorTick.tick_id (SensorLaunchContext._tick (f c))
             = InstigatorTick.tick_id (SensorLaunchContext._tick c)) ->
  (forall c, cursor_settled returned c -> cursor_settled returned (f c)) ->
  steps (evaluation_step returned) (context_do f).
Proof.
  intros Hs Hi Hj. apply steps_context_do. intros sc.
  split; [reflexivity|]. simpl. auto.
Qed.

Lemma cursor_settled_update_state returned st sr o e c :
  cursor_settled returned c ->
  cursor_settled returned (SensorLaunchContext.update_state st sr returned o e c).
Proof.
  intros H. right.
  pose proof (update_state_facts st sr returned o e c) as (_ & _ & _ & _ & _ & Hcur & _).
  rewrite Hcur. unfold committed_cursor.
  destruct (truthy_str returned) eqn:Ht; [reflexivity|].
  destruct H as [(_ & _ & H)|H]; [exact H|].
  rewrite H. unfold committed_cursor. rewrite Ht. reflexivity.
Qed.

Lemma evaluation_step_update_state returned st sr o e :
  steps (evaluation_step returned)
        (context_do (SensorLaunchContext.update_state st sr returned o e)).
Proof.
  apply evaluation_step_context.
  - intros c. apply (update_state_facts st sr returned o e c).
  - intros c. apply (update_state_facts st sr returned o e c).
  - intros c. apply cursor_settled_update_state.
Qed.

Lemma evaluation_step_steady returned sc sc' :
  scope_steady sc sc' -> evaluation_step returned sc sc'.
Proof.
  intros [(Hst & _) (Hs & Hf & _ & Hid & Hstat & Hcur & _)].
  split; [exact Hst|]. split; [exact Hs|]. split; [exact Hid|].
  unfold cursor_settled, SensorLaunchContext.status. rewrite Hstat, Hcur, Hf. auto.
Qed.

Lemma evaluation_step_run_reaction returned s reaction :
  steps (evaluation_step returned) (apply_run_reaction s returned reaction).
Proof.
  unfold apply_run_reaction. intros sc r sc'.
  destruct (DagsterRunReaction.dagster_run reaction) as [run|]; simpl.
  2:{ intros [= <- <-]. reflexivity. }
  unfold bind at 1. simpl.
  destruct (DagsterRunReaction.error reaction) as [err|].
  - intros [= <- <-]. split; [reflexivity|].
    split; [apply (update_state_facts FAILURE None returned None (Some err))|].
    split; [apply (update_state_facts FAILURE None returned None (Some err))|].
    intros Hj. simpl.
    pose proof (cursor_settled_update_state returned FAILURE None None (Some err) _ Hj)
      as [(Hs & _)|Hc].
    + pose proof (update_state_facts FAILURE None returned None (Some err)
                    (Scope.context sc)) as (_ & _ & _ & _ & Hstat & _).
      congruence.
    + right. exact Hc.
  - intros [= <- <-]. split; [reflexivity|].
    split; [apply (update_state_facts SUCCESS None returned
                     (Some (DagsterRun.run_id run)) None)|].
    split; [apply (update_state_facts SUCCESS None returned
                     (Some (DagsterRun.run_id run)) None)|].
    apply cursor_settled_update_state.
Qed.

Lemma cursor_settled_add_run_info returned run_id run_key c :
  cursor_settled returned c ->
  cursor_settled returned (SensorLaunchContext.add_run_info run_id run_key c).
Proof. intros H. exact H. Qed.

Lemma evaluation_step_add_run_info returned run_id run_key :
  steps (evaluation_step returned)
        (context_do (SensorLaunchContext.add_run_info run_id run_key)).
Proof. apply evaluation_step_context; intros c; auto. Qed.

Lemma evaluation_step_submit_and_record returned ws s cl existing rr :
  steps (evaluation_step returned) (submit_and_record ws s cl existing rr).
Proof.
  unfold submit_and_record.
  apply steps_bind; [typeclasses eauto | | intros result].
  { apply evaluation_step_in_daemon, keeps_states_submit_run_request. }
  apply steps_bind; [typeclasses eauto | | intros _].
  { apply evaluation_step_in_daemon, keeps_states_yield. }
  apply steps_bind; [typeclasses eauto | | intros _; apply steps_ret; typeclasses eauto].
  destruct (SubmitRunRequestResult.run result); apply evaluation_step_add_run_info.
Qed.

Lemma evaluation_step_yield returned v :
  steps (evaluation_step returned) (in_daemon (yield_ v)).
Proof. apply evaluation_step_in_daemon, keeps_states_yield. Qed.

Lemma evaluation_step_logger returned lvl msg :
  steps (evaluation_step returned) (in_daemon (logger lvl msg)).
Proof. apply evaluation_step_in_daemon, keeps_states_logger. Qed.

Lemma evaluation_step_submit_run_requests ws s cl data :
  steps (evaluation_step (SensorExecutionData.cursor data))
        (submit_run_requests ws s cl data).
Proof.
  unfold submit_run_requests.
  apply steps_bind; [typeclasses eauto | | intros existing].
  { apply evaluation_step_in_daemon. apply steps_instance_get. typeclasses eauto. }
  apply steps_bind; [typeclasses eauto | | intros results].
  { apply steps_map_each; [typeclasses eauto|]. intros rr.
    apply evaluation_step_submit_and_record. }
  apply steps_bind; [typeclasses eauto | | intros _].
  { destruct (truthy_list _); [apply evaluation_step_logger|].
    apply steps_ret. typeclasses eauto. }
  apply steps_bind; [typeclasses eauto | apply steps_gets; typeclasses eauto | intros n].
  apply steps_bind; [typeclasses eauto | | intros _; apply evaluation_step_yield].
  destruct (bool_decide (n ≠ 0%nat)); apply evaluation_step_update_state.
Qed.

Lemma evaluation_step_react_or_skip s data :
  steps (evaluation_step (SensorExecutionData.cursor data)) (react_or_skip s data).
Proof.
  unfold react_or_skip.
  apply steps_bind; [typeclasses eauto | | intros _; apply evaluation_step_yield].
  destruct (truthy_list _).
  { apply steps_for_each; [typeclasses eauto|]. intros reaction.
    apply evaluation_step_run_reaction. }
  destruct (truthy_str _).
  all: apply steps_bind; [typeclasses eauto | apply evaluation_step_logger | intros _].
  all: apply evaluation_step_update_state.
Qed.

Lemma evaluation_step_after_evaluation ws s cl data :
  steps (evaluation_step (SensorExecutionData.cursor data))
        (after_evaluation ws s cl data).
Proof.
  unfold after_evaluation.
  apply steps_bind; [typeclasses eauto | apply evaluation_step_yield | intros _].
  apply steps_bind; [typeclasses eauto | | intros _].
  { destruct (SensorExecutionData.captured_log_key data) as [[|k ks]|];
      try (apply steps_ret; typeclasses eauto).
    apply evaluation_step_context; intros c; auto. }
  apply steps_bind; [typeclasses eauto | | intros _].
  { apply steps_for_each; [typeclasses eauto|]. intros request sc r sc' H.
    apply evaluation_step_steady.
    eapply apply_dynamic_partitions_request_steady. exact H. }
  destruct (negb _).
  - apply evaluation_step_react_or_skip.
  - apply evaluation_step_submit_run_requests.
Qed.

Lemma exit_context_cursor exc c :
  InstigatorTick.cursor (SensorLaunchContext._tick (exit_context exc c))
  = InstigatorTick.cursor (SensorLaunchContext._tick c).
Proof. destruct exc as [[| |msg]|]; reflexivity. Qed.

Lemma exit_context_status exc c :
  SensorLaunchContext.status (exit_context exc c)
  = match exc with
    | Some KeyboardInterrupt | Some (Exception _) => FAILURE
    | _ => SensorLaunchContext.status c
    end.
Proof. destruct exc as [[| |msg]|]; reflexivity. Qed.

(** C5 (as amended).  The scope of a tick, from the evaluation to the end
    of [__exit__], on a tick created [STARTED] and a persisted state of the
    sensor.  When the tick written is in [FAILURE] state and no update of
    the cursor on failure was requested for it, the persisted cursor and
    last run key are those from before; this is the case when the
    evaluation call raised an exception.  When the tick written is in
    [SUCCESS] or [SKIPPED] state, or in [FAILURE] state with the update
    requested, the evaluation returned and the persisted cursor is the one
    it returned when that is a non-empty string, and none when it returned
    none or the empty string. *)
Theorem cursor_kept_on_failure (ws : Workspace.t) (s : ExternalSensor.t)
    (st : InstigatorState.t) (cl : CodeLocation.t) (k0 : InstigatorTick.t)
    (settings : list (TickStatus * Z)) (d : Daemon.t) (st0 : InstigatorState.t)
    (data0 : SensorInstigatorData.t) (r : Result unit) (sc : Scope.t)
    (r' : Result unit) (d' : Daemon.t) :
  InstigatorTick.status k0 = STARTED ->
  InstigatorTick.cursor k0 = None ->
  persisted_state s (Daemon.instance d) = Some st0 ->
  InstigatorState.instigator_data st0 = Some (SensorData data0) ->
  Workspace.get_code_location ws (sensor_location s) = Ok cl ->
  InstigatorState.instigator_data st <> Some ScheduleData ->
  _evaluate_sensor ws s st (Scope.mk d (SensorLaunchContext.new s k0 settings)) = (r, sc) ->
  let exc := match r with Ok _ => None | Raise e => Some e end in
  exc <> Some KeyboardInterrupt ->
  SensorLaunchContext.__exit__ exc (Scope.context sc) (Scope.daemon sc) = (r', d') ->
  let k := SensorLaunchContext._tick (exit_context exc (Scope.context sc)) in
  let requested :=
    SensorLaunchContext._should_update_cursor_on_failure (Scope.context sc) in
  (InstigatorTick.status k = FAILURE -> requested = false ->
   persisted_cursor s (Daemon.instance d') = SensorInstigatorData.cursor data0 /\
   persisted_last_run_key s (Daemon.instance d') = SensorInstigatorData.last_run_key data0) /\
  (forall e, evaluation_of cl s st = Raise e -> is_Exception e = true ->
   InstigatorTick.status k = FAILURE /\ requested = false) /\
  (forall data, evaluation_of cl s st = Ok data ->
   InstigatorTick.status k = SUCCESS \/ InstigatorTick.status k = SKIPPED \/
   (InstigatorTick.status k = FAILURE /\ requested = true) ->
   persisted_cursor s (Daemon.instance d')
   = committed_cursor (SensorExecutionData.cursor data)) /\
  (InstigatorTick.status k = SUCCESS \/ InstigatorTick.status k = SKIPPED ->
   exists data, evaluation_of cl s st = Ok data).
Proof.
  intros Hk0 Hcur0 Hst0 Hdata0 Hcl Hdata Hbody exc Hexc Hexit k requested.
  set (c0 := SensorLaunchContext.new s k0 settings) in *.
  set (d1 := (logger INFO ("Checking for new runs for sensor: " +:+ ExternalSensor.name s)
                d).2).
  (* what the body keeps *)
  assert (Hkeep : evaluation_of cl s st = Raise (match r with Raise e => e | _ => GeneratorExit end)
                  /\ sc = Scope.mk d1 c0 /\ (exists e, r = Raise e)
                  \/ exists data, evaluation_of cl s st = Ok data /\
                       evaluation_step (SensorExecutionData.cursor data) (Scope.mk d1 c0) sc).
  { rewrite (evaluate_sensor_run ws s st cl d c0 Hcl Hdata) in Hbody.
    destruct (evaluation_of cl s st) as [data|e].
    - right. exists data. split; [reflexivity|].
      eapply evaluation_step_after_evaluation. exact Hbody.
    - left. injection Hbody as <- <-. eauto. }
  assert (Hfacts :
    DagsterInstance.instigator_states (Daemon.instance (Scope.daemon sc))
    = DagsterInstance.instigator_states (Daemon.instance d) /\
    SensorLaunchContext._external_sensor (Scope.context sc) = s).
  { destruct Hkeep as [(_ & -> & _)|(data & _ & Hs & Hsen & _)].
    - split; reflexivity.
    - split; [exact Hs | exact Hsen]. }
  destruct Hfacts as [Hstates Hsensor].
  assert (Hst1 : persisted_state (SensorLaunchContext._external_sensor (Scope.context sc))
                   (Daemon.instance (Scope.daemon sc)) = Some st0).
  { rewrite Hsensor, (persisted_state_ext _ _ _ Hstates). exact Hst0. }
  (* what the exit writes for a finished tick *)
  assert (Hwritten :
    SensorLaunchContext.status (exit_context exc (Scope.context sc)) ∈ FINISHED_TICK_STATES ->
    persisted_cursor s (Daemon.instance d')
    = (if negb (bool_decide (InstigatorTick.status k = FAILURE)) || requested
       then InstigatorTick.cursor (SensorLaunchContext._tick (Scope.context sc))
       else SensorInstigatorData.cursor data0) /\
    (negb (bool_decide (InstigatorTick.status k = FAILURE)) || requested = false ->
     persisted_last_run_key s (Daemon.instance d') = SensorInstigatorData.last_run_key data0)).
  { intros Hfin.
    destruct (exit_finished exc (Scope.context sc) (Scope.daemon sc) st0 data0
                Hexc Hfin Hst1 Hdata0)
      as (d2 & st' & purges & Hexit' & _ & _ & Hc & Hl & _).
    rewrite Hexit in Hexit'. injection Hexit' as _ <-.
    rewrite Hsensor, exit_context_cursor in Hc. rewrite Hsensor in Hl.
    split; [exact Hc|]. intros Hno.
    change (SensorLaunchContext.status (exit_context exc (Scope.context sc)))
      with (InstigatorTick.status k) in Hl.
    fold requested in Hl. rewrite Hl, Hno, andb_false_r. reflexivity. }
  assert (Hfinished : forall x, InstigatorTick.status k = x -> x <> STARTED ->
            SensorLaunchContext.status (exit_context exc (Scope.context sc))
            ∈ FINISHED_TICK_STATES).
  { intros x Hx Hne. change (InstigatorTick.status k ∈ FINISHED_TICK_STATES).
    rewrite Hx. unfold FINISHED_TICK_STATES. destruct x; set_solver. }
  split; [|split; [|split]].
  - intros Hfail Hreq.
    destruct (Hwritten (Hfinished _ Hfail ltac:(discriminate))) as [Hc Hl].
    rewrite Hfail, Hreq in Hc, Hl. simpl in Hc, Hl. split; [exact Hc | apply Hl; reflexivity].
  - intros e Heval He.
    destruct Hkeep as [(_ & -> & e' & ->)|(data & Hd & _)]; [|congruence].
    subst k requested exc. simpl.
    rewrite (evaluate_sensor_run ws s st cl d c0 Hcl Hdata), Heval in Hbody.
    injection Hbody as <-. destruct e; try discriminate. split; reflexivity.
  - intros data Heval Hcase.
    destruct Hkeep as [(Hraise & _)|(data' & Hd & _ & _ & _ & Hsettle)]; [congruence|].
    rewrite Heval in Hd. injection Hd as <-.
    assert (Hj : cursor_settled (SensorExecutionData.cursor data) (Scope.context sc)).
    { apply Hsettle. left. repeat split; assumption. }
    assert (Hupd : negb (bool_decide (InstigatorTick.status k = FAILURE)) || requested = true).
    { destruct Hcase as [H|[H|[H1 H2]]]; rewrite ?H, ?H2; try reflexivity.
      apply orb_true_r. }
    assert (Hfin : SensorLaunchContext.status (exit_context exc (Scope.context sc))
                   ∈ FINISHED_TICK_STATES).
    { destruct Hcase as [H|[H|[H _]]]; eapply Hfinished; try exact H; discriminate. }
    destruct (Hwritten Hfin) as [Hc _]. rewrite Hupd in Hc. rewrite Hc.
    destruct Hj as [(Hs & Hf & _)|Hj]; [|exact Hj].
    exfalso. change (InstigatorTick.status k)
      with (SensorLaunchContext.status (exit_context exc (Scope.context sc))) in Hcase.
    rewrite exit_context_status, Hs in Hcase. fold requested in Hf.
    destruct exc as [[| |msg]|]; destruct Hcase as [H|[H|[H1 H2]]]; congruence.
  - intros Hcase.
    destruct Hkeep as [(_ & -> & e & ->)|(data & Hd & _)]; [|eauto].
    exfalso. subst k exc. unfold InstigatorTick.status in *. simpl in Hcase, Hexc.
    destruct e; simpl in Hcase; destruct Hcase; congruence.
Qed.

Lemma cursor_kept_on_failure_witness :
  let eval := Raise (Exception "boom") in
  let ws := Examples.workspace eval (fun _ => Ok tt) in
  let st := Examples.state_with (Some (SensorData Examples.data_started_100)) in
  let k0 := InstigatorTick.mk 0 (TickData.new "origin" "my_sensor" STARTED 200 "sel") in
  let d := Examples.daemon_at (Examples.instance_with Examples.data_started_100) 200 1 in
  let body := _evaluate_sensor ws Examples.sensor st
                (Scope.mk d (SensorLaunchContext.new Examples.sensor k0 [(FAILURE, 7)])) in
  let out := SensorLaunchContext.__exit__ (Some (Exception "boom"))
               (Scope.context body.2) (Scope.daemon body.2) in
  persisted_state Examples.sensor (Daemon.instance d) = Some st
  /\ body.1 = Raise (Exception "boom")
  /\ persisted_cursor Examples.sensor (Daemon.instance out.2) = Some "c0"
  /\ persisted_last_run_key Examples.sensor (Daemon.instance out.2) = Some "k0".
Proof.
  intros eval ws st k0 d body out.
  assert (Hst : persisted_state Examples.sensor (Daemon.instance d) = Some st)
    by (vm_compute; reflexivity).
  split; [exact Hst|]. split; [reflexivity|].
  refine (proj1 (cursor_kept_on_failure ws Examples.sensor st (Examples.location eval) k0
                   [(FAILURE, 7)] d st Examples.data_started_100 body.1 body.2 out.1 out.2
                   eq_refl eq_refl Hst eq_refl eq_refl _ _ _ _) eq_refl eq_refl).
  - simpl; discriminate.
  - reflexivity.
  - vm_compute; discriminate.
  - reflexivity.
Defined.

(** C5 as stated fails: the persisted cursor is "c0"; the evaluation returns
    one run request and the empty string as its cursor; the run is created,
    the tick reaches [SUCCESS], and the cursor persisted afterwards is
    none, not the one returned. *)
Lemma successful_tick_drops_empty_cursor :
  let data := Examples.execution_data [Examples.request None] (Some "") in
  let ws := Examples.workspace (Ok data) (fun _ => Ok tt) in
  let d := Examples.daemon_at (Examples.instance_with Examples.data_started_100) 200 1 in
  let run := _process_tick_generator ws Examples.sensor [(SKIPPED, 7)] d in
  persisted_cursor Examples.sensor (Daemon.instance d) = Some "c0"
  /\ SensorExecutionData.cursor data = Some ""
  /\ run.1 = Ok tt
  /\ TickData.status <$> (DagsterInstance.ticks (Daemon.instance run.2) !! 0%nat)
     = Some SUCCESS
  /\ persisted_cursor Examples.sensor (Daemon.instance run.2) = None.
Proof. vm_compute. repeat split. Qed.

(** ** The submission of the runs of a tick *)











(** * Further properties of the code *)

(** ** The launch context *)

Lemma purge_settings_add_spec off st ps :
  NoDup ps.*1 ->
  (forall o sts, (o, sts) ∈ ps -> NoDup sts /\ sts <> []) ->
  let ps' := SensorLaunchContext.purge_settings_add off st ps in
  NoDup ps'.*1 /\
  (forall o sts, (o, sts) ∈ ps' -> NoDup sts /\ sts <> []) /\
  (forall o x, (exists sts, (o, sts) ∈ ps' /\ x ∈ sts) <->
               (o = off /\ x = st) \/ exists sts, (o, sts) ∈ ps /\ x ∈ sts).
Proof.
  induction ps as [|[o1 sts1] ps IH]; simpl; intros Hnd Hin.
  - split; [repeat constructor; set_solver|]. split.
    + intros o sts Ho. apply list_elem_of_singleton in Ho. injection Ho as -> ->.
      split; [apply NoDup_singleton|discriminate].
    + intros o x. split.
      * intros (sts & Ho & Hx). apply list_elem_of_singleton in Ho. injection Ho as -> ->.
        apply list_elem_of_singleton in Hx. auto.
      * intros [[-> ->]|(sts & Ho & _)]; [|inversion Ho].
        exists [st]. split; apply list_elem_of_singleton; reflexivity.
  - apply NoDup_cons in Hnd. destruct Hnd as [Hnotin Hnd].
    assert (Hin1 : NoDup sts1 /\ sts1 <> []) by (apply (Hin o1); left).
    assert (Hin' : forall o sts, (o, sts) ∈ ps -> NoDup sts /\ sts <> [])
      by (intros o sts Ho; apply (Hin o); right; exact Ho).
    case_bool_decide as Heq.
    + subst o1. simpl. split; [apply NoDup_cons; auto|]. split.
      * intros o sts Ho. apply elem_of_cons in Ho. destruct Ho as [Ho|Ho]; [|eauto].
        injection Ho as -> ->. case_bool_decide; [assumption|].
        split; [|destruct sts1; discriminate].
        apply NoDup_app. split; [tauto|]. split; [|apply NoDup_singleton].
        intros x Hx Hx'. apply list_elem_of_singleton in Hx'. congruence.
      * intros o x. split.
        -- intros (sts & Ho & Hx). apply elem_of_cons in Ho. destruct Ho as [Ho|Ho].
           ++ injection Ho as -> ->. case_bool_decide as Hst.
              ** right. exists sts1. split; [left|assumption].
              ** apply elem_of_app in Hx. destruct Hx as [Hx|Hx].
                 --- right. exists sts1. split; [left|assumption].
                 --- apply list_elem_of_singleton in Hx. auto.
           ++ right. exists sts. split; [right|]; assumption.
        -- intros [[-> ->]|(sts & Ho & Hx)].
           ++ eexists. split; [left|]. case_bool_decide; [assumption|].
              apply elem_of_app. right. apply list_elem_of_singleton. reflexivity.
           ++ apply elem_of_cons in Ho. destruct Ho as [Ho|Ho].
              ** injection Ho as -> ->. eexists. split; [left|].
                 case_bool_decide; [assumption|]. apply elem_of_app. auto.
              ** exists sts. split; [right|]; assumption.
    + destruct (IH Hnd Hin') as (IH1 & IH2 & IH3). simpl. split.
      * apply NoDup_cons. split; [|assumption].
        intros Ho. apply list_elem_of_fmap in Ho. destruct Ho as ([o sts] & -> & Ho).
        simpl in *. destruct (proj1 (IH3 o (hd st sts))) as [[-> _]|(sts' & Ho' & _)].
        -- exists sts. split; [assumption|].
           destruct (IH2 _ _ Ho) as [_ Hne]. destruct sts; [congruence|left].
        -- congruence.
        -- apply Hnotin. apply list_elem_of_fmap. exists (o, sts'). auto.
      * split.
        -- intros o sts Ho. apply elem_of_cons in Ho. destruct Ho as [Ho|Ho]; [|eauto].
           injection Ho as -> ->. assumption.
        -- intros o x. split.
           ++ intros (sts & Ho & Hx). apply elem_of_cons in Ho. destruct Ho as [Ho|Ho].
              ** injection Ho as -> ->. right. exists sts1. split; [left|assumption].
              ** destruct (proj1 (IH3 o x)) as [?|(sts' & Ho' & Hx')]; [eauto|auto|].
                 right. exists sts'. split; [right|]; assumption.
           ++ intros [Hnew|(sts & Ho & Hx)].
              ** destruct (proj2 (IH3 o x)) as (sts & Ho & Hx); [auto|].
                 exists sts. split; [right|]; assumption.
              ** apply elem_of_cons in Ho. destruct Ho as [Ho|Ho].
                 --- injection Ho as -> ->. exists sts1. split; [left|assumption].
                 --- destruct (proj2 (IH3 o x)) as (sts' & Ho' & Hx'); [eauto|].
                     exists sts'. split; [right|]; assumption.
Qed.

Lemma purge_settings_fold settings : forall ps,
  NoDup ps.*1 ->
  (forall o sts, (o, sts) ∈ ps -> NoDup sts /\ sts <> []) ->
  let ps' := foldl (fun ps it => SensorLaunchContext.purge_settings_add it.2 it.1 ps)
               ps settings in
  NoDup ps'.*1 /\
  (forall o sts, (o, sts) ∈ ps' -> NoDup sts /\ sts <> []) /\
  (forall o x, (exists sts, (o, sts) ∈ ps' /\ x ∈ sts) <->
               (x, o) ∈ settings \/ exists sts, (o, sts) ∈ ps /\ x ∈ sts).
Proof.
  induction settings as [|[st off] settings IH]; simpl; intros ps Hnd Hin.
  - split; [assumption|]. split; [assumption|]. intros o x. split; [auto|].
    intros [H|H]; [inversion H|assumption].
  - destruct (purge_settings_add_spec off st ps Hnd Hin) as (H1 & H2 & H3).
    destruct (IH _ H1 H2) as (I1 & I2 & I3). split; [assumption|]. split; [assumption|].
    intros o x. rewrite I3, H3, elem_of_cons. split.
    + intros [?|[[-> ->]|?]]; auto.
    + intros [[[= -> ->]|?]|?]; auto.
Qed.

(** The retention settings of a launch context are grouped by day offset:
    every offset appears once, with the set of the statuses that have it. *)
Theorem purge_settings_grouped (s : ExternalSensor.t) (k : InstigatorTick.t)
    (tick_retention_settings : list (TickStatus * Z)) :
  let c := SensorLaunchContext.new s k tick_retention_settings in
  let ps := SensorLaunchContext._purge_settings c in
  NoDup ps.*1 /\
  (forall day_offset statuses, (day_offset, statuses) ∈ ps ->
     NoDup statuses /\ statuses <> []) /\
  (forall status day_offset,
     (status, day_offset) ∈ tick_retention_settings <->
     exists statuses, (day_offset, statuses) ∈ ps /\ status ∈ statuses) /\
  SensorLaunchContext._should_update_cursor_on_failure c = false /\
  SensorLaunchContext._tick c = k.
Proof.
  intros c ps. subst c ps. unfold SensorLaunchContext.new. simpl.
  destruct (purge_settings_fold tick_retention_settings []) as (H1 & H2 & H3).
  { constructor. }
  { intros o sts H. inversion H. }
  split; [assumption|]. split; [assumption|]. split; [|auto].
  intros st off. rewrite H3. split; [auto|]. intros [?|(sts & H & _)]; [assumption|inversion H].
Qed.

(** ** The runs of a request *)

(** The tags of a run created for a request: the sensor's name tag is the
    sensor's whatever the job and the request say, the run-key tag is the
    key of the request when it has one, and for every other tag the request
    wins over the job. *)
Theorem created_run_tags (ws : Workspace.t) (cl : CodeLocation.t) (s : ExternalSensor.t)
    (job : ExternalJob.t) (rr : RunRequest.t) (target : ExternalTargetData.t)
    (d d' : Daemon.t) (run : DagsterRun.t) :
  _create_sensor_run ws cl s job rr target d = (Ok run, d') ->
  exists job_tags,
    Workspace.validate_tags ws (ExternalJob.tags job) = Ok job_tags /\
    DagsterRun.tags run !! SENSOR_NAME_TAG = Some (ExternalSensor.name s) /\
    (forall k, RunRequest.run_key rr = Some k -> k <> "" ->
       DagsterRun.tags run !! RUN_KEY_TAG = Some k) /\
    (forall tag, tag <> SENSOR_NAME_TAG ->
       tag <> RUN_KEY_TAG \/ truthy_str (RunRequest.run_key rr) = false ->
       DagsterRun.tags run !! tag
       = match RunRequest.tags rr !! tag with
         | Some v => Some v
         | None => job_tags !! tag
         end) /\
    DagsterRun.status run = NOT_STARTED /\
    DagsterRun.job_name run = ExternalTargetData.job_name target /\
    DagsterRun.external_job_origin run = Some (ExternalJob.get_external_origin job) /\
    DagsterInstance.history (Daemon.instance d')
    = (DagsterInstance.history (Daemon.instance d) ++ [OpCreateRun run])%list.
Proof.
  unfold _create_sensor_run, bind, liftR, instance_call.
  destruct (CodeLocation.get_external_execution_plan cl job _) as [[]|e]; simpl;
    [|discriminate].
  destruct (Workspace.validate_tags ws _) as [job_tags|e]; simpl; [|discriminate].
  intros [= <- <-]. exists job_tags. simpl. split; [reflexivity|].
  assert (Hbase : forall tag,
    merge_dicts (merge_dicts job_tags (RunRequest.tags rr)) (tags_for_sensor s) !! tag
    = if bool_decide (tag = SENSOR_NAME_TAG) then Some (ExternalSensor.name s)
      else match RunRequest.tags rr !! tag with
           | Some v => Some v
           | None => job_tags !! tag
           end).
  { intros tag. unfold merge_dicts, tags_for_sensor. rewrite !lookup_union.
    case_bool_decide as Ht.
    - subst tag. rewrite lookup_singleton_eq. destruct (_ !! _), (_ !! _); reflexivity.
    - rewrite lookup_singleton_ne by congruence.
      destruct (RunRequest.tags rr !! tag), (job_tags !! tag); reflexivity. }
  split.
  { destruct (RunRequest.run_key rr) as [k|]; [destruct (truthy_str (Some k))|].
    all: try rewrite lookup_insert_ne by discriminate.
    all: rewrite Hbase; reflexivity. }
  split.
  { intros k -> Hk. unfold truthy_str. rewrite bool_decide_false by assumption. simpl.
    apply lookup_insert_eq. }
  split; [|repeat split].
  intros tag Hs Hk.
  assert (Hgoal : merge_dicts (merge_dicts job_tags (RunRequest.tags rr)) (tags_for_sensor s)
                    !! tag
                  = match RunRequest.tags rr !! tag with
                    | Some v => Some v
                    | None => job_tags !! tag
                    end)
    by (rewrite Hbase, bool_decide_false by assumption; reflexivity).
  destruct (RunRequest.run_key rr) as [k|] eqn:Hkey; [|exact Hgoal].
  destruct (truthy_str (Some k)) eqn:Htr; [|exact Hgoal].
  destruct Hk as [Hk|Hk]; [|discriminate].
  rewrite lookup_insert_ne by congruence. exact Hgoal.
Qed.

Lemma created_run_tags_witness :
  let ws := Examples.workspace (Raise (Exception "unused")) (fun _ => Ok tt) in
  let cl := Examples.location (Raise (Exception "unused")) in
  let rr := RunRequest.mk (Some "k1") "config"
              {[ SENSOR_NAME_TAG := "other_sensor"; RUN_KEY_TAG := "other_key" ]}
              None None false in
  let d := Examples.daemon_at Examples.empty_instance 0 1 in
  let out := _create_sensor_run ws cl Examples.sensor Examples.job rr Examples.target d in
  exists run, out.1 = Ok run /\
    DagsterRun.tags run !! SENSOR_NAME_TAG = Some "my_sensor" /\
    DagsterRun.tags run !! RUN_KEY_TAG = Some "k1".
Proof.
  intros ws cl rr d out.
  destruct out as [[run|e] d'] eqn:Hout; [|vm_compute in Hout; discriminate].
  destruct (created_run_tags ws cl Examples.sensor Examples.job rr Examples.target d d' run Hout)
    as (job_tags & _ & Hname & Hkey & _).
  exists run. split; [reflexivity|]. split; [exact Hname|].
  apply (Hkey "k1"); [reflexivity|discriminate].
Defined.

(** A request that needs a new run and for which the user code does not
    answer (no target, no job, no execution plan or tags refused): the
    exception is raised out of [_submit_run_request], not captured as the
    error of an outcome, and nothing is written to the store. *)
Theorem unanswered_request_writes_nothing (rr : RunRequest.t) (ws : Workspace.t)
    (s : ExternalSensor.t) (cl : CodeLocation.t) (existing : gmap string DagsterRun.t)
    (d d' : Daemon.t) (r : Result SubmitRunRequestResult.t) :
  ~ can_create ws s cl rr ->
  (forall k, RunRequest.run_key rr = Some k -> k <> "" -> existing !! k = None) ->
  _submit_run_request rr ws s cl existing d = (r, d') ->
  (exists e, r = Raise e) /\
  Daemon.instance d' = Daemon.instance d /\
  Daemon.yielded d' = Daemon.yielded d /\
  exists records, Daemon.logged d' = (Daemon.logged d ++ records)%list /\
                  Forall (fun rec => rec.1 = INFO) records.
Proof.
  intros Hno Hnew. unfold _submit_run_request. unfold bind at 1. unfold check_not_none.
  destruct (ExternalSensor.get_target_data s _) as [target|] eqn:Htarget; simpl.
  2:{ intros [= <- <-]. split; [eauto|]. split; [reflexivity|]. split; [reflexivity|].
      exists []. rewrite app_nil_r. auto. }
  unfold bind at 1. unfold liftR at 1.
  destruct (CodeLocation.get_external_job cl _) as [job|e] eqn:Hjob; simpl.
  2:{ intros [= <- <-]. split; [eauto|]. split; [reflexivity|]. split; [reflexivity|].
      exists []. rewrite app_nil_r. auto. }
  assert (Hcreate : exists e, _create_sensor_run ws cl s job rr target
                              = fun d0 => (Raise e, d0)).
  { unfold _create_sensor_run, bind, liftR.
    destruct (CodeLocation.get_external_execution_plan cl job _) as [[]|e] eqn:Hplan;
      [|eauto].
    destruct (Workspace.validate_tags ws _) as [job_tags|e] eqn:Htags; [|eauto].
    exfalso. apply Hno. exists target, job, job_tags. auto. }
  destruct Hcreate as [e Hcreate].
  unfold bind at 1. unfold _get_or_create_sensor_run. rewrite Hcreate.
  destruct (RunRequest.run_key rr) as [k|] eqn:Hkey.
  - destruct (truthy_str (Some k)) eqn:Htr; simpl.
    + assert (Hk : k <> "").
      { intros ->. discriminate. }
      rewrite (Hnew k eq_refl Hk). unfold bind, logger, modify. simpl.
      intros [= <- <-]. split; [eauto|]. split; [reflexivity|]. split; [reflexivity|].
      eexists [_]. split; [reflexivity|]. repeat constructor.
    + unfold bind. intros [= <- <-]. split; [eauto|]. split; [reflexivity|].
      split; [reflexivity|]. exists []. rewrite app_nil_r. auto.
  - unfold bind. intros [= <- <-]. split; [eauto|]. split; [reflexivity|].
    split; [reflexivity|]. exists []. rewrite app_nil_r. auto.
Qed.

Lemma unanswered_request_writes_nothing_witness :
  let ws := Examples.workspace (Raise (Exception "unused")) (fun _ => Ok tt) in
  let cl := Examples.location (Raise (Exception "unused")) in
  let s := ExternalSensor.mk "my_sensor" "sel" "origin" Examples.repo (Some 60)
             (fun _ => None) in
  let d := Examples.daemon_at Examples.empty_instance 0 1 in
  let out := _submit_run_request (Examples.request (Some "k1")) ws s cl ∅ d in
  (exists e, out.1 = Raise e) /\ Daemon.instance out.2 = Daemon.instance d.
Proof.
  intros ws cl s d out.
  destruct (unanswered_request_writes_nothing (Examples.request (Some "k1")) ws s cl ∅ d
              out.2 out.1) as (He & Hi & _).
  - intros (target & job & job_tags & Habs & _). discriminate.
  - intros k _ _. apply lookup_empty.
  - subst out. apply surjective_pairing.
  - split; assumption.
Defined.

Lemma create_sensor_run_effect ws cl s job rr target d job_tags :
  CodeLocation.get_external_execution_plan cl job (RunRequest.run_config rr) = Ok tt ->
  Workspace.validate_tags ws (ExternalJob.tags job) = Ok job_tags ->
  exists run d',
    _create_sensor_run ws cl s job rr target d = (Ok run, d') /\
    DagsterRun.run_id run
    = DagsterInstance.make_new_run_id (DagsterInstance.run_count (Daemon.instance d)) /\
    DagsterRun.status run = NOT_STARTED /\
    DagsterInstance.history (Daemon.instance d')
    = (DagsterInstance.history (Daemon.instance d) ++ [OpCreateRun run])%list /\
    DagsterInstance.runs (Daemon.instance d') = run :: DagsterInstance.runs (Daemon.instance d) /\
    DagsterInstance.run_count (Daemon.instance d')
    = S (DagsterInstance.run_count (Daemon.instance d)) /\
    DagsterInstance.instigator_states (Daemon.instance d')
    = DagsterInstance.instigator_states (Daemon.instance d) /\
    Daemon.logged d' = Daemon.logged d /\
    Daemon.yielded d' = Daemon.yielded d /\
    Daemon.pending_close d' = Daemon.pending_close d.
Proof.
  intros Hplan Htags. unfold _create_sensor_run, bind, liftR, instance_call.
  rewrite Hplan. simpl. rewrite Htags. simpl. do 2 eexists. split; [reflexivity|].
  simpl. repeat split.
Qed.

(** An exception of the launcher that is not an [Exception] (an interrupt)
    is not captured as the error of the outcome: it leaves
    [_submit_run_request], the run created for the request staying in the
    store, not started. *)
Theorem launch_interrupt_propagates (rr : RunRequest.t) (ws : Workspace.t)
    (s : ExternalSensor.t) (cl : CodeLocation.t) (existing : gmap string DagsterRun.t)
    (d : Daemon.t) (e : exn) :
  can_create ws s cl rr ->
  (forall k, RunRequest.run_key rr = Some k -> k <> "" -> existing !! k = None) ->
  Workspace.launch_run ws
    (DagsterInstance.make_new_run_id (DagsterInstance.run_count (Daemon.instance d)))
  = Raise e ->
  is_Exception e = false ->
  exists run d',
    _submit_run_request rr ws s cl existing d = (Raise e, d') /\
    DagsterInstance.history (Daemon.instance d')
    = (DagsterInstance.history (Daemon.instance d) ++ [OpCreateRun run])%list /\
    DagsterInstance.runs (Daemon.instance d') = run :: DagsterInstance.runs (Daemon.instance d) /\
    DagsterRun.status run = NOT_STARTED /\
    Daemon.yielded d' = Daemon.yielded d /\
    exists records, Daemon.logged d' = (Daemon.logged d ++ records)%list /\
                    Forall (fun rec => rec.1 = INFO) records.
Proof.
  intros (target & job & job_tags & Htarget & Hjob & Hplan & Htags) Hnew Hlaunch Hexc.
  unfold _submit_run_request. unfold bind at 1. unfold check_not_none. rewrite Htarget.
  simpl. unfold bind at 1. unfold liftR at 1. rewrite Hjob. simpl.
  assert (Hlaunched : forall run d1,
    DagsterRun.run_id run
    = DagsterInstance.make_new_run_id (DagsterInstance.run_count (Daemon.instance d)) ->
    (error_info <~
       try_except
         (logger INFO ("Launching run for " +:+ ExternalSensor.name s) ;;;
          submit_run ws (DagsterRun.run_id run) ;;;
          logger INFO ("Completed launch of run " +:+ DagsterRun.run_id run +:+ " for "
                       +:+ ExternalSensor.name s) ;;;
          ret None)
         (fun e =>
            let error_info := serializable_error_info_from_exc_info e in
            logger ERROR ("Run " +:+ DagsterRun.run_id run
                          +:+ " created successfully but failed to launch: "
                          +:+ SerializableErrorInfo.message error_info) ;;;
            ret (Some error_info)) ;;
     ret (SubmitRunRequestResult.mk (RunRequest.run_key rr) error_info (IsRun run))) d1
    = (Raise e, (logger INFO ("Launching run for " +:+ ExternalSensor.name s) d1).2)).
  { intros run d1 Hid. unfold bind at 1. unfold try_except.
    unfold bind at 1. simpl. unfold submit_run. unfold bind at 1. unfold bind at 1.
    unfold liftR. rewrite Hid, Hlaunch. simpl. rewrite Hexc. reflexivity. }
  assert (Hgoal : forall d0 : Daemon.t,
    DagsterInstance.run_count (Daemon.instance d0)
    = DagsterInstance.run_count (Daemon.instance d) ->
    exists run d',
      (run <~ (r <~ _create_sensor_run ws cl s job rr target ;; ret (IsRun r)) ;;
       match run with
       | IsSkipped _ =>
           ret (SubmitRunRequestResult.mk (RunRequest.run_key rr) None run)
       | IsRun r =>
           error_info <~
             try_except
               (logger INFO ("Launching run for " +:+ ExternalSensor.name s) ;;;
                submit_run ws (DagsterRun.run_id r) ;;;
                logger INFO ("Completed launch of run " +:+ DagsterRun.run_id r +:+ " for "
                             +:+ ExternalSensor.name s) ;;;
                ret None)
               (fun e =>
                  let error_info := serializable_error_info_from_exc_info e in
                  logger ERROR ("Run " +:+ DagsterRun.run_id r
                                +:+ " created successfully but failed to launch: "
                                +:+ SerializableErrorInfo.message error_info) ;;;
                  ret (Some error_info)) ;;
           ret (SubmitRunRequestResult.mk (RunRequest.run_key rr) error_info run)
       end) d0 = (Raise e, d') /\
      DagsterInstance.history (Daemon.instance d')
      = (DagsterInstance.history (Daemon.instance d0) ++ [OpCreateRun run])%list /\
      DagsterInstance.runs (Daemon.instance d')
      = run :: DagsterInstance.runs (Daemon.instance d0) /\
      DagsterRun.status run = NOT_STARTED /\
      Daemon.yielded d' = Daemon.yielded d0 /\
      Daemon.logged d'
      = (Daemon.logged d0 ++ [(INFO, "Launching run for " +:+ ExternalSensor.name s)])%list).
  { intros d0 Hcount.
    destruct (create_sensor_run_effect ws cl s job rr target d0 job_tags Hplan Htags)
      as (run & d1 & Hc & Hid & Hst & Hh & Hruns & _ & _ & Hl & Hy & _).
    rewrite Hcount in Hid.
    exists run. eexists. split.
    { unfold bind at 1. unfold bind at 1. rewrite Hc. unfold ret at 1. cbv beta iota.
      exact (Hlaunched run d1 Hid). }
    simpl. rewrite Hl. auto. }
  unfold _get_or_create_sensor_run.
  destruct (RunRequest.run_key rr) as [k|] eqn:Hkey.
  - destruct (truthy_str (Some k)) eqn:Htr; simpl.
    + assert (Hk : k <> "") by (intros ->; discriminate).
      rewrite (Hnew k eq_refl Hk).
      destruct (Hgoal (logger INFO ("Creating new run for " +:+ ExternalSensor.name s) d).2
                  eq_refl) as (run & d' & Hrun & Hh & Hruns & Hst & Hy & Hl).
      exists run, d'. split.
      { unfold bind at 1. unfold bind at 1. simpl.
        unfold bind at 1 in Hrun. exact Hrun. }
      split; [exact Hh|]. split; [exact Hruns|]. split; [exact Hst|]. split; [exact Hy|].
      eexists [_; _]. rewrite Hl. simpl. rewrite <- app_assoc. split; [reflexivity|].
      repeat constructor.
    + destruct (Hgoal d eq_refl) as (run & d' & Hrun & Hh & Hruns & Hst & Hy & Hl).
      exists run, d'. split; [exact Hrun|]. split; [exact Hh|]. split; [exact Hruns|].
      split; [exact Hst|]. split; [exact Hy|].
      eexists [_]. rewrite Hl. split; [reflexivity|]. repeat constructor.
  - destruct (Hgoal d eq_refl) as (run & d' & Hrun & Hh & Hruns & Hst & Hy & Hl).
    exists run, d'. split; [exact Hrun|]. split; [exact Hh|]. split; [exact Hruns|].
    split; [exact Hst|]. split; [exact Hy|].
    eexists [_]. rewrite Hl. split; [reflexivity|]. repeat constructor.
Qed.

Lemma launch_interrupt_propagates_witness :
  let ws := Examples.workspace (Raise (Exception "unused")) (fun _ => Raise KeyboardInterrupt) in
  let cl := Examples.location (Raise (Exception "unused")) in
  let d := Examples.daemon_at Examples.empty_instance 0 1 in
  exists run d',
    _submit_run_request (Examples.request (Some "k1")) ws Examples.sensor cl ∅ d
    = (Raise KeyboardInterrupt, d') /\
    DagsterInstance.runs (Daemon.instance d') = [run] /\
    DagsterRun.status run = NOT_STARTED.
Proof.
  intros ws cl d.
  destruct (launch_interrupt_propagates (Examples.request (Some "k1")) ws Examples.sensor cl
              ∅ d KeyboardInterrupt)
    as (run & d' & Hrun & _ & Hruns & Hst & _).
  - exists Examples.target, Examples.job, ∅. repeat split.
  - intros k _ _. apply lookup_empty.
  - reflexivity.
  - reflexivity.
  - exists run, d'. auto.
Defined.

(** ** The writes of a claimed tick *)

(** ** What an evaluation writes *)

#[local] Instance evaluation_writes_preorder : PreOrder evaluation_writes.
Proof.
  split.
  - intros d. unfold evaluation_writes. repeat split. exists []. rewrite app_nil_r. auto.
  - intros d1 d2 d3 (?&?&?&?&?&ops1&Hh1&Ho1) (?&?&?&?&?&ops2&Hh2&Ho2).
    unfold evaluation_writes. repeat split; try congruence.
    exists (ops1 ++ ops2)%list. rewrite Hh2, Hh1, <- app_assoc.
    split; [reflexivity|]. apply Forall_app. auto.
Qed.

#[local] Instance same_attempt_preorder : PreOrder same_attempt.
Proof.
  split.
  - intros k. repeat split. auto.
  - intros k1 k2 k3 (?&?&?&?) (?&?&?&?). unfold same_attempt.
    repeat split; try congruence. auto.
Qed.

#[local] Instance evaluation_frame_preorder : PreOrder evaluation_frame.
Proof.
  split.
  - intros sc. split; [reflexivity|]. split; [reflexivity|]. split; reflexivity.
  - intros s1 s2 s3 (Hd1&?&?&Hk1) (Hd2&?&?&Hk2). unfold evaluation_frame.
    split; [etransitivity; eassumption|]. split; [congruence|]. split; [congruence|].
    etransitivity; eassumption.
Qed.

Lemma evaluation_writes_log d lvl msg : evaluation_writes d (logger lvl msg d).2.
Proof. unfold evaluation_writes. simpl. repeat split. exists []. rewrite app_nil_r. auto. Qed.

Lemma evaluation_writes_logger lvl msg : steps evaluation_writes (logger lvl msg).
Proof. intros s r s' [= <- <-]. apply evaluation_writes_log. Qed.

Lemma evaluation_writes_yield v : steps evaluation_writes (yield_ v).
Proof.
  intros d r d'. unfold yield_.
  destruct (Daemon.pending_close d) as [[|n]|]; intros [= <- <-];
    unfold evaluation_writes; simpl; repeat split; exists []; rewrite app_nil_r; auto.
Qed.

Lemma evaluation_writes_op (f : DagsterInstance.t -> DagsterInstance.t) :
  (forall i, DagsterInstance.instigator_states (f i) = DagsterInstance.instigator_states i /\
             DagsterInstance.ticks (f i) = DagsterInstance.ticks i /\
             DagsterInstance.tick_count (f i) = DagsterInstance.tick_count i /\
             exists op, DagsterInstance.history (f i) = (DagsterInstance.history i ++ [op])%list /\
                        is_evaluation_op op = true) ->
  steps evaluation_writes (instance_do f).
Proof.
  intros Hf. apply steps_instance_do. intros d.
  destruct (Hf (Daemon.instance d)) as (H1 & H2 & H3 & op & Hh & Hop).
  unfold evaluation_writes. simpl. repeat split; try assumption.
  exists [op]. split; [assumption|]. repeat constructor. assumption.
Qed.

Lemma evaluation_writes_create_sensor_run ws cl s job rr target :
  steps evaluation_writes (_create_sensor_run ws cl s job rr target).
Proof.
  unfold _create_sensor_run.
  apply steps_bind; [typeclasses eauto | apply steps_liftR; typeclasses eauto | intros _].
  apply steps_bind; [typeclasses eauto | apply steps_liftR; typeclasses eauto | intros tags].
  intros d r d'. unfold instance_call. intros [= <- <-].
  unfold evaluation_writes. simpl. repeat split.
  eexists [_]. split; [reflexivity|]. repeat constructor.
Qed.

Lemma evaluation_writes_get_or_create ws cl s job rr target existing :
  steps evaluation_writes (_get_or_create_sensor_run ws cl s job rr target existing).
Proof.
  assert (Hc : steps evaluation_writes
                 (r <~ _create_sensor_run ws cl s job rr target ;; ret (IsRun r))).
  { apply steps_bind; [typeclasses eauto | apply evaluation_writes_create_sensor_run|].
    intros r. apply steps_ret. typeclasses eauto. }
  unfold _get_or_create_sensor_run.
  destruct (RunRequest.run_key rr) as [k|]; [|exact Hc].
  destruct (negb _); [exact Hc|].
  destruct (existing !! k) as [run|].
  - destruct (negb _); [apply steps_ret; typeclasses eauto|].
    apply steps_bind; [typeclasses eauto | apply evaluation_writes_logger | intros _].
    apply steps_ret. typeclasses eauto.
  - apply steps_bind; [typeclasses eauto | apply evaluation_writes_logger | intros _].
    exact Hc.
Qed.

Lemma evaluation_writes_submit_run ws run_id :
  steps evaluation_writes (submit_run ws run_id).
Proof.
  unfold submit_run.
  apply steps_bind; [typeclasses eauto | apply steps_liftR; typeclasses eauto | intros _].
  apply evaluation_writes_op. intros i. simpl. repeat split.
  eexists. split; [reflexivity|]. reflexivity.
Qed.

Lemma evaluation_writes_submit_run_request rr ws s cl existing :
  steps evaluation_writes (_submit_run_request rr ws s cl existing).
Proof.
  unfold _submit_run_request.
  apply steps_bind; [typeclasses eauto | apply steps_check_not_none; typeclasses eauto|].
  intros target.
  apply steps_bind; [typeclasses eauto | apply steps_liftR; typeclasses eauto | intros job].
  apply steps_bind; [typeclasses eauto | apply evaluation_writes_get_or_create | intros run].
  destruct run as [r|sk]; [|apply steps_ret; typeclasses eauto].
  apply steps_bind; [typeclasses eauto | | intros err; apply steps_ret; typeclasses eauto].
  apply steps_try_except; [typeclasses eauto | |].
  - apply steps_bind; [typeclasses eauto | apply evaluation_writes_logger | intros _].
    apply steps_bind; [typeclasses eauto | apply evaluation_writes_submit_run | intros _].
    apply steps_bind; [typeclasses eauto | apply evaluation_writes_logger | intros _].
    apply steps_ret. typeclasses eauto.
  - intros e. cbv zeta.
    apply steps_bind; [typeclasses eauto | apply evaluation_writes_logger | intros _].
    apply steps_ret. typeclasses eauto.
Qed.

Lemma evaluation_frame_daemon sc d' :
  evaluation_writes (Scope.daemon sc) d' ->
  evaluation_frame sc (Scope.mk d' (Scope.context sc)).
Proof. intros H. split; [exact H|]. repeat split; auto. Qed.

Lemma evaluation_frame_in_daemon {A} (m : M Daemon.t A) :
  steps evaluation_writes m -> steps evaluation_frame (in_daemon m).
Proof. apply steps_in_daemon. apply evaluation_frame_daemon. Qed.

Lemma evaluation_frame_context f :
  (forall c, SensorLaunchContext._external_sensor (f c)
             = SensorLaunchContext._external_sensor c /\
             SensorLaunchContext._purge_settings (f c)
             = SensorLaunchContext._purge_settings c /\
             same_attempt (SensorLaunchContext._tick c) (SensorLaunchContext._tick (f c))) ->
  steps evaluation_frame (context_do f).
Proof.
  intros Hf. apply steps_context_do. intros sc.
  destruct (Hf (Scope.context sc)) as (H1 & H2 & H3).
  split; [reflexivity|]. simpl. auto.
Qed.

Lemma same_attempt_update_state st sr cur o e c :
  st <> STARTED ->
  same_attempt (SensorLaunchContext._tick c)
    (SensorLaunchContext._tick (SensorLaunchContext.update_state st sr cur o e c)).
Proof.
  intros Hst. unfold SensorLaunchContext.update_state, same_attempt.
  destruct (truthy_str sr), (truthy_str cur), o as [r|]; simpl;
    try destruct (negb (bool_decide (r = ""))); repeat split; intros _; exact Hst.
Qed.

Lemma evaluation_frame_update_state st sr cur o e :
  st <> STARTED ->
  steps evaluation_frame (context_do (SensorLaunchContext.update_state st sr cur o e)).
Proof.
  intros Hst. apply evaluation_frame_context. intros c.
  destruct (update_state_facts st sr cur o e c) as (H1 & _ & H3 & _).
  split; [exact H1|]. split; [exact H3|]. apply same_attempt_update_state. exact Hst.
Qed.

Lemma evaluation_frame_logger lvl msg : steps evaluation_frame (in_daemon (logger lvl msg)).
Proof. apply evaluation_frame_in_daemon, evaluation_writes_logger. Qed.

Lemma evaluation_frame_yield v : steps evaluation_frame (in_daemon (yield_ v)).
Proof. apply evaluation_frame_in_daemon, evaluation_writes_yield. Qed.

Lemma evaluation_frame_partitions request :
  steps evaluation_frame (apply_dynamic_partitions_request request).
Proof.
  unfold apply_dynamic_partitions_request.
  apply steps_bind; [typeclasses eauto | |intros existent].
  { apply evaluation_frame_in_daemon. apply steps_instance_get. typeclasses eauto. }
  apply steps_bind; [typeclasses eauto | |intros nonexistent].
  { apply evaluation_frame_in_daemon. apply steps_instance_get. typeclasses eauto. }
  assert (Hrec : forall r, steps evaluation_frame
                   (context_do (SensorLaunchContext.add_dynamic_partitions_request_result r))).
  { intros r. apply evaluation_frame_context. intros c. repeat split. auto. }
  assert (Hret : steps evaluation_frame (ret tt)) by (apply steps_ret; typeclasses eauto).
  destruct request as [n ks|n ks].
  - apply steps_bind; [typeclasses eauto | |intros _].
    { destruct (truthy_list nonexistent); [|exact Hret].
      apply steps_bind; [typeclasses eauto | |intros _; apply evaluation_frame_logger].
      apply evaluation_frame_in_daemon. apply evaluation_writes_op. intros i. simpl.
      repeat split. eexists. split; reflexivity. }
    apply steps_bind; [typeclasses eauto | |intros _; apply Hrec].
    destruct (truthy_list existent); [apply evaluation_frame_logger|exact Hret].
  - apply steps_bind; [typeclasses eauto | |intros _].
    { destruct (truthy_list existent); [|exact Hret].
      apply steps_bind; [typeclasses eauto | |intros _; apply evaluation_frame_logger].
      apply steps_for_each; [typeclasses eauto|]. intros key.
      apply evaluation_frame_in_daemon. apply evaluation_writes_op. intros i. simpl.
      repeat split. eexists. split; reflexivity. }
    apply steps_bind; [typeclasses eauto | |intros _; apply Hrec].
    destruct (truthy_list nonexistent); [apply evaluation_frame_logger|exact Hret].
Qed.

Lemma evaluation_frame_run_reaction s cursor reaction :
  steps evaluation_frame (apply_run_reaction s cursor reaction).
Proof.
  unfold apply_run_reaction.
  apply steps_bind; [typeclasses eauto | apply steps_check_not_none; typeclasses eauto|].
  intros run. cbv zeta.
  destruct (DagsterRunReaction.error reaction) as [err|].
  - apply steps_bind; [typeclasses eauto | apply evaluation_frame_logger | intros _].
    apply steps_bind; [typeclasses eauto | | intros _].
    + apply evaluation_frame_update_state. discriminate.
    + apply evaluation_frame_context. intros c. repeat split. auto.
  - apply steps_bind; [typeclasses eauto | | intros _].
    { apply evaluation_frame_in_daemon. apply evaluation_writes_op. intros i. simpl.
      repeat split. eexists. split; reflexivity. }
    apply steps_bind; [typeclasses eauto | apply evaluation_frame_logger | intros _].
    apply evaluation_frame_update_state. discriminate.
Qed.

Lemma evaluation_frame_add_run_info run_id run_key :
  steps evaluation_frame (context_do (SensorLaunchContext.add_run_info run_id run_key)).
Proof. apply evaluation_frame_context. intros c. repeat split. auto. Qed.

Lemma evaluation_frame_submit_and_record ws s cl existing rr :
  steps evaluation_frame (submit_and_record ws s cl existing rr).
Proof.
  unfold submit_and_record.
  apply steps_bind; [typeclasses eauto | | intros res].
  { apply evaluation_frame_in_daemon, evaluation_writes_submit_run_request. }
  apply steps_bind; [typeclasses eauto | apply evaluation_frame_yield | intros _].
  apply steps_bind; [typeclasses eauto | | intros _; apply steps_ret; typeclasses eauto].
  destruct (SubmitRunRequestResult.run res); apply evaluation_frame_add_run_info.
Qed.

Lemma evaluation_frame_submit_run_requests ws s cl data :
  steps evaluation_frame (submit_run_requests ws s cl data).
Proof.
  unfold submit_run_requests. cbv zeta.
  apply steps_bind; [typeclasses eauto | | intros existing].
  { apply evaluation_frame_in_daemon. apply steps_instance_get. typeclasses eauto. }
  apply steps_bind; [typeclasses eauto | | intros results].
  { apply steps_map_each; [typeclasses eauto|]. intros rr.
    apply evaluation_frame_submit_and_record. }
  apply steps_bind; [typeclasses eauto | | intros _].
  { destruct (truthy_list _); [apply evaluation_frame_logger|].
    apply steps_ret. typeclasses eauto. }
  apply steps_bind; [typeclasses eauto | apply steps_gets; typeclasses eauto | intros n].
  apply steps_bind; [typeclasses eauto | | intros _; apply evaluation_frame_yield].
  destruct (bool_decide _); apply evaluation_frame_update_state; discriminate.
Qed.

Lemma evaluation_frame_react_or_skip s data :
  steps evaluation_frame (react_or_skip s data).
Proof.
  unfold react_or_skip. cbv zeta.
  apply steps_bind; [typeclasses eauto | | intros _; apply evaluation_frame_yield].
  destruct (truthy_list _).
  - apply steps_for_each; [typeclasses eauto|]. intros reaction.
    apply evaluation_frame_run_reaction.
  - destruct (truthy_str _).
    + apply steps_bind; [typeclasses eauto | apply evaluation_frame_logger | intros _].
      apply evaluation_frame_update_state. discriminate.
    + apply steps_bind; [typeclasses eauto | apply evaluation_frame_logger | intros _].
      apply evaluation_frame_update_state. discriminate.
Qed.

Lemma evaluation_frame_after_evaluation ws s cl data :
  steps evaluation_frame (after_evaluation ws s cl data).
Proof.
  unfold after_evaluation.
  apply steps_bind; [typeclasses eauto | apply evaluation_frame_yield | intros _].
  apply steps_bind; [typeclasses eauto | | intros _].
  { destruct (SensorExecutionData.captured_log_key data) as [[|k ks]|];
      try (apply steps_ret; typeclasses eauto).
    apply evaluation_frame_context. intros c. repeat split. auto. }
  apply steps_bind; [typeclasses eauto | | intros _].
  { apply steps_for_each; [typeclasses eauto|]. intros request.
    apply evaluation_frame_partitions. }
  destruct (negb _).
  - apply evaluation_frame_react_or_skip.
  - apply evaluation_frame_submit_run_requests.
Qed.

Lemma evaluation_frame_evaluate_sensor ws s st :
  steps evaluation_frame (_evaluate_sensor ws s st).
Proof.
  unfold _evaluate_sensor.
  apply steps_bind; [typeclasses eauto | apply evaluation_frame_logger | intros _].
  apply steps_bind; [typeclasses eauto | | intros cl].
  { apply evaluation_frame_in_daemon. apply steps_liftR. typeclasses eauto. }
  apply steps_bind; [typeclasses eauto | | intros data].
  { apply evaluation_frame_in_daemon. apply steps_liftR. typeclasses eauto. }
  apply steps_bind; [typeclasses eauto | | intros rd].
  { apply evaluation_frame_in_daemon. apply steps_liftR. typeclasses eauto. }
  apply evaluation_frame_after_evaluation.
Qed.

(** ** The exit of the launch context, the state of the sensor being stored *)

Lemma write_finished_state c d st data :
  SensorLaunchContext.status c ∈ FINISHED_TICK_STATES ->
  persisted_state (SensorLaunchContext._external_sensor c) (Daemon.instance d) = Some st ->
  InstigatorState.instigator_data st = Some (SensorData data) ->
  let update := negb (bool_decide (SensorLaunchContext.status c = FAILURE))
                || SensorLaunchContext._should_update_cursor_on_failure c in
  let k := SensorLaunchContext._tick c in
  exists d' data',
    SensorLaunchContext._write c d = (Ok tt, d') /\
    DagsterInstance.history (Daemon.instance d')
    = (DagsterInstance.history (Daemon.instance d)
       ++ [OpUpdateTick k;
           OpUpdateInstigatorState (InstigatorState.with_data st data')])%list /\
    persisted_state (SensorLaunchContext._external_sensor c) (Daemon.instance d')
    = Some (InstigatorState.with_data st data') /\
    SensorInstigatorData.last_tick_timestamp data' = Some (InstigatorTick.timestamp k) /\
    SensorInstigatorData.last_tick_start_timestamp data'
    = Some (Z.max (InstigatorTick.timestamp k)
              (or_zero (SensorInstigatorData.last_tick_start_timestamp data))) /\
    SensorInstigatorData.min_interval data'
    = ExternalSensor.min_interval_seconds (SensorLaunchContext._external_sensor c) /\
    SensorInstigatorData.cursor data'
    = (if update then InstigatorTick.cursor k else SensorInstigatorData.cursor data) /\
    SensorInstigatorData.last_run_key data'
    = (if truthy_list (InstigatorTick.run_keys k) && update
       then last (InstigatorTick.run_keys k)
       else SensorInstigatorData.last_run_key data) /\
    DagsterInstance.ticks (Daemon.instance d')
    = <[InstigatorTick.tick_id k := InstigatorTick.tick_data k]>
        (DagsterInstance.ticks (Daemon.instance d)) /\
    Daemon.logged d' = Daemon.logged d /\
    Daemon.yielded d' = Daemon.yielded d /\
    Daemon.pending_close d' = Daemon.pending_close d /\
    Daemon.clock d' = Daemon.clock d /\
    Daemon.clock_reads d' = Daemon.clock_reads d.
Proof.
  intros Hfin Hst Hdata update k.
  unfold SensorLaunchContext._write. unfold bind at 1. simpl.
  rewrite bool_decide_true by assumption. simpl.
  unfold bind at 1. simpl.
  unfold persisted_state in Hst.
  change (DagsterInstance.get_instigator_state _ _
            (DagsterInstance.update_tick _ (Daemon.instance d)))
    with (DagsterInstance.get_instigator_state
            (ExternalSensor.get_external_origin_id (SensorLaunchContext._external_sensor c))
            (ExternalSensor.selector_id (SensorLaunchContext._external_sensor c))
            (Daemon.instance d)).
  rewrite Hst, Hdata. simpl.
  eexists. eexists. split; [reflexivity|]. simpl.
  split; [rewrite <- app_assoc; reflexivity|].
  assert (Hsel : InstigatorState.selector_id st
                 = ExternalSensor.selector_id (SensorLaunchContext._external_sensor c)).
  { eapply persisted_state_selector. exact Hst. }
  split.
  { apply (persisted_state_update _ (DagsterInstance.update_tick _ (Daemon.instance d))).
    exact Hsel. }
  repeat split.
Qed.

Lemma write_unfinished c d :
  SensorLaunchContext.status c ∉ FINISHED_TICK_STATES ->
  SensorLaunchContext._write c d
  = (Ok tt, Daemon.set_instance
              (DagsterInstance.update_tick (SensorLaunchContext._tick c) (Daemon.instance d)) d).
Proof.
  intros Hfin. unfold SensorLaunchContext._write. unfold bind at 1. simpl.
  rewrite bool_decide_false by assumption. reflexivity.
Qed.

(** The instants the purges of an exit read the clock at lie after the
    readings made so far. *)
Lemma purge_loop_clock c ps : forall d d',
  for_each ps (SensorLaunchContext.purge c) d = (Ok tt, d') ->
  Daemon.clock d' = Daemon.clock d /\
  (Daemon.clock_reads d <= Daemon.clock_reads d')%nat /\
  DagsterInstance.tick_count (Daemon.instance d')
  = DagsterInstance.tick_count (Daemon.instance d).
Proof.
  induction ps as [|[off sts] ps IH]; intros d d'; simpl.
  - intros [= <-]. auto.
  - unfold SensorLaunchContext.purge at 1. simpl.
    destruct (off <=? 0).
    + unfold bind at 1. simpl. apply IH.
    + unfold bind at 1. unfold bind at 1. simpl. intros H. apply IH in H.
      simpl in H. destruct H as (? & ? & ?). split; [assumption|]. split; [lia|assumption].
Qed.

Lemma exit_run exc c d st data :
  exc <> Some KeyboardInterrupt ->
  persisted_state (SensorLaunchContext._external_sensor c) (Daemon.instance d) = Some st ->
  InstigatorState.instigator_data st = Some (SensorData data) ->
  let c' := exit_context exc c in
  let k := SensorLaunchContext._tick c' in
  exists d' purges,
    SensorLaunchContext.__exit__ exc c d = (Ok tt, d') /\
    Forall (fun op => is_purge op = true) purges /\
    Daemon.logged d' = Daemon.logged d /\
    Daemon.yielded d' = Daemon.yielded d /\
    Daemon.pending_close d' = Daemon.pending_close d /\
    Daemon.clock d' = Daemon.clock d /\
    DagsterInstance.tick_count (Daemon.instance d')
    = DagsterInstance.tick_count (Daemon.instance d) /\
    ((SensorLaunchContext.status c' ∈ FINISHED_TICK_STATES /\
      exists data',
        DagsterInstance.history (Daemon.instance d')
        = (DagsterInstance.history (Daemon.instance d)
           ++ OpUpdateTick k :: OpUpdateInstigatorState (InstigatorState.with_data st data')
              :: purges)%list /\
        persisted_state (SensorLaunchContext._external_sensor c) (Daemon.instance d')
        = Some (InstigatorState.with_data st data') /\
        SensorInstigatorData.last_tick_timestamp data' = Some (InstigatorTick.timestamp k) /\
        SensorInstigatorData.last_tick_start_timestamp data'
        = Some (Z.max (InstigatorTick.timestamp k)
                  (or_zero (SensorInstigatorData.last_tick_start_timestamp data))) /\
        SensorInstigatorData.min_interval data'
        = ExternalSensor.min_interval_seconds (SensorLaunchContext._external_sensor c)) \/
     (SensorLaunchContext.status c' ∉ FINISHED_TICK_STATES /\
      DagsterInstance.history (Daemon.instance d')
      = (DagsterInstance.history (Daemon.instance d) ++ OpUpdateTick k :: purges)%list /\
      DagsterInstance.instigator_states (Daemon.instance d')
      = DagsterInstance.instigator_states (Daemon.instance d))).
Proof.
  intros Hne Hst Hdata c' k. rewrite exit_unfold by assumption. fold c'.
  destruct (decide (SensorLaunchContext.status c' ∈ FINISHED_TICK_STATES)) as [Hfin|Hfin].
  - destruct (write_finished_state c' d st data Hfin) as
      (d1 & data' & Hw & Hh & Hst' & Hts & Hstart & Hmin & _ & _ & Hticks & Hl & Hy & Hp & Hc & _).
    { subst c'. rewrite exit_context_sensor. exact Hst. }
    { exact Hdata. }
    rewrite (bind_Ok _ _ _ _ _ Hw).
    destruct (purge_loop c' (SensorLaunchContext._purge_settings c) d1)
      as (d' & ops & Hrun & Hh' & Hops & Hstates & Hl' & Hy' & Hp').
    destruct (purge_loop_clock _ _ _ _ Hrun) as (Hc' & _ & Htc).
    exists d', ops. split; [exact Hrun|]. split; [exact Hops|].
    split; [congruence|]. split; [congruence|]. split; [congruence|]. split; [congruence|].
    split.
    { rewrite Htc. unfold SensorLaunchContext._write in Hw. unfold bind at 1 in Hw.
      simpl in Hw. rewrite bool_decide_true in Hw by assumption. simpl in Hw.
      unfold bind at 1 in Hw. simpl in Hw.
      destruct (DagsterInstance.get_instigator_state _ _ _) as [st0|]; [|discriminate].
      destruct (InstigatorState.instigator_data st0) as [[data0|]|]; try discriminate.
      injection Hw as <-. reflexivity. }
    left. split; [exact Hfin|]. exists data'.
    split; [rewrite Hh', Hh, <- app_assoc; reflexivity|].
    subst c'. rewrite exit_context_sensor in *.
    split; [rewrite (persisted_state_ext _ _ _ Hstates); exact Hst'|]. auto.
  - rewrite (bind_Ok _ _ _ _ _ (write_unfinished c' d Hfin)).
    destruct (purge_loop c' (SensorLaunchContext._purge_settings c)
                (Daemon.set_instance
                   (DagsterInstance.update_tick (SensorLaunchContext._tick c')
                      (Daemon.instance d)) d))
      as (d' & ops & Hrun & Hh' & Hops & Hstates & Hl' & Hy' & Hp').
    destruct (purge_loop_clock _ _ _ _ Hrun) as (Hc' & _ & Htc).
    exists d', ops. split; [exact Hrun|]. split; [exact Hops|].
    split; [exact Hl'|]. split; [exact Hy'|]. split; [exact Hp'|]. split; [exact Hc'|].
    split; [exact Htc|].
    right. split; [exact Hfin|]. split; [|exact Hstates].
    rewrite Hh'. simpl. rewrite <- app_assoc. reflexivity.
Qed.

(** ** An evaluation that returns has settled the tick *)

Lemma returns_with_bind {S A B} (Q : S -> Prop) (m : M S A) (k : A -> M S B) :
  (forall a, returns_with Q (k a)) -> returns_with Q (bind m k).
Proof.
  intros Hk s b s2 H. apply bind_inv in H.
  destruct H as [(a & s1 & _ & H2)|(e & _ & Habs)]; [|discriminate].
  eapply Hk. eassumption.
Qed.

Lemma returns_with_then {S A B} (Q : S -> Prop) (R : S -> S -> Prop)
    (m : M S A) (k : A -> M S B) :
  (forall s s', Q s -> R s s' -> Q s') ->
  returns_with Q m -> (forall a, steps R (k a)) -> returns_with Q (bind m k).
Proof.
  intros Hclosed Hm Hk s b s2 H. apply bind_inv in H.
  destruct H as [(a & s1 & H1 & H2)|(e & _ & Habs)]; [|discriminate].
  eapply Hclosed; [eapply Hm; eassumption | eapply Hk; eassumption].
Qed.

Lemma tick_settled_frame sc sc' : tick_settled sc -> evaluation_frame sc sc' -> tick_settled sc'.
Proof. intros Hq (_ & _ & _ & _ & _ & _ & H). apply H. exact Hq. Qed.

Lemma returns_settled_update_state st sr cur o e :
  st <> STARTED ->
  returns_with tick_settled (context_do (SensorLaunchContext.update_state st sr cur o e)).
Proof.
  intros Hst sc [] sc' [= <-]. unfold tick_settled. simpl.
  destruct (update_state_facts st sr cur o e (Scope.context sc)) as (_ & _ & _ & _ & -> & _).
  exact Hst.
Qed.

Lemma returns_settled_run_reaction s cursor reaction :
  returns_with tick_settled (apply_run_reaction s cursor reaction).
Proof.
  unfold apply_run_reaction. apply returns_with_bind. intros run. cbv zeta.
  destruct (DagsterRunReaction.error reaction) as [err|].
  - apply returns_with_bind. intros _.
    eapply returns_with_then; [apply tick_settled_frame | |].
    + apply returns_settled_update_state. discriminate.
    + intros _. apply evaluation_frame_context. intros c. repeat split. auto.
  - do 2 (apply returns_with_bind; intros _).
    apply returns_settled_update_state. discriminate.
Qed.

Lemma returns_settled_reactions s cursor reactions :
  reactions <> [] ->
  returns_with tick_settled (for_each reactions (apply_run_reaction s cursor)).
Proof.
  destruct reactions as [|reaction reactions]; [congruence|]. intros _. simpl.
  eapply returns_with_then; [apply tick_settled_frame | apply returns_settled_run_reaction |].
  intros _. apply steps_for_each; [typeclasses eauto|]. intros x.
  apply evaluation_frame_run_reaction.
Qed.

Lemma returns_settled_react_or_skip s data :
  returns_with tick_settled (react_or_skip s data).
Proof.
  unfold react_or_skip. cbv zeta.
  eapply returns_with_then; [apply tick_settled_frame | | intros _; apply evaluation_frame_yield].
  destruct (SensorExecutionData.dagster_run_reactions data) as [|x xs] eqn:Hreact.
  - simpl. destruct (truthy_str _); apply returns_with_bind; intros _;
      apply returns_settled_update_state; discriminate.
  - apply returns_settled_reactions. discriminate.
Qed.

Lemma returns_settled_submit_run_requests ws s cl data :
  returns_with tick_settled (submit_run_requests ws s cl data).
Proof.
  unfold submit_run_requests. cbv zeta.
  do 4 (apply returns_with_bind; intros ?).
  eapply returns_with_then; [apply tick_settled_frame | | intros _; apply evaluation_frame_yield].
  destruct (bool_decide _); apply returns_settled_update_state; discriminate.
Qed.

Lemma returns_settled_evaluate_sensor ws s st :
  returns_with tick_settled (_evaluate_sensor ws s st).
Proof.
  unfold _evaluate_sensor. do 4 (apply returns_with_bind; intros ?).
  unfold after_evaluation. do 3 (apply returns_with_bind; intros ?).
  destruct (negb _).
  - apply returns_settled_react_or_skip.
  - apply returns_settled_submit_run_requests.
Qed.

Lemma settled_finished c :
  SensorLaunchContext.status c <> STARTED ->
  SensorLaunchContext.status c ∈ FINISHED_TICK_STATES.
Proof.
  unfold FINISHED_TICK_STATES. destruct (SensorLaunchContext.status c); [congruence| | |];
    intros _; set_solver.
Qed.

Lemma exit_context_same_attempt exc c :
  same_attempt (SensorLaunchContext._tick c) (SensorLaunchContext._tick (exit_context exc c)).
Proof.
  unfold exit_context. destruct exc as [e|]; [|reflexivity].
  destruct (negb _); [|reflexivity]. apply same_attempt_update_state. discriminate.
Qed.

(** ** The run of a claimed tick *)

Lemma started_frame_history s st d :
  DagsterInstance.history (Daemon.instance (started_frame s st d))
  = (DagsterInstance.history (Daemon.instance d)
     ++ [OpUpdateInstigatorState (stamped_state s st d); OpCreateTick (started_tick s st d)])%list.
Proof. simpl. rewrite <- app_assoc. reflexivity. Qed.

Lemma report_outcome_run s (block : M Daemon.t unit) d0 rb d1 :
  block d0 = (rb, d1) ->
  exists r d',
    report_outcome s block d0 = (r, d') /\
    Daemon.instance d' = Daemon.instance d1 /\
    Daemon.clock d' = Daemon.clock d1 /\
    Daemon.clock_reads d' = Daemon.clock_reads d1 /\
    match rb with
    | Ok _ =>
        (r = Ok tt \/ r = Raise GeneratorExit) /\
        Daemon.logged d' = Daemon.logged d1 /\
        Daemon.yielded d' = (Daemon.yielded d1 ++ [None])%list
    | Raise e =>
        if is_Exception e
        then (r = Ok tt \/ r = Raise GeneratorExit) /\
             Daemon.logged d'
             = (Daemon.logged d1
                ++ [(ERROR, "Sensor daemon caught an error for sensor "
                            +:+ ExternalSensor.name s)])%list /\
             Daemon.yielded d'
             = (Daemon.yielded d1 ++ [Some (serializable_error_info_from_exc_info e)])%list
        else r = Raise e /\ d' = d1
    end.
Proof.
  intros Hb. unfold report_outcome. unfold bind at 1. unfold try_except.
  unfold bind at 1. rewrite Hb. destruct rb as [[]|e].
  - unfold ret at 1. cbv beta iota.
    destruct (yield_run None d1) as (r & d' & Hy & Hr & _ & Hi & Hl & Hc & Hcr).
    rewrite Hy. exists r, d'. split; [reflexivity|]. split; [exact Hi|].
    split; [exact Hc|]. split; [exact Hcr|]. split; [exact Hr|]. split; [exact Hl|].
    unfold yield_ in Hy. destruct (Daemon.pending_close d1) as [[|n]|];
      injection Hy as _ <-; reflexivity.
  - destruct (is_Exception e) eqn:He.
    + cbv zeta. unfold bind at 1. unfold logger, modify. cbv beta iota.
      unfold ret at 1. cbv beta iota.
      match goal with |- context [yield_ ?v ?d2] =>
        destruct (yield_run v d2) as (r & d' & Hy & Hr & _ & Hi & Hl & Hc & Hcr);
        rewrite Hy; exists r, d'; split; [reflexivity|];
        split; [exact Hi|]; split; [exact Hc|]; split; [exact Hcr|];
        split; [exact Hr|]; split; [exact Hl|];
        unfold yield_ in Hy; simpl in Hy;
        destruct (Daemon.pending_close d1) as [[|n]|]; injection Hy as _ <-; reflexivity
      end.
    + exists (Raise e), d1. repeat split; reflexivity.
Qed.

(** The run of a tick that is claimed: the evaluation, the exit of the
    launch context and the report of the outcome. *)
Lemma claimed_tick_run ws s settings d st r d' :
  persisted_state s (Daemon.instance d) = Some st ->
  InstigatorState.instigator_data st <> Some ScheduleData ->
  _is_under_min_interval (Daemon.clock d (S (Daemon.clock_reads d))) st s = Ok false ->
  _process_tick_generator ws s settings d = (r, d') ->
  let frame := started_frame s st d in
  let c0 := SensorLaunchContext.new s (started_tick s st d) settings in
  exists rb sc,
    _evaluate_sensor ws s st (Scope.mk frame c0) = (rb, sc) /\
    evaluation_frame (Scope.mk frame c0) sc /\
    persisted_state s (Daemon.instance (Scope.daemon sc)) = Some (stamped_state s st d) /\
    let exc := match rb with Ok _ => None | Raise e => Some e end in
    ((exc = Some KeyboardInterrupt /\ r = Raise KeyboardInterrupt /\ d' = Scope.daemon sc) \/
     (exc <> Some KeyboardInterrupt /\
      exists d1,
        SensorLaunchContext.__exit__ exc (Scope.context sc) (Scope.daemon sc) = (Ok tt, d1) /\
        Daemon.instance d' = Daemon.instance d1 /\
        (r = Ok tt \/ r = Raise GeneratorExit) /\
        (r = Ok tt -> exc <> Some GeneratorExit))).
Proof.
  intros Hst Hdata Hfree Hrun frame c0.
  rewrite (process_tick_claimed ws s settings d st Hst Hdata Hfree) in Hrun.
  fold frame c0 in Hrun.
  destruct (_evaluate_sensor ws s st (Scope.mk frame c0)) as [rb sc] eqn:Hbody.
  exists rb, sc. split; [reflexivity|].
  pose proof (evaluation_frame_evaluate_sensor ws s st _ _ _ Hbody) as Hframe.
  split; [exact Hframe|].
  assert (Hpst : persisted_state s (Daemon.instance (Scope.daemon sc))
                 = Some (stamped_state s st d)).
  { destruct Hframe as ((Hstates & _) & _).
    rewrite (persisted_state_ext s _ _ Hstates).
    apply persisted_state_started_frame. exact Hst. }
  split; [exact Hpst|]. cbv zeta.
  set (exc := match rb with Ok _ => None | Raise e => Some e end).
  pose proof (with_context_unfold c0 (_evaluate_sensor ws s st) frame rb sc Hbody) as Hwith.
  fold exc in Hwith.
  destruct (decide (exc = Some KeyboardInterrupt)) as [Hki|Hki].
  - left. split; [exact Hki|].
    rewrite Hki, exit_interrupted in Hwith.
    assert (Hrb : rb = Raise KeyboardInterrupt).
    { subst exc. destruct rb as [a|e]; [discriminate|congruence]. }
    rewrite Hrb in Hwith.
    destruct (report_outcome_run s _ _ _ _ Hwith) as (r1 & d1 & Hrep & _ & _ & _ & Hout).
    simpl in Hout. destruct Hout as [-> ->]. rewrite Hrep in Hrun.
    injection Hrun as <- <-. auto.
  - right. split; [exact Hki|].
    assert (Hsensor : SensorLaunchContext._external_sensor (Scope.context sc) = s).
    { destruct Hframe as (_ & Hs & _). exact Hs. }
    destruct (exit_run exc (Scope.context sc) (Scope.daemon sc) (stamped_state s st d)
                (SensorInstigatorData.mk
                   (sensor_data_of (Some st) ≫= SensorInstigatorData.last_tick_timestamp)
                   (sensor_data_of (Some st) ≫= SensorInstigatorData.last_run_key)
                   (ExternalSensor.min_interval_seconds s)
                   (sensor_data_of (Some st) ≫= SensorInstigatorData.cursor)
                   (Some (Daemon.clock d (Daemon.clock_reads d)))) Hki)
      as (d1 & purges & Hexit & _).
    { rewrite Hsensor. exact Hpst. }
    { reflexivity. }
    exists d1. split; [exact Hexit|]. rewrite Hexit in Hwith.
    destruct (report_outcome_run s _ _ _ _ Hwith) as (r1 & d2 & Hrep & Hi & _ & _ & Hout).
    rewrite Hrep in Hrun. injection Hrun as <- <-. split; [exact Hi|].
    destruct rb as [[]|e]; simpl in Hout.
    + destruct Hout as (Hr & _). split; [exact Hr|]. intros _. discriminate.
    + destruct e as [| |msg]; simpl in Hout.
      * exfalso. apply Hki. reflexivity.
      * destruct Hout as [-> _]. split; [auto|]. discriminate.
      * destruct Hout as (Hr & _). split; [exact Hr|]. intros _. discriminate.
Qed.

(** What a claimed tick leaves in the store, with the tick its exit wrote. *)
Lemma claimed_tick_exit ws s settings d st r d' :
  persisted_state s (Daemon.instance d) = Some st ->
  InstigatorState.instigator_data st <> Some ScheduleData ->
  _is_under_min_interval (Daemon.clock d (S (Daemon.clock_reads d))) st s = Ok false ->
  _process_tick_generator ws s settings d = (r, d') ->
  let k0 := started_tick s st d in
  exists ops,
    Forall (fun op => is_evaluation_op op = true) ops /\
    ((r = Raise KeyboardInterrupt /\
      DagsterInstance.history (Daemon.instance d')
      = (DagsterInstance.history (Daemon.instance d)
         ++ [OpUpdateInstigatorState (stamped_state s st d); OpCreateTick k0] ++ ops)%list) \/
     exists k purges,
       (r = Ok tt \/ r = Raise GeneratorExit) /\
       InstigatorTick.tick_id k = InstigatorTick.tick_id k0 /\
       InstigatorTick.timestamp k = InstigatorTick.timestamp k0 /\
       Forall (fun op => is_purge op = true) purges /\
       (r = Ok tt -> InstigatorTick.status k ∈ FINISHED_TICK_STATES) /\
       ((InstigatorTick.status k ∉ FINISHED_TICK_STATES /\
         DagsterInstance.history (Daemon.instance d')
         = (DagsterInstance.history (Daemon.instance d)
            ++ [OpUpdateInstigatorState (stamped_state s st d); OpCreateTick k0] ++ ops
            ++ OpUpdateTick k :: purges)%list) \/
        (InstigatorTick.status k ∈ FINISHED_TICK_STATES /\
         exists data',
           DagsterInstance.history (Daemon.instance d')
           = (DagsterInstance.history (Daemon.instance d)
              ++ [OpUpdateInstigatorState (stamped_state s st d); OpCreateTick k0] ++ ops
              ++ OpUpdateTick k
                 :: OpUpdateInstigatorState
                      (InstigatorState.with_data (stamped_state s st d) data')
                 :: purges)%list /\
           persisted_state s (Daemon.instance d')
           = Some (InstigatorState.with_data (stamped_state s st d) data') /\
           SensorInstigatorData.last_tick_timestamp data'
           = Some (InstigatorTick.timestamp k0) /\
           SensorInstigatorData.last_tick_start_timestamp data'
           = Some (InstigatorTick.timestamp k0) /\
           SensorInstigatorData.min_interval data' = ExternalSensor.min_interval_seconds s))).
Proof.
  intros Hst Hdata Hfree Hrun k0.
  destruct (claimed_tick_run ws s settings d st r d' Hst Hdata Hfree Hrun)
    as (rb & sc & Hbody & Hframe & Hpst & Hcases).
  pose proof Hframe as ((_ & _ & _ & _ & _ & ops & Hh & Hops) & Hsensor & _ & Hk).
  cbn [Scope.daemon Scope.context] in Hh, Hsensor, Hk.
  change (SensorLaunchContext._external_sensor
            (SensorLaunchContext.new s (started_tick s st d) settings)) with s in Hsensor.
  change (SensorLaunchContext._tick
            (SensorLaunchContext.new s (started_tick s st d) settings)) with k0 in Hk.
  rewrite started_frame_history in Hh.
  exists ops. split; [exact Hops|].
  destruct Hcases as [(_ & -> & ->)|(Hki & d1 & Hexit & Hi & Hr & Hgen)].
  - left. split; [reflexivity|]. rewrite Hh, <- app_assoc. reflexivity.
  - right. cbv zeta in Hexit.
    set (exc := match rb with Ok _ => None | Raise e => Some e end) in *.
    set (k := SensorLaunchContext._tick (exit_context exc (Scope.context sc))).
    assert (Hk' : same_attempt k0 k).
    { transitivity (SensorLaunchContext._tick (Scope.context sc)); [exact Hk|].
      apply exit_context_same_attempt. }
    destruct Hk' as (Hid & Hts & _ & _).
    destruct (exit_run exc (Scope.context sc) (Scope.daemon sc) (stamped_state s st d)
                (SensorInstigatorData.mk
                   (sensor_data_of (Some st) ≫= SensorInstigatorData.last_tick_timestamp)
                   (sensor_data_of (Some st) ≫= SensorInstigatorData.last_run_key)
                   (ExternalSensor.min_interval_seconds s)
                   (sensor_data_of (Some st) ≫= SensorInstigatorData.cursor)
                   (Some (Daemon.clock d (Daemon.clock_reads d)))) Hki)
      as (d2 & purges & Hexit2 & Hpurges & _ & _ & _ & _ & _ & Hwritten).
    { rewrite Hsensor. exact Hpst. }
    { reflexivity. }
    rewrite Hexit in Hexit2. injection Hexit2 as <-.
    exists k, purges. split; [exact Hr|]. split; [exact Hid|]. split; [exact Hts|].
    split; [exact Hpurges|]. split.
    { intros Hok. specialize (Hgen Hok). apply settled_finished.
      change (SensorLaunchContext.status (exit_context exc (Scope.context sc)) <> STARTED).
      rewrite exit_context_status. subst exc.
      destruct rb as [[]|[| |msg]]; try discriminate; try congruence.
      apply (returns_settled_evaluate_sensor ws s st _ _ _ Hbody). }
    fold k in Hwritten. rewrite Hi.
    destruct Hwritten as [(Hfin & data' & Hh2 & Hst' & Hlast & Hstart & Hmin)
                         |(Hfin & Hh2 & _)].
    + right. split; [exact Hfin|]. exists data'.
      split; [rewrite Hh2, Hh, <- !app_assoc; reflexivity|].
      rewrite Hsensor in Hst', Hmin. split; [exact Hst'|].
      rewrite Hlast, Hstart, Hts. unfold k0 at 1 2 3. simpl.
      split; [reflexivity|]. split; [|exact Hmin].
      subst k0. f_equal. rewrite or_zero_default.
      change (InstigatorTick.timestamp (started_tick s st d))
        with (Daemon.clock d (Daemon.clock_reads d)).
      simpl. lia.
    + left. split; [exact Hfin|]. rewrite Hh2, Hh, <- !app_assoc. reflexivity.
Qed.



(** A tick that ran to its end stamps the state with its own start: the
    last tick and the start of the last tick are both the instant the
    attempt began, and the interval is the sensor's.  An attempt that
    checks its throttle less than the minimum interval after that instant
    is throttled: it returns without a write. *)
Theorem completed_tick_throttles (ws : Workspace.t) (s : ExternalSensor.t)
    (settings : list (TickStatus * Z)) (d d' : Daemon.t) (st : InstigatorState.t) (I : Z) :
  persisted_state s (Daemon.instance d) = Some st ->
  InstigatorState.instigator_data st <> Some ScheduleData ->
  _is_under_min_interval (Daemon.clock d (S (Daemon.clock_reads d))) st s = Ok false ->
  _process_tick_generator ws s settings d = (Ok tt, d') ->
  ExternalSensor.min_interval_seconds s = Some I ->
  let now := Daemon.clock d (Daemon.clock_reads d) in
  exists st' data',
    persisted_state s (Daemon.instance d') = Some st' /\
    InstigatorState.instigator_data st' = Some (SensorData data') /\
    SensorInstigatorData.last_tick_timestamp data' = Some now /\
    SensorInstigatorData.last_tick_start_timestamp data' = Some now /\
    SensorInstigatorData.min_interval data' = Some I /\
    forall d2 ws2 settings2,
      Daemon.instance d2 = Daemon.instance d' ->
      now <> 0 -> I <> 0 ->
      Daemon.clock d2 (S (Daemon.clock_reads d2)) - now < I ->
      (_process_tick_generator ws2 s settings2 d2).1 = Ok tt /\
      Daemon.instance (_process_tick_generator ws2 s settings2 d2).2 = Daemon.instance d2 /\
      Daemon.yielded (_process_tick_generator ws2 s settings2 d2).2 = Daemon.yielded d2.
Proof.
  intros Hst Hdata Hfree Hrun HI now.
  destruct (claimed_tick_exit ws s settings d st (Ok tt) d' Hst Hdata Hfree Hrun)
    as (ops & Hops & [(Hr & _)|(k & purges & _ & _ & _ & _ & Hfin & Hcases)]);
    [discriminate|].
  destruct Hcases as [(Hnot & _)|(_ & data' & _ & Hst' & Hlast & Hstart & Hmin)].
  { exfalso. apply Hnot, Hfin. reflexivity. }
  exists (InstigatorState.with_data (stamped_state s st d) data'), data'.
  split; [exact Hst'|]. split; [reflexivity|]. split; [exact Hlast|].
  split; [exact Hstart|]. split; [congruence|].
  intros d2 ws2 settings2 Hi2 Hnow HI0 Hcheck.
  assert (Hst2 : persisted_state s (Daemon.instance d2)
                 = Some (InstigatorState.with_data (stamped_state s st d) data'))
    by (rewrite Hi2; exact Hst').
  assert (Hdata2 : InstigatorState.instigator_data
                     (InstigatorState.with_data (stamped_state s st d) data')
                   <> Some ScheduleData) by (simpl; discriminate).
  pose proof (claim_tick_run s d2 _ Hst2 Hdata2) as Hclaim.
  rewrite (is_under_min_interval_stamped _ _ s data' now I) in Hclaim;
    try assumption; try reflexivity.
  2:{ rewrite Hlast. simpl. fold now. lia. }
  unfold _process_tick_generator, bind. rewrite Hclaim. simpl. auto.
Qed.

Lemma completed_tick_throttles_witness :
  let data := Examples.execution_data [] (Some "c1") in
  let ws := Examples.workspace (Ok data) (fun _ => Ok tt) in
  let st := Examples.state_with (Some (SensorData Examples.data_started_100)) in
  let d := Examples.daemon_at (Examples.instance_with Examples.data_started_100) 200 1 in
  let out := _process_tick_generator ws Examples.sensor [(SKIPPED, 7)] d in
  let again := _process_tick_generator ws Examples.sensor [(SKIPPED, 7)] out.2 in
  persisted_state Examples.sensor (Daemon.instance d) = Some st
  /\ _is_under_min_interval (Daemon.clock d 1) st Examples.sensor = Ok false
  /\ out.1 = Ok tt
  /\ persisted_tick_start Examples.sensor (Daemon.instance out.2) = Some 200
  /\ again.1 = Ok tt
  /\ Daemon.instance again.2 = Daemon.instance out.2.
Proof.
  intros data ws st d out again.
  assert (Hst : persisted_state Examples.sensor (Daemon.instance d) = Some st)
    by (vm_compute; reflexivity).
  assert (Hout : out.1 = Ok tt) by (vm_compute; reflexivity).
  split; [exact Hst|]. split; [vm_compute; reflexivity|]. split; [exact Hout|].
  destruct (completed_tick_throttles ws Examples.sensor [(SKIPPED, 7)] d out.2 st 60 Hst)
    as (st' & data' & Hst' & Hdata' & _ & Hstart & _ & Hnext).
  - vm_compute. discriminate.
  - vm_compute. reflexivity.
  - rewrite <- Hout. apply surjective_pairing.
  - reflexivity.
  - split.
    { unfold persisted_tick_start, sensor_data_of. rewrite Hst'. simpl. rewrite Hdata'.
      exact Hstart. }
    destruct (Hnext out.2 ws [(SKIPPED, 7)] eq_refl) as (H1 & H2 & _).
    + vm_compute. discriminate.
    + lia.
    + vm_compute. reflexivity.
    + split; assumption.
Defined.
